(** * Data-access layer over the hosted relational store (src/lib/supabase.ts)

    A shallow embedding of the seven exported helpers of [src/lib/supabase.ts]
    together with a model of the store client they drive: a query builder
    whose calls accumulate filters, sort keys and a row window, and a store
    that answers one request at a time and may report an error instead.

    The store is an external service.  Its model here is a relational table
    read by filtering, sorting and cutting a window, in that order; a
    comparison with a null column never holds; text is ordered by code unit
    and nulls sort after every value; a request the store fails leaves the
    tables as they were.  Strings are sequences of 8-bit code units.

    Layout: JavaScript helpers, store values and their order, the generic
    relational executor, the two tables, the effect monad, the exported
    functions, then the properties. *)

From Stdlib Require Import List String Ascii ZArith NArith Bool Lia Sorted
  Permutation PeanoNat Btauto.
Import ListNotations.
Open Scope string_scope.

(** ** JavaScript helpers *)

Module Js.

(** Truthiness of an optional string: [undefined] and the empty string are
    falsy. *)
Definition truthy_str (o : option string) : bool :=
  match o with
  | Some s => negb (String.eqb s EmptyString)
  | None => false
  end.

(** Truthiness of an optional count: [undefined] and [0] are falsy. *)
Definition truthy_num (o : option nat) : bool :=
  match o with
  | Some n => negb (Nat.eqb n 0)
  | None => false
  end.

(** [x || d] on an optional string. *)
Definition or_str (o : option string) (d : string) : string :=
  match o with
  | Some s => if String.eqb s EmptyString then d else s
  | None => d
  end.

(** [x || d] on an optional count. *)
Definition or_num (o : option nat) (d : nat) : nat :=
  match o with
  | Some n => if Nat.eqb n 0 then d else n
  | None => d
  end.

(** The class [\s] of the regular expressions, on the code units below 256:
    tab, line feed, vertical tab, form feed, carriage return, space and the
    no-break space. *)
Definition is_space (c : ascii) : bool :=
  let n := nat_of_ascii c in
  (Nat.leb 9 n && Nat.leb n 13) || Nat.eqb n 32 || Nat.eqb n 160.

(** [s.split(/\s+/)]: the pieces between maximal runs of white space; a
    run at either end leaves an empty piece there.  [sep] tells that the
    previous character belonged to a separator, [cur] is the piece read so
    far. *)
Fixpoint split_from (sep : bool) (cur : string) (s : string) : list string :=
  match s with
  | EmptyString => [cur]
  | String c rest =>
      if is_space c then
        if sep then split_from true cur rest
        else cur :: split_from true EmptyString rest
      else split_from false (cur ++ String c EmptyString) rest
  end.

Definition split_ws (s : string) : list string := split_from false EmptyString s.

(** [xs.filter(Boolean)] on strings: the empty strings are dropped. *)
Definition filter_Boolean (xs : list string) : list string :=
  filter (fun x => negb (String.eqb x EmptyString)) xs.

(** A string made of white space only. *)
Fixpoint all_space (s : string) : bool :=
  match s with
  | EmptyString => true
  | String c rest => is_space c && all_space rest
  end.

End Js.

(** ** Store values and their order *)

(** JavaScript numbers are carried through this module without any
    arithmetic on them (prices and totals are stored and read back), so the
    numeric columns hold integers here. *)
Definition number := Z.

Inductive Value : Type :=
| VNull
| VNum (z : number)
| VText (s : string).

Definition rank (v : Value) : nat :=
  match v with
  | VNum _ => 0
  | VText _ => 1
  | VNull => 2
  end.

(** The store's order on column values: numbers by magnitude, text by code
    unit, and the null value after every other value (so it comes last in an
    ascending sort and first in a descending one). *)
Definition value_compare (x y : Value) : comparison :=
  match x, y with
  | VNum a, VNum b => Z.compare a b
  | VText a, VText b => String.compare a b
  | _, _ => Nat.compare (rank x) (rank y)
  end.

(** ** Sorting by a three-way comparison *)

Section Sorting.
Context {A : Type}.
Variable cmp : A -> A -> comparison.

Definition cmp_leb (x y : A) : bool :=
  match cmp x y with
  | Gt => false
  | _ => true
  end.

Fixpoint insert_sorted (x : A) (l : list A) : list A :=
  match l with
  | [] => [x]
  | y :: l' => if cmp_leb x y then x :: y :: l' else y :: insert_sorted x l'
  end.

(** A stable sort: rows that compare equal keep their table order. *)
Definition sort_by (l : list A) : list A :=
  fold_right insert_sorted [] l.

End Sorting.

(** ** The store client: errors, responses, query builder *)

(** The error object of the store client. *)
Record PgError : Type := { code : string; message : string }.

(** What a request resolves to: [{ data, error, count }]. *)
Record Response (A : Type) : Type :=
  { data : option A; error : option PgError; count : option nat }.
Arguments data {A} _.
Arguments error {A} _.
Arguments count {A} _.

Definition ok_response {A} (d : A) (c : option nat) : Response A :=
  {| data := Some d; error := None; count := c |}.

Definition error_response {A} (e : PgError) : Response A :=
  {| data := None; error := Some e; count := None |}.

(** The store's answer to a column name it does not know. *)
Definition undefined_column : PgError :=
  {| code := "42703"; message := "column does not exist" |}.

(** The store's answer to [.single()] when the result is not exactly one
    row. *)
Definition no_single_row : PgError :=
  {| code := "PGRST116";
     message := "JSON object requested, multiple (or no) rows returned" |}.

(** The store's answer to a row written without one of its key columns. *)
Definition not_null_violation : PgError :=
  {| code := "23502"; message := "null value in key column" |}.

(** The store's answer to a conflict target that is no declared uniqueness
    constraint. *)
Definition no_such_constraint : PgError :=
  {| code := "42P10"; message := "no unique constraint matches the conflict target" |}.

(** The filter calls of the builder; each names its column by a string. *)
Inductive Filter : Type :=
| FEq (col : string) (v : Value)
| FIn (col : string) (vs : list string)
| FGte (col : string) (v : Value)
| FLte (col : string) (v : Value)
| FLt (col : string) (v : Value).

(** The state of a read query under construction. *)
Record Query : Type :=
  { q_count : bool;
    q_orders : list (string * bool);
    q_filters : list Filter;
    q_limit : option nat;
    q_offset : option nat }.

(** [.select('*')] and [.select('*', { count: 'exact' })]. *)
Definition select (with_count : bool) : Query :=
  {| q_count := with_count; q_orders := []; q_filters := [];
     q_limit := None; q_offset := None |}.

(** [.order(col, { ascending })]: a further, less significant sort key. *)
Definition order (col : string) (ascending : bool) (q : Query) : Query :=
  {| q_count := q_count q; q_orders := q_orders q ++ [(col, ascending)];
     q_filters := q_filters q; q_limit := q_limit q; q_offset := q_offset q |}.

Definition add_filter (f : Filter) (q : Query) : Query :=
  {| q_count := q_count q; q_orders := q_orders q;
     q_filters := q_filters q ++ [f];
     q_limit := q_limit q; q_offset := q_offset q |}.

Definition eq_ (col : string) (v : Value) : Query -> Query := add_filter (FEq col v).
Definition in_ (col : string) (vs : list string) : Query -> Query := add_filter (FIn col vs).
Definition gte (col : string) (v : Value) : Query -> Query := add_filter (FGte col v).
Definition lte (col : string) (v : Value) : Query -> Query := add_filter (FLte col v).
Definition lt (col : string) (v : Value) : Query -> Query := add_filter (FLt col v).

(** [.limit(n)]. *)
Definition limit (n : nat) (q : Query) : Query :=
  {| q_count := q_count q; q_orders := q_orders q; q_filters := q_filters q;
     q_limit := Some n; q_offset := q_offset q |}.

(** [.range(from, to)]: skip [from] rows and keep [to - from + 1]. *)
Definition range (from to : nat) (q : Query) : Query :=
  {| q_count := q_count q; q_orders := q_orders q; q_filters := q_filters q;
     q_limit := Some (to - from + 1); q_offset := Some from |}.

(** ** The relational executor, for any table *)

Section Relational.
Context {R : Type}.
(** The table's columns: the reader of each column the table has. *)
Variable column : string -> option (R -> Value).

(** A comparison with the null value never holds. *)
Definition holds (test : comparison -> bool) (x y : Value) : bool :=
  match x, y with
  | VNull, _ => false
  | _, VNull => false
  | _, _ => test (value_compare x y)
  end.

Definition is_Eq (c : comparison) : bool := match c with Eq => true | _ => false end.
Definition is_Lt (c : comparison) : bool := match c with Lt => true | _ => false end.
Definition not_Lt (c : comparison) : bool := negb (is_Lt c).
Definition not_Gt (c : comparison) : bool := match c with Gt => false | _ => true end.

(** The row test of one filter; [None] when the column is unknown. *)
Definition eval_filter (f : Filter) : option (R -> bool) :=
  match f with
  | FEq c v =>
      option_map (fun get r => holds is_Eq (get r) v) (column c)
  | FIn c vs =>
      option_map (fun get r => existsb (fun s => holds is_Eq (get r) (VText s)) vs)
                 (column c)
  | FGte c v =>
      option_map (fun get r => holds not_Lt (get r) v) (column c)
  | FLte c v =>
      option_map (fun get r => holds not_Gt (get r) v) (column c)
  | FLt c v =>
      option_map (fun get r => holds is_Lt (get r) v) (column c)
  end.

(** All filters of a query hold together. *)
Fixpoint eval_filters (fs : list Filter) : option (R -> bool) :=
  match fs with
  | [] => Some (fun _ => true)
  | f :: fs' =>
      match eval_filter f, eval_filters fs' with
      | Some p, Some ps => Some (fun r => p r && ps r)
      | _, _ => None
      end
  end.

Fixpoint eval_orders (os : list (string * bool))
  : option (list ((R -> Value) * bool)) :=
  match os with
  | [] => Some []
  | (c, asc) :: os' =>
      match column c, eval_orders os' with
      | Some get, Some ks => Some ((get, asc) :: ks)
      | _, _ => None
      end
  end.

(** Comparison of two rows by a list of sort keys, most significant
    first; a descending key compares the other way round. *)
Fixpoint compare_rows (ks : list ((R -> Value) * bool)) (x y : R) : comparison :=
  match ks with
  | [] => Eq
  | (get, asc) :: ks' =>
      match (if asc then value_compare (get x) (get y)
             else value_compare (get y) (get x)) with
      | Eq => compare_rows ks' x y
      | c => c
      end
  end.

(** The rows from position [offset] on, at most [limit] of them. *)
Definition window (offset limit : option nat) (l : list R) : list R :=
  let l' := match offset with Some k => skipn k l | None => l end in
  match limit with
  | Some n => firstn n l'
  | None => l'
  end.

(** A read: filter, sort, cut the window; the exact count is the number
    of rows that pass the filters. *)
Definition exec_select (rows : list R) (q : Query) : Response (list R) :=
  match eval_filters (q_filters q), eval_orders (q_orders q) with
  | Some keep, Some ks =>
      let matched := filter keep rows in
      ok_response (window (q_offset q) (q_limit q)
                          (sort_by (compare_rows ks) matched))
                  (if q_count q then Some (List.length matched) else None)
  | _, _ => error_response undefined_column
  end.

(** [.single()]: exactly one row, or an error. *)
Definition single (r : Response (list R)) : Response R :=
  match error r, data r with
  | Some e, _ => error_response e
  | None, Some [x] => ok_response x (count r)
  | None, _ => error_response no_single_row
  end.

End Relational.

(** ** The two tables *)

(** Modelled from the spec: the declaration of the two tables is not part of
    the source file; the columns are those the specification lists for
    [stock_queries] and [session], with the key columns [from_date], [emiten]
    and [id] always present in a stored row and every other column
    nullable. *)
Record Row : Type :=
  { r_id : nat;
    r_from_date : string;
    r_emiten : string;
    r_sector : option string;
    r_to_date : option string;
    r_bandar : option string;
    r_barang_bandar : option number;
    r_rata_rata_bandar : option number;
    r_harga : option number;
    r_ara : option number;
    r_arb : option number;
    r_fraksi : option number;
    r_total_bid : option number;
    r_total_offer : option number;
    r_total_papan : option number;
    r_rata_rata_bid_ofer : option number;
    r_a : option number;
    r_p : option number;
    r_target_realistis : option number;
    r_target_max : option number;
    r_status : option string;
    r_error_message : option string;
    r_real_harga : option number }.

Record SessionRow : Type :=
  { s_key : string; s_value : string; s_updated_at : string }.

Definition vtext (o : option string) : Value :=
  match o with Some s => VText s | None => VNull end.

Definition vnum (o : option number) : Value :=
  match o with Some n => VNum n | None => VNull end.

(** The columns of [stock_queries] by name. *)
Definition stock_columns : list (string * (Row -> Value)) :=
  [ ("id", fun r => VNum (Z.of_nat (r_id r)));
    ("from_date", fun r => VText (r_from_date r));
    ("emiten", fun r => VText (r_emiten r));
    ("sector", fun r => vtext (r_sector r));
    ("to_date", fun r => vtext (r_to_date r));
    ("bandar", fun r => vtext (r_bandar r));
    ("barang_bandar", fun r => vnum (r_barang_bandar r));
    ("rata_rata_bandar", fun r => vnum (r_rata_rata_bandar r));
    ("harga", fun r => vnum (r_harga r));
    ("ara", fun r => vnum (r_ara r));
    ("arb", fun r => vnum (r_arb r));
    ("fraksi", fun r => vnum (r_fraksi r));
    ("total_bid", fun r => vnum (r_total_bid r));
    ("total_offer", fun r => vnum (r_total_offer r));
    ("total_papan", fun r => vnum (r_total_papan r));
    ("rata_rata_bid_ofer", fun r => vnum (r_rata_rata_bid_ofer r));
    ("a", fun r => vnum (r_a r));
    ("p", fun r => vnum (r_p r));
    ("target_realistis", fun r => vnum (r_target_realistis r));
    ("target_max", fun r => vnum (r_target_max r));
    ("status", fun r => vtext (r_status r));
    ("error_message", fun r => vtext (r_error_message r));
    ("real_harga", fun r => vnum (r_real_harga r)) ].

Definition session_columns : list (string * (SessionRow -> Value)) :=
  [ ("key", fun r => VText (s_key r));
    ("value", fun r => VText (s_value r));
    ("updated_at", fun r => VText (s_updated_at r)) ].

Fixpoint lookup_column {R} (cols : list (string * (R -> Value))) (name : string)
  : option (R -> Value) :=
  match cols with
  | [] => None
  | (n, get) :: cols' => if String.eqb n name then Some get else lookup_column cols' name
  end.

Definition stock_column : string -> option (Row -> Value) :=
  lookup_column stock_columns.

Definition session_column : string -> option (SessionRow -> Value) :=
  lookup_column session_columns.

(** The body of a write to [stock_queries]: the columns the caller's object
    carries; a property left [undefined] is not sent. *)
Record StockPatch : Type :=
  { p_from_date : option string;
    p_emiten : option string;
    p_sector : option string;
    p_to_date : option string;
    p_bandar : option string;
    p_barang_bandar : option number;
    p_rata_rata_bandar : option number;
    p_harga : option number;
    p_ara : option number;
    p_arb : option number;
    p_fraksi : option number;
    p_total_bid : option number;
    p_total_offer : option number;
    p_total_papan : option number;
    p_rata_rata_bid_ofer : option number;
    p_a : option number;
    p_p : option number;
    p_target_realistis : option number;
    p_target_max : option number;
    p_status : option string;
    p_error_message : option string;
    p_real_harga : option number }.

(** A sent column replaces the stored one, a column not sent is kept. *)
Definition over {A} (sent stored : option A) : option A :=
  match sent with
  | Some v => Some v
  | None => stored
  end.

Definition apply_patch (p : StockPatch) (r : Row) : Row :=
  {| r_id := r_id r;
     r_from_date := match p_from_date p with Some d => d | None => r_from_date r end;
     r_emiten := match p_emiten p with Some e => e | None => r_emiten r end;
     r_sector := over (p_sector p) (r_sector r);
     r_to_date := over (p_to_date p) (r_to_date r);
     r_bandar := over (p_bandar p) (r_bandar r);
     r_barang_bandar := over (p_barang_bandar p) (r_barang_bandar r);
     r_rata_rata_bandar := over (p_rata_rata_bandar p) (r_rata_rata_bandar r);
     r_harga := over (p_harga p) (r_harga r);
     r_ara := over (p_ara p) (r_ara r);
     r_arb := over (p_arb p) (r_arb r);
     r_fraksi := over (p_fraksi p) (r_fraksi r);
     r_total_bid := over (p_total_bid p) (r_total_bid r);
     r_total_offer := over (p_total_offer p) (r_total_offer r);
     r_total_papan := over (p_total_papan p) (r_total_papan r);
     r_rata_rata_bid_ofer := over (p_rata_rata_bid_ofer p) (r_rata_rata_bid_ofer r);
     r_a := over (p_a p) (r_a r);
     r_p := over (p_p p) (r_p r);
     r_target_realistis := over (p_target_realistis p) (r_target_realistis r);
     r_target_max := over (p_target_max p) (r_target_max r);
     r_status := over (p_status p) (r_status r);
     r_error_message := over (p_error_message p) (r_error_message r);
     r_real_harga := over (p_real_harga p) (r_real_harga r) |}.

(** A new row: the sent columns, null elsewhere. *)
Definition new_row (i : nat) (d e : string) (p : StockPatch) : Row :=
  {| r_id := i; r_from_date := d; r_emiten := e;
     r_sector := p_sector p; r_to_date := p_to_date p; r_bandar := p_bandar p;
     r_barang_bandar := p_barang_bandar p;
     r_rata_rata_bandar := p_rata_rata_bandar p;
     r_harga := p_harga p; r_ara := p_ara p; r_arb := p_arb p;
     r_fraksi := p_fraksi p; r_total_bid := p_total_bid p;
     r_total_offer := p_total_offer p; r_total_papan := p_total_papan p;
     r_rata_rata_bid_ofer := p_rata_rata_bid_ofer p;
     r_a := p_a p; r_p := p_p p;
     r_target_realistis := p_target_realistis p;
     r_target_max := p_target_max p;
     r_status := p_status p; r_error_message := p_error_message p;
     r_real_harga := p_real_harga p |}.

(** The body [{ real_harga: price }]. *)
Definition patch_real_harga (price : number) : StockPatch :=
  {| p_from_date := None; p_emiten := None; p_sector := None; p_to_date := None;
     p_bandar := None; p_barang_bandar := None; p_rata_rata_bandar := None;
     p_harga := None; p_ara := None; p_arb := None; p_fraksi := None;
     p_total_bid := None; p_total_offer := None; p_total_papan := None;
     p_rata_rata_bid_ofer := None; p_a := None; p_p := None;
     p_target_realistis := None; p_target_max := None; p_status := None;
     p_error_message := None; p_real_harga := Some price |}.

(** The contents of the store. *)
Record Db : Type :=
  { stock_queries : list Row;
    session : list SessionRow;
    next_id : nat }.

(** The natural key of a stored analysis. *)
Definition stock_key (r : Row) : string * string := (r_from_date r, r_emiten r).

Definition same_key (d e : string) (r : Row) : bool :=
  String.eqb (r_from_date r) d && String.eqb (r_emiten r) e.

(** Insert-or-update of one row of [stock_queries] on its natural key. *)
Definition upsert_stock_row (p : StockPatch) (t : Db) : option (Row * Db) :=
  match p_from_date p, p_emiten p with
  | Some d, Some e =>
      match find (same_key d e) (stock_queries t) with
      | Some old =>
          let r := apply_patch p old in
          Some (r, {| stock_queries :=
                        map (fun x => if same_key d e x then apply_patch p x else x)
                            (stock_queries t);
                      session := session t;
                      next_id := next_id t |})
      | None =>
          let r := new_row (next_id t) d e p in
          Some (r, {| stock_queries := (stock_queries t ++ [r])%list;
                      session := session t;
                      next_id := S (next_id t) |})
      end
  | _, _ => None
  end.

Fixpoint upsert_stock_rows (ps : list StockPatch) (t : Db) : option (list Row * Db) :=
  match ps with
  | [] => Some ([], t)
  | p :: ps' =>
      match upsert_stock_row p t with
      | Some (r, t') =>
          match upsert_stock_rows ps' t' with
          | Some (rs, t'') => Some (r :: rs, t'')
          | None => None
          end
      | None => None
      end
  end.

(** [.from('stock_queries').upsert(rows, { onConflict }).select()]: all rows
    are written or none is. *)
Definition exec_upsert_stock (ps : list StockPatch) (onConflict : string) (t : Db)
  : Response (list Row) * Db :=
  if String.eqb onConflict "from_date,emiten" then
    match upsert_stock_rows ps t with
    | Some (rs, t') => (ok_response rs None, t')
    | None => (error_response not_null_violation, t)
    end
  else (error_response no_such_constraint, t).

(** [.from('session').upsert(row, { onConflict }).select()]. *)
Definition exec_upsert_session (row : SessionRow) (onConflict : string) (t : Db)
  : Response (list SessionRow) * Db :=
  if String.eqb onConflict "key" then
    let same x := String.eqb (s_key x) (s_key row) in
    let rows :=
      if existsb same (session t)
      then map (fun x => if same x then row else x) (session t)
      else (session t ++ [row])%list in
    (ok_response [row] None,
     {| stock_queries := stock_queries t; session := rows; next_id := next_id t |})
  else (error_response no_such_constraint, t).

(** [.from('stock_queries').update(body)] with its filters, then
    [.select()]: the body is applied to the rows the filters keep, and those
    rows are returned. *)
Definition exec_update_stock (p : StockPatch) (fs : list Filter) (t : Db)
  : Response (list Row) * Db :=
  match eval_filters stock_column fs with
  | Some keep =>
      (ok_response (map (apply_patch p) (filter keep (stock_queries t))) None,
       {| stock_queries :=
            map (fun x => if keep x then apply_patch p x else x) (stock_queries t);
          session := session t;
          next_id := next_id t |})
  | None => (error_response undefined_column, t)
  end.

(** ** Effects: the store, its failures, the console, exceptions *)

(** The world an exported function runs in.  [outages] is what the store
    will do with the requests to come, in order: [Some e] is a request the
    store answers with the error [e] without running it, [None] (or the end
    of the list) a request it serves.  [now] is what
    [new Date().toISOString()] gives. *)
Record World : Type :=
  { db : Db;
    outages : list (option PgError);
    console : list (string * PgError);
    now : string }.

Inductive Outcome (A : Type) : Type :=
| Returned (a : A)
| Thrown (e : PgError).
Arguments Returned {A} a.
Arguments Thrown {A} e.

Definition M (A : Type) : Type := World -> Outcome A * World.

Definition ret {A} (a : A) : M A := fun w => (Returned a, w).

Definition bind {A B} (m : M A) (k : A -> M B) : M B :=
  fun w =>
    match m w with
    | (Returned a, w') => k a w'
    | (Thrown e, w') => (Thrown e, w')
    end.

Definition throw {A} (e : PgError) : M A := fun w => (Thrown e, w).

Notation "x <- m ;; k" := (bind m (fun x => k))
  (at level 61, m at next level, right associativity).
Notation "m ;;; k" := (bind m (fun _ => k))
  (at level 61, right associativity).

(** [console.error(msg, err)]. *)
Definition console_error (msg : string) (err : PgError) : M unit :=
  fun w =>
    (Returned tt,
     {| db := db w; outages := outages w;
        console := (console w ++ [(msg, err)])%list; now := now w |}).

(** [new Date().toISOString()]. *)
Definition toISOString_now : M string := fun w => (Returned (now w), w).

(** [await] of a built request: the store serves it, or reports an error
    and leaves its tables as they are. *)
Definition request {A} (run : Db -> Response A * Db) : M (Response A) :=
  fun w =>
    match outages w with
    | Some e :: rest =>
        (Returned (error_response e),
         {| db := db w; outages := rest; console := console w; now := now w |})
    | served =>
        let (resp, t) := run (db w) in
        (Returned resp,
         {| db := t; outages := tl served; console := console w; now := now w |})
    end.

(** A read of [stock_queries]. *)
Definition read_stock (q : Query) : Db -> Response (list Row) * Db :=
  fun t => (exec_select stock_column (stock_queries t) q, t).

(** A read of [session]. *)
Definition read_session (q : Query) : Db -> Response (list SessionRow) * Db :=
  fun t => (exec_select session_column (session t) q, t).

(** [.select('a, b')]: only the named columns of each row come back. *)
Definition project {A B} (f : A -> B) (r : Response (list A)) : Response (list B) :=
  {| data := option_map (map f) (data r); error := error r; count := count r |}.

(** A modifier of the request applied to what the store answers. *)
Definition answer_with {A B} (run : Db -> A * Db) (post : A -> B) : Db -> B * Db :=
  fun t => let (a, t') := run t in (post a, t').

(** Method chaining of the builder. *)
Notation "q |> f" := (f q) (at level 45, left associativity, only parsing).

(** ** The exported functions *)

(** The argument of [saveStockQuery]. *)
Record StockQueryData : Type :=
  { d_emiten : string;
    d_sector : option string;
    d_from_date : option string;
    d_to_date : option string;
    d_bandar : option string;
    d_barang_bandar : option number;
    d_rata_rata_bandar : option number;
    d_harga : option number;
    d_ara : option number;
    d_arb : option number;
    d_fraksi : option number;
    d_total_bid : option number;
    d_total_offer : option number;
    d_total_papan : option number;
    d_rata_rata_bid_ofer : option number;
    d_a : option number;
    d_p : option number;
    d_target_realistis : option number;
    d_target_max : option number }.

(** The argument of [saveWatchlistAnalysis]. *)
Record WatchlistData : Type :=
  { wa_from_date : string;
    wa_to_date : string;
    wa_emiten : string;
    wa_sector : option string;
    wa_bandar : option string;
    wa_barang_bandar : option number;
    wa_rata_rata_bandar : option number;
    wa_harga : option number;
    wa_ara : option number;
    wa_arb : option number;
    wa_fraksi : option number;
    wa_total_bid : option number;
    wa_total_offer : option number;
    wa_total_papan : option number;
    wa_rata_rata_bid_ofer : option number;
    wa_a : option number;
    wa_p : option number;
    wa_target_realistis : option number;
    wa_target_max : option number;
    wa_status : option string;
    wa_error_message : option string }.

(** The request body made of a [saveStockQuery] argument. *)
Definition body_of_query (d : StockQueryData) : StockPatch :=
  {| p_from_date := d_from_date d; p_emiten := Some (d_emiten d);
     p_sector := d_sector d; p_to_date := d_to_date d; p_bandar := d_bandar d;
     p_barang_bandar := d_barang_bandar d;
     p_rata_rata_bandar := d_rata_rata_bandar d;
     p_harga := d_harga d; p_ara := d_ara d; p_arb := d_arb d;
     p_fraksi := d_fraksi d; p_total_bid := d_total_bid d;
     p_total_offer := d_total_offer d; p_total_papan := d_total_papan d;
     p_rata_rata_bid_ofer := d_rata_rata_bid_ofer d;
     p_a := d_a d; p_p := d_p d;
     p_target_realistis := d_target_realistis d;
     p_target_max := d_target_max d;
     p_status := None; p_error_message := None; p_real_harga := None |}.

(** The request body made of a [saveWatchlistAnalysis] argument. *)
Definition body_of_watchlist (d : WatchlistData) : StockPatch :=
  {| p_from_date := Some (wa_from_date d); p_emiten := Some (wa_emiten d);
     p_sector := wa_sector d; p_to_date := Some (wa_to_date d);
     p_bandar := wa_bandar d;
     p_barang_bandar := wa_barang_bandar d;
     p_rata_rata_bandar := wa_rata_rata_bandar d;
     p_harga := wa_harga d; p_ara := wa_ara d; p_arb := wa_arb d;
     p_fraksi := wa_fraksi d; p_total_bid := wa_total_bid d;
     p_total_offer := wa_total_offer d; p_total_papan := wa_total_papan d;
     p_rata_rata_bid_ofer := wa_rata_rata_bid_ofer d;
     p_a := wa_a d; p_p := wa_p d;
     p_target_realistis := wa_target_realistis d;
     p_target_max := wa_target_max d;
     p_status := wa_status d; p_error_message := wa_error_message d;
     p_real_harga := None |}.

(** Save stock query to database. *)
Definition saveStockQuery (data_ : StockQueryData) : M (option (list Row)) :=
  resp <- request (exec_upsert_stock [body_of_query data_] "from_date,emiten") ;;
  match error resp with
  | Some err =>
      console_error "Error saving to Supabase:" err ;;;
      throw err
  | None => ret (data resp)
  end.

(** Get session value by key. *)
Definition getSessionValue (key : string) : M (option string) :=
  resp <- request
    (answer_with
       (read_session (select false |> eq_ "key" (VText key)))
       (fun r => single (project s_value r))) ;;
  match error resp, data resp with
  | None, Some v => ret (Some v)
  | _, _ => ret None
  end.

(** Upsert session value. *)
Definition upsertSession (key value : string) : M (option (list SessionRow)) :=
  stamp <- toISOString_now ;;
  resp <- request
    (exec_upsert_session
       {| s_key := key; s_value := value; s_updated_at := stamp |} "key") ;;
  match error resp with
  | Some err => throw err
  | None => ret (data resp)
  end.

(** Save watchlist analysis to database (reusing the stock_queries table). *)
Definition saveWatchlistAnalysis (data_ : WatchlistData) : M (option (list Row)) :=
  resp <- request (exec_upsert_stock [body_of_watchlist data_] "from_date,emiten") ;;
  match error resp with
  | Some err =>
      console_error "Error saving watchlist analysis:" err ;;;
      throw err
  | None => ret (data resp)
  end.

Inductive SortOrder : Type := asc | desc.

(** The optional argument of [getWatchlistAnalysisHistory].  [limit] and
    [offset] are row counts, so natural numbers. *)
Record HistoryFilters : Type :=
  { f_emiten : option string;
    f_sector : option string;
    f_fromDate : option string;
    f_toDate : option string;
    f_status : option string;
    f_limit : option nat;
    f_offset : option nat;
    f_sortBy : option string;
    f_sortOrder : option SortOrder }.

(** [filters?.field]. *)
Definition opt {A} (filters : option HistoryFilters) (field : HistoryFilters -> option A)
  : option A :=
  match filters with
  | Some f => field f
  | None => None
  end.

(** [if (s) { query = k(s, query) }] on an optional string [s]. *)
Definition when_str (o : option string) (k : string -> Query -> Query) (q : Query)
  : Query :=
  match o with
  | Some s => if Js.truthy_str (Some s) then k s q else q
  | None => q
  end.

(** [if (n) { query = k(n, query) }] on an optional count [n]. *)
Definition when_num (o : option nat) (k : nat -> Query -> Query) (q : Query)
  : Query :=
  match o with
  | Some n => if Js.truthy_num (Some n) then k n q else q
  | None => q
  end.

Definition is_asc (o : SortOrder) : bool :=
  match o with asc => true | desc => false end.

(** What [getWatchlistAnalysisHistory] returns: [{ data, count }]. *)
Record History : Type :=
  { h_data : option (list Row); h_count : option nat }.

(** The query [getWatchlistAnalysisHistory] builds before it awaits it. *)
Definition history_query (filters : option HistoryFilters) : Query :=
  let query := select true in
  (* Handle sorting *)
  let sortBy := Js.or_str (opt filters f_sortBy) "from_date" in
  let sortOrder := match opt filters f_sortOrder with Some o => o | None => desc end in
  let query :=
    if String.eqb sortBy "combined" then
      (* Sort by date then emiten *)
      query |> order "from_date" (is_asc sortOrder)
            |> order "emiten" (is_asc sortOrder)
    else if String.eqb sortBy "emiten" then
      (* When sorting by emiten, secondary sort by date ascending *)
      query |> order "emiten" (is_asc sortOrder)
            |> order "from_date" true
    else query |> order sortBy (is_asc sortOrder) in
  let query :=
    when_str (opt filters f_emiten)
      (fun emiten q =>
         let emitenList := Js.filter_Boolean (Js.split_ws emiten) in
         if Nat.ltb 0 (List.length emitenList) then in_ "emiten" emitenList q else q)
      query in
  let query := when_str (opt filters f_sector) (fun s => eq_ "sector" (VText s)) query in
  let query := when_str (opt filters f_fromDate) (fun d => gte "from_date" (VText d)) query in
  let query := when_str (opt filters f_toDate) (fun d => lte "from_date" (VText d)) query in
  let query := when_str (opt filters f_status) (fun s => eq_ "status" (VText s)) query in
  let query := when_num (opt filters f_limit) limit query in
  let query :=
    when_num (opt filters f_offset)
      (fun offset => range offset (offset + Js.or_num (opt filters f_limit) 50 - 1))
      query in
  query.

(** Get watchlist analysis history with optional filters. *)
Definition getWatchlistAnalysisHistory (filters : option HistoryFilters) : M History :=
  resp <- request (read_stock (history_query filters)) ;;
  match error resp with
  | Some err =>
      console_error "Error fetching watchlist analysis:" err ;;;
      throw err
  | None => ret {| h_data := data resp; h_count := count resp |}
  end.

(** Get latest stock query for a specific emiten. *)
Definition getLatestStockQuery (emiten : string) : M (option Row) :=
  resp <- request
    (answer_with
       (read_stock
          (select false
             |> eq_ "emiten" (VText emiten)
             |> eq_ "status" (VText "success")
             |> order "from_date" false
             |> limit 1))
       single) ;;
  match error resp with
  | Some _ => ret None
  | None => ret (data resp)
  end.

(** Update the most recent previous day's real price for an emiten. *)
Definition updatePreviousDayRealPrice (emiten currentDate : string) (price : number)
  : M (option (list Row)) :=
  (* 1. Find the latest successful record before currentDate *)
  found <- request
    (answer_with
       (read_stock
          (select false
             |> eq_ "emiten" (VText emiten)
             |> eq_ "status" (VText "success")
             |> lt "from_date" (VText currentDate)
             |> order "from_date" false
             |> limit 1))
       (fun r => single (project (fun x => (r_id x, r_from_date x)) r))) ;;
  match error found, data found with
  | None, Some record =>
      (* 2. Update that record with the new price *)
      resp <- request
        (exec_update_stock (patch_real_harga price)
           (q_filters (select false |> eq_ "id" (VNum (Z.of_nat (fst record)))))) ;;
      match error resp with
      | Some updateError =>
          console_error
            ("Error updating real_harga for " ++ emiten ++ " on " ++ snd record ++ ":")
            updateError ;;;
          ret (data resp)
      | None => ret (data resp)
      end
  | findError, _ =>
      match findError with
      | Some e =>
          if negb (String.eqb (code e) "PGRST116") then
            console_error
              ("Error finding previous record for " ++ emiten ++ " before "
                 ++ currentDate ++ ":") e ;;;
            ret None
          else ret None
      | None => ret None
      end
  end.

(** ** Notions the properties are stated with *)

(** The sort direction a call asks for; descending when it names none. *)
Definition requested_asc (f : HistoryFilters) : bool :=
  match f_sortOrder f with
  | Some o => is_asc o
  | None => false
  end.

(** [x] may stand before [y] in a listing by ticker: the ticker of [x] comes
    first in the direction asked for, or the tickers are equal and the date of
    [x] is not after the date of [y]. *)
Definition by_emiten (ascending : bool) (x y : Row) : Prop :=
  match String.compare (r_emiten x) (r_emiten y) with
  | Lt => ascending = true
  | Gt => ascending = false
  | Eq => String.leb (r_from_date x) (r_from_date y) = true
  end.

(** [x] may stand before [y] in a combined listing: the date of [x] comes
    first in the direction asked for, or the dates are equal and the ticker of
    [x] does not come after the ticker of [y] in that direction. *)
Definition by_combined (ascending : bool) (x y : Row) : Prop :=
  match String.compare (r_from_date x) (r_from_date y) with
  | Lt => ascending = true
  | Gt => ascending = false
  | Eq =>
      if ascending then String.leb (r_emiten x) (r_emiten y) = true
      else String.leb (r_emiten y) (r_emiten x) = true
  end.

(** The lexicographic order on pairs (date, ticker). *)
Definition pair_le (x y : string * string) : Prop :=
  String.ltb (fst x) (fst y) = true
  \/ (fst x = fst y /\ String.leb (snd x) (snd y) = true).

(** The tickers an [emiten] filter names. *)
Definition tickers (s : string) : list string := Js.filter_Boolean (Js.split_ws s).

(** A text filter on a nullable column: absent or empty, it lets every row
    pass; otherwise the column must hold exactly that text. *)
Definition text_filter (o : option string) (cell : option string) : bool :=
  match o with
  | Some s =>
      if String.eqb s EmptyString then true
      else match cell with Some c => String.eqb c s | None => false end
  | None => true
  end.

(** The rows a set of filters selects, in the words of the specification:
    membership in the tickers named (when one is named at all), exact sector,
    inclusive range on [from_date], exact status, all at once. *)
Definition matches (filters : option HistoryFilters) (r : Row) : bool :=
  match opt filters f_emiten with
  | Some s =>
      match tickers s with
      | [] => true
      | ts => existsb (String.eqb (r_emiten r)) ts
      end
  | None => true
  end
  && text_filter (opt filters f_sector) (r_sector r)
  && match opt filters f_fromDate with
     | Some d => if String.eqb d EmptyString then true else String.leb d (r_from_date r)
     | None => true
     end
  && match opt filters f_toDate with
     | Some d => if String.eqb d EmptyString then true else String.leb (r_from_date r) d
     | None => true
     end
  && text_filter (opt filters f_status) (r_status r).

Definition with_emiten (e : option string) (f : HistoryFilters) : HistoryFilters :=
  {| f_emiten := e; f_sector := f_sector f; f_fromDate := f_fromDate f;
     f_toDate := f_toDate f; f_status := f_status f; f_limit := f_limit f;
     f_offset := f_offset f; f_sortBy := f_sortBy f; f_sortOrder := f_sortOrder f |}.

Definition with_sector_status (s t : option string) (f : HistoryFilters)
  : HistoryFilters :=
  {| f_emiten := f_emiten f; f_sector := s; f_fromDate := f_fromDate f;
     f_toDate := f_toDate f; f_status := t; f_limit := f_limit f;
     f_offset := f_offset f; f_sortBy := f_sortBy f; f_sortOrder := f_sortOrder f |}.

(** The same call without its page: no [limit], no [offset]. *)
Definition unpaged (f : HistoryFilters) : HistoryFilters :=
  {| f_emiten := f_emiten f; f_sector := f_sector f; f_fromDate := f_fromDate f;
     f_toDate := f_toDate f; f_status := f_status f; f_limit := None;
     f_offset := None; f_sortBy := f_sortBy f; f_sortOrder := f_sortOrder f |}.

Definition with_page (l o : option nat) (f : HistoryFilters) : HistoryFilters :=
  {| f_emiten := f_emiten f; f_sector := f_sector f; f_fromDate := f_fromDate f;
     f_toDate := f_toDate f; f_status := f_status f; f_limit := l;
     f_offset := o; f_sortBy := f_sortBy f; f_sortOrder := f_sortOrder f |}.

(** The rows a call hands back; none when it throws. *)
Definition rows_of (o : Outcome History * World) : option (list Row) :=
  match fst o with
  | Returned h => h_data h
  | Thrown _ => None
  end.

Definition count_of (o : Outcome History * World) : option nat :=
  match fst o with
  | Returned h => h_count h
  | Thrown _ => None
  end.

(** The store serves the next [n] requests. *)
Definition serves (n : nat) (w : World) : Prop :=
  forall i, i < n -> nth i (outages w) None = None.

(** The uniqueness constraints of the two tables. *)
Definition unique_keys (t : Db) : Prop :=
  NoDup (map stock_key (stock_queries t)) /\ NoDup (map s_key (session t)).

(** [id] is the primary key of [stock_queries]. *)
Definition unique_ids (t : Db) : Prop := NoDup (map r_id (stock_queries t)).

(** A successful analysis of [emiten]. *)
Definition successful (emiten : string) (r : Row) : bool :=
  String.eqb (r_emiten r) emiten
  && match r_status r with Some s => String.eqb s "success" | None => false end.

(** A successful analysis of [emiten] dated strictly before [currentDate]. *)
Definition prior (emiten currentDate : string) (r : Row) : bool :=
  successful emiten r && String.ltb (r_from_date r) currentDate.

(** A call of one of the exported functions. *)
Inductive Call : Type :=
| CallSaveStockQuery (d : StockQueryData)
| CallGetSessionValue (key : string)
| CallUpsertSession (key value : string)
| CallSaveWatchlistAnalysis (d : WatchlistData)
| CallGetWatchlistAnalysisHistory (filters : option HistoryFilters)
| CallGetLatestStockQuery (emiten : string)
| CallUpdatePreviousDayRealPrice (emiten currentDate : string) (price : number).

(** The world after a call, whether it returned or threw. *)
Definition after (c : Call) (w : World) : World :=
  match c with
  | CallSaveStockQuery d => snd (saveStockQuery d w)
  | CallGetSessionValue k => snd (getSessionValue k w)
  | CallUpsertSession k v => snd (upsertSession k v w)
  | CallSaveWatchlistAnalysis d => snd (saveWatchlistAnalysis d w)
  | CallGetWatchlistAnalysisHistory f => snd (getWatchlistAnalysisHistory f w)
  | CallGetLatestStockQuery e => snd (getLatestStockQuery e w)
  | CallUpdatePreviousDayRealPrice e d p => snd (updatePreviousDayRealPrice e d p w)
  end.

(** The console lines a run added. *)
Definition logged (before after_ : World) (line : string * PgError) : Prop :=
  console after_ = (console before ++ [line])%list.

(** [x] does not come after [y]. *)
Definition cmp_le {A} (cmp : A -> A -> comparison) (x y : A) : Prop :=
  cmp x y <> Gt.

(** The comparison one sort key makes. *)
Definition key_compare {R} (k : (R -> Value) * bool) (x y : R) : comparison :=
  if snd k then value_compare (fst k x) (fst k y)
  else value_compare (fst k y) (fst k x).

(** The parts of a query the filter calls do not touch. *)
Definition same_shape (q q' : Query) : Prop :=
  q_count q' = q_count q /\ q_orders q' = q_orders q
  /\ q_limit q' = q_limit q /\ q_offset q' = q_offset q.

(** The filters of [q] are all on columns the table has and keep the rows
    [p] keeps. *)
Definition selects {R} (column : string -> option (R -> Value)) (q : Query)
  (p : R -> bool) : Prop :=
  exists keep, eval_filters column (q_filters q) = Some keep
               /\ forall r, keep r = p r.

(** ** Sample data *)

(** An analysis row with the given id, date, ticker, sector and status, and
    no figures. *)
Definition sample_row (i : nat) (d e : string) (sec st : option string) : Row :=
  {| r_id := i; r_from_date := d; r_emiten := e; r_sector := sec;
     r_to_date := Some d; r_bandar := None; r_barang_bandar := None;
     r_rata_rata_bandar := None; r_harga := None; r_ara := None; r_arb := None;
     r_fraksi := None; r_total_bid := None; r_total_offer := None;
     r_total_papan := None; r_rata_rata_bid_ofer := None; r_a := None;
     r_p := None; r_target_realistis := None; r_target_max := None;
     r_status := st; r_error_message := None; r_real_harga := None |}.

(** Two tickers on two dates, and a failed analysis. *)
Definition sample_db : Db :=
  {| stock_queries :=
       [ sample_row 1 "2024-01-02" "BBCA" (Some "bank") (Some "success");
         sample_row 2 "2024-01-01" "BBCA" (Some "bank") (Some "success");
         sample_row 3 "2024-01-01" "ANTM" (Some "mining") (Some "error");
         sample_row 4 "2024-01-02" "ANTM" (Some "mining") (Some "success");
         sample_row 5 "2024-01-03" "ANTM" (Some "mining") (Some "error") ];
     session := [ {| s_key := "token"; s_value := "abc";
                     s_updated_at := "2024-01-01T00:00:00.000Z" |} ];
     next_id := 6 |}.

Definition world_of (t : Db) (o : list (option PgError)) : World :=
  {| db := t; outages := o; console := [];
     now := "2024-01-04T00:00:00.000Z" |}.

Definition sample_world : World := world_of sample_db [].

(** The error of a store that cannot be reached. *)
Definition unreachable : PgError :=
  {| code := "503"; message := "service unavailable" |}.

Definition no_filters : HistoryFilters :=
  {| f_emiten := None; f_sector := None; f_fromDate := None; f_toDate := None;
     f_status := None; f_limit := None; f_offset := None; f_sortBy := None;
     f_sortOrder := None |}.

Definition sorted_request (by_ : string) (o : SortOrder) : HistoryFilters :=
  {| f_emiten := None; f_sector := None; f_fromDate := None; f_toDate := None;
     f_status := None; f_limit := None; f_offset := None; f_sortBy := Some by_;
     f_sortOrder := Some o |}.

Definition digit (n : nat) : ascii := ascii_of_nat (48 + n).

(** Tickers [E00], [E01], ... *)
Definition ticker_of (i : nat) : string :=
  String "E" (String (digit (i / 10)) (String (digit (i mod 10)) EmptyString)).

(** A table of [n] analyses of one day, one per ticker. *)
Definition one_day_db (n : nat) : Db :=
  {| stock_queries :=
       map (fun i => sample_row i "2024-01-02" (ticker_of i) None (Some "success"))
           (seq 0 n);
     session := [];
     next_id := n |}.

(** The rows at the positions [offset] to [offset + (limit or 50) - 1] of a
    listing. *)
Definition page_of (f : HistoryFilters) (offset : nat) (listing : list Row) : list Row :=
  firstn (Js.or_num (f_limit f) 50) (skipn offset listing).

Definition page_request (l o : option nat) : HistoryFilters :=
  with_page l o no_filters.

(** The sort key of the two look-ups: [from_date], descending. *)
Definition newest_first : list ((Row -> Value) * bool) :=
  [((fun r => VText (r_from_date r)), false)].

(** The first row of a list once sorted by date, newest first. *)
Definition newest (l : list Row) : option Row :=
  hd_error (sort_by (compare_rows newest_first) l).

(** The world after a request that wrote nothing and logged nothing. *)
Definition after_request (w : World) : World :=
  {| db := db w; outages := tl (outages w); console := console w; now := now w |}.

(** The table after [real_harga] of the rows with the id of [t] is set. *)
Definition priced (price : number) (t : Row) (rows : list Row) : list Row :=
  map (fun x => if Nat.eqb (r_id x) (r_id t)
                then apply_patch (patch_real_harga price) x else x) rows.

(** The store with another [stock_queries] table. *)
Definition with_stock_queries (rows : list Row) (t : Db) : Db :=
  {| stock_queries := rows; session := session t; next_id := next_id t |}.

(** The two console messages of [updatePreviousDayRealPrice]. *)
Definition finding_message (emiten currentDate : string) : string :=
  "Error finding previous record for " ++ emiten ++ " before " ++ currentDate ++ ":".

Definition updating_message (emiten from_date : string) : string :=
  "Error updating real_harga for " ++ emiten ++ " on " ++ from_date ++ ":".

(** A run that throws [e] after adding one console line that carries [e]. *)
Definition logs_and_reraises {A} (m : M A) (w : World) (e : PgError) : Prop :=
  exists msg w', m w = (Thrown e, w') /\ logged w w' (msg, e).

(** ** Notions of the further properties *)

(** The session entry is the one of [key]. *)
Definition has_key (key : string) (r : SessionRow) : bool :=
  String.eqb (s_key r) key.

(** A string without white space. *)
Fixpoint no_space (s : string) : bool :=
  match s with
  | EmptyString => true
  | String c rest => negb (Js.is_space c) && no_space rest
  end.

(** The characters of a string that are not white space, in order. *)
Fixpoint without_spaces (s : string) : string :=
  match s with
  | EmptyString => EmptyString
  | String c rest =>
      if Js.is_space c then without_spaces rest else String c (without_spaces rest)
  end.

(** The pieces of a list of strings, joined. *)
Definition join (l : list string) : string := fold_right String.append EmptyString l.

(** An analysis to save, with the given date, ticker, status and price and
    nothing else. *)
Definition sample_analysis (d e : string) (st : option string) (price : option number)
  : WatchlistData :=
  {| wa_from_date := d; wa_to_date := d; wa_emiten := e; wa_sector := None;
     wa_bandar := None; wa_barang_bandar := None; wa_rata_rata_bandar := None;
     wa_harga := price; wa_ara := None; wa_arb := None; wa_fraksi := None;
     wa_total_bid := None; wa_total_offer := None; wa_total_papan := None;
     wa_rata_rata_bid_ofer := None; wa_a := None; wa_p := None;
     wa_target_realistis := None; wa_target_max := None; wa_status := st;
     wa_error_message := None |}.

Definition emiten_request (e : string) : HistoryFilters := with_emiten (Some e) no_filters.

(** The row passes every filter the call carries: a filter that is absent,
    empty, or names no ticker lets every row pass. *)
Definition passes (f : HistoryFilters) (r : Row) : Prop :=
  (forall e, f_emiten f = Some e -> tickers e <> [] -> In (r_emiten r) (tickers e))
  /\ (forall s, f_sector f = Some s -> s <> EmptyString -> r_sector r = Some s)
  /\ (forall d, f_fromDate f = Some d -> d <> EmptyString ->
                String.leb d (r_from_date r) = true)
  /\ (forall d, f_toDate f = Some d -> d <> EmptyString ->
                String.leb (r_from_date r) d = true)
  /\ (forall s, f_status f = Some s -> s <> EmptyString -> r_status r = Some s).

(** The direction a call asks for, for a call that may carry no argument. *)
Definition asked_asc (filters : option HistoryFilters) : bool :=
  match opt filters f_sortOrder with
  | Some o => is_asc o
  | None => false
  end.

(** [x] may stand before [y] in a listing by date. *)
Definition by_date (ascending : bool) (x y : Row) : Prop :=
  if ascending then String.leb (r_from_date x) (r_from_date y) = true
  else String.leb (r_from_date y) (r_from_date x) = true.

(** The row holds every column the request body carries. *)
Definition carries (p : StockPatch) (r : Row) : Prop :=
  (forall v, p_from_date p = Some v -> r_from_date r = v)
  /\ (forall v, p_emiten p = Some v -> r_emiten r = v)
  /\ (forall v, p_sector p = Some v -> r_sector r = Some v)
  /\ (forall v, p_to_date p = Some v -> r_to_date r = Some v)
  /\ (forall v, p_bandar p = Some v -> r_bandar r = Some v)
  /\ (forall v, p_barang_bandar p = Some v -> r_barang_bandar r = Some v)
  /\ (forall v, p_rata_rata_bandar p = Some v -> r_rata_rata_bandar r = Some v)
  /\ (forall v, p_harga p = Some v -> r_harga r = Some v)
  /\ (forall v, p_ara p = Some v -> r_ara r = Some v)
  /\ (forall v, p_arb p = Some v -> r_arb r = Some v)
  /\ (forall v, p_fraksi p = Some v -> r_fraksi r = Some v)
  /\ (forall v, p_total_bid p = Some v -> r_total_bid r = Some v)
  /\ (forall v, p_total_offer p = Some v -> r_total_offer r = Some v)
  /\ (forall v, p_total_papan p = Some v -> r_total_papan r = Some v)
  /\ (forall v, p_rata_rata_bid_ofer p = Some v -> r_rata_rata_bid_ofer r = Some v)
  /\ (forall v, p_a p = Some v -> r_a r = Some v)
  /\ (forall v, p_p p = Some v -> r_p r = Some v)
  /\ (forall v, p_target_realistis p = Some v -> r_target_realistis r = Some v)
  /\ (forall v, p_target_max p = Some v -> r_target_max r = Some v)
  /\ (forall v, p_status p = Some v -> r_status r = Some v)
  /\ (forall v, p_error_message p = Some v -> r_error_message r = Some v)
  /\ (forall v, p_real_harga p = Some v -> r_real_harga r = Some v).

(** The row is not the one of the date and the ticker. *)
Definition other_key (d e : string) (r : Row) : bool := negb (same_key d e r).

(** A stock query to save, with the given date, ticker and price and
    nothing else. *)
Definition sample_query (d : option string) (e : string) (price : option number)
  : StockQueryData :=
  {| d_emiten := e; d_sector := None; d_from_date := d; d_to_date := None;
     d_bandar := None; d_barang_bandar := None; d_rata_rata_bandar := None;
     d_harga := price; d_ara := None; d_arb := None; d_fraksi := None;
     d_total_bid := None; d_total_offer := None; d_total_papan := None;
     d_rata_rata_bid_ofer := None; d_a := None; d_p := None;
     d_target_realistis := None; d_target_max := None |}.

(** [x] stands strictly before [y] in a listing by ticker: an earlier ticker
    in the direction asked for, or the same ticker and an earlier date. *)
Definition strictly_by_emiten (ascending : bool) (x y : Row) : Prop :=
  match String.compare (r_emiten x) (r_emiten y) with
  | Lt => ascending = true
  | Gt => ascending = false
  | Eq => String.ltb (r_from_date x) (r_from_date y) = true
  end.

(** [x] stands strictly before [y] in a combined listing. *)
Definition strictly_combined (ascending : bool) (x y : Row) : Prop :=
  match String.compare (r_from_date x) (r_from_date y) with
  | Lt => ascending = true
  | Gt => ascending = false
  | Eq =>
      if ascending then String.ltb (r_emiten x) (r_emiten y) = true
      else String.ltb (r_emiten y) (r_emiten x) = true
  end.

(** * Properties *)

(** ** Order on strings and values *)

Lemma ascii_compare_refl (c : ascii) : Ascii.compare c c = Eq.
Proof. unfold Ascii.compare. apply N.compare_refl. Qed.

Lemma string_compare_refl (s : string) : String.compare s s = Eq.
Proof.
  induction s as [|c s IH]; simpl; [reflexivity|].
  now rewrite ascii_compare_refl.
Qed.

Lemma string_compare_eq (s t : string) : String.compare s t = Eq <-> s = t.
Proof.
  split; [apply String.compare_eq_iff | intros ->; apply string_compare_refl].
Qed.

Lemma ascii_compare_lt_trans (a b c : ascii) :
  Ascii.compare a b = Lt -> Ascii.compare b c = Lt -> Ascii.compare a c = Lt.
Proof.
  unfold Ascii.compare. rewrite !N.compare_lt_iff. lia.
Qed.

Lemma string_compare_lt_trans (s t u : string) :
  String.compare s t = Lt -> String.compare t u = Lt -> String.compare s u = Lt.
Proof.
  revert t u. induction s as [|a s IH]; intros [|b t] [|c u]; simpl;
    try congruence.
  destruct (Ascii.compare a b) eqn:Hab; try discriminate;
    destruct (Ascii.compare b c) eqn:Hbc; try discriminate; intros H1 H2.
  - apply Ascii.compare_eq_iff in Hab, Hbc. subst.
    rewrite ascii_compare_refl. eauto.
  - apply Ascii.compare_eq_iff in Hab. subst. now rewrite Hbc.
  - apply Ascii.compare_eq_iff in Hbc. subst. now rewrite Hab.
  - now rewrite (ascii_compare_lt_trans _ _ _ Hab Hbc).
Qed.

Lemma value_compare_antisym (x y : Value) :
  value_compare x y = CompOpp (value_compare y x).
Proof.
  destruct x, y; simpl; try reflexivity.
  - apply Z.compare_antisym.
  - apply String.compare_antisym.
Qed.

Lemma value_compare_eq (x y : Value) : value_compare x y = Eq -> x = y.
Proof.
  destruct x, y; simpl; try discriminate; intros H.
  - reflexivity.
  - apply Z.compare_eq in H. now subst.
  - apply String.compare_eq_iff in H. now subst.
Qed.

Lemma value_compare_refl (x : Value) : value_compare x x = Eq.
Proof.
  destruct x; simpl; [reflexivity | apply Z.compare_refl | apply string_compare_refl].
Qed.

Lemma value_compare_lt_trans (x y z : Value) :
  value_compare x y = Lt -> value_compare y z = Lt -> value_compare x z = Lt.
Proof.
  destruct x, y, z; simpl; try congruence.
  - rewrite !Z.compare_lt_iff. lia.
  - apply string_compare_lt_trans.
Qed.

(** ** The sort *)

Section SortFacts.
Context {A : Type}.
Variable cmp : A -> A -> comparison.
Hypothesis cmp_antisym : forall x y, cmp x y = CompOpp (cmp y x).
Hypothesis cmp_le_trans :
  forall x y z, cmp x y <> Gt -> cmp y z <> Gt -> cmp x z <> Gt.

Lemma cmp_leb_le (x y : A) : cmp_leb cmp x y = true <-> cmp_le cmp x y.
Proof.
  unfold cmp_leb, cmp_le. destruct (cmp x y); split; congruence.
Qed.

Lemma cmp_leb_false (x y : A) : cmp_leb cmp x y = false -> cmp_le cmp y x.
Proof.
  unfold cmp_leb, cmp_le. rewrite (cmp_antisym y x).
  destruct (cmp x y); simpl; congruence.
Qed.

Lemma insert_sorted_perm (x : A) (l : list A) :
  Permutation (insert_sorted cmp x l) (x :: l).
Proof.
  induction l as [|y l IH]; simpl; [reflexivity|].
  destruct (cmp_leb cmp x y); [reflexivity|].
  rewrite IH. apply perm_swap.
Qed.

Lemma sort_by_perm (l : list A) : Permutation (sort_by cmp l) l.
Proof.
  induction l as [|x l IH]; simpl; [reflexivity|].
  rewrite insert_sorted_perm. now constructor.
Qed.

Lemma sort_by_In (l : list A) (x : A) : In x (sort_by cmp l) <-> In x l.
Proof.
  split; apply Permutation_in; [|symmetry]; apply sort_by_perm.
Qed.

Lemma sort_by_length (l : list A) : List.length (sort_by cmp l) = List.length l.
Proof. apply Permutation_length, sort_by_perm. Qed.

Lemma insert_sorted_sorted (x : A) (l : list A) :
  StronglySorted (cmp_le cmp) l -> StronglySorted (cmp_le cmp) (insert_sorted cmp x l).
Proof.
  induction l as [|y l IH]; intros Hs; simpl.
  - repeat constructor.
  - destruct (cmp_leb cmp x y) eqn:Hxy.
    + apply cmp_leb_le in Hxy. constructor; [exact Hs|].
      constructor; [exact Hxy|].
      apply StronglySorted_inv in Hs. destruct Hs as [_ Hall].
      eapply Forall_impl; [|exact Hall].
      intros z Hz. exact (cmp_le_trans _ _ _ Hxy Hz).
    + apply cmp_leb_false in Hxy.
      apply StronglySorted_inv in Hs. destruct Hs as [Hs Hall].
      constructor; [now apply IH|].
      apply (Permutation_Forall (Permutation_sym (insert_sorted_perm x l))).
      now constructor.
Qed.

Lemma sort_by_sorted (l : list A) : StronglySorted (cmp_le cmp) (sort_by cmp l).
Proof.
  induction l as [|x l IH]; simpl; [constructor|].
  now apply insert_sorted_sorted.
Qed.

End SortFacts.

Lemma StronglySorted_weaken {A} (P Q : A -> A -> Prop) (l : list A) :
  (forall x y, P x y -> Q x y) -> StronglySorted P l -> StronglySorted Q l.
Proof.
  intros HPQ. induction 1 as [|x l Hs IH Hall]; constructor; [exact IH|].
  eapply Forall_impl; [|exact Hall]. intros y. apply HPQ.
Qed.

Lemma StronglySorted_skipn {A} (P : A -> A -> Prop) (k : nat) (l : list A) :
  StronglySorted P l -> StronglySorted P (skipn k l).
Proof.
  revert l. induction k as [|k IH]; intros l Hs; [exact Hs|].
  destruct l as [|x l]; [constructor|]. simpl.
  apply IH. now apply StronglySorted_inv in Hs.
Qed.

Lemma in_firstn {A} (k : nat) (l : list A) (x : A) : In x (firstn k l) -> In x l.
Proof.
  intros H. rewrite <- (firstn_skipn k l). apply in_or_app. now left.
Qed.

Lemma StronglySorted_firstn {A} (P : A -> A -> Prop) (k : nat) (l : list A) :
  StronglySorted P l -> StronglySorted P (firstn k l).
Proof.
  revert l. induction k as [|k IH]; intros l Hs; [constructor|].
  destruct l as [|x l]; [constructor|]. simpl.
  apply StronglySorted_inv in Hs. destruct Hs as [Hs Hall].
  constructor; [now apply IH|].
  rewrite Forall_forall in *. intros y Hy. apply Hall.
  eapply in_firstn; eauto.
Qed.

Lemma StronglySorted_window {A} (P : A -> A -> Prop) (o l : option nat) (rows : list A) :
  StronglySorted P rows -> StronglySorted P (window o l rows).
Proof.
  intros Hs. unfold window.
  assert (Hk : StronglySorted P (match o with Some k => skipn k rows | None => rows end)).
  { destruct o; [now apply StronglySorted_skipn | exact Hs]. }
  destruct l; [now apply StronglySorted_firstn | exact Hk].
Qed.

(** ** Comparison of rows by sort keys *)

Section RowOrder.
Context {R : Type}.
Implicit Types (k : (R -> Value) * bool) (ks : list ((R -> Value) * bool)).
Implicit Types x y z : R.

Lemma compare_rows_cons k ks x y :
  compare_rows (k :: ks) x y =
  match key_compare k x y with
  | Eq => compare_rows ks x y
  | c => c
  end.
Proof. destruct k as [get a]. reflexivity. Qed.

Lemma key_compare_antisym k x y :
  key_compare k x y = CompOpp (key_compare k y x).
Proof.
  unfold key_compare. destruct (snd k); apply value_compare_antisym.
Qed.

Lemma key_compare_eq k x y : key_compare k x y = Eq -> fst k x = fst k y.
Proof.
  unfold key_compare. destruct (snd k); intros H;
    apply value_compare_eq in H; congruence.
Qed.

Lemma key_compare_lt_trans k x y z :
  key_compare k x y = Lt -> key_compare k y z = Lt -> key_compare k x z = Lt.
Proof.
  unfold key_compare. destruct (snd k); intros H1 H2.
  - eapply value_compare_lt_trans; eauto.
  - eapply value_compare_lt_trans; eauto.
Qed.

Lemma key_compare_congr_l k x y z :
  fst k x = fst k y -> key_compare k x z = key_compare k y z.
Proof. unfold key_compare. now intros ->. Qed.

Lemma key_compare_congr_r k x y z :
  fst k y = fst k z -> key_compare k x y = key_compare k x z.
Proof. unfold key_compare. now intros ->. Qed.

Lemma compare_rows_antisym ks x y :
  compare_rows ks x y = CompOpp (compare_rows ks y x).
Proof.
  induction ks as [|k ks IH]; [reflexivity|].
  rewrite !compare_rows_cons, (key_compare_antisym k x y).
  destruct (key_compare k y x); simpl; auto.
Qed.

Lemma compare_rows_le_trans ks x y z :
  compare_rows ks x y <> Gt -> compare_rows ks y z <> Gt ->
  compare_rows ks x z <> Gt.
Proof.
  induction ks as [|k ks IH]; [simpl; congruence|].
  rewrite !compare_rows_cons.
  destruct (key_compare k x y) eqn:Hxy; [| |congruence].
  - rewrite (key_compare_congr_l k x y z (key_compare_eq _ _ _ Hxy)).
    destruct (key_compare k y z); auto.
  - destruct (key_compare k y z) eqn:Hyz; [| |congruence]; intros _ _.
    + rewrite <- (key_compare_congr_r k x y z (key_compare_eq _ _ _ Hyz)).
      rewrite Hxy. discriminate.
    + rewrite (key_compare_lt_trans _ _ _ _ Hxy Hyz). discriminate.
Qed.

Lemma sorted_by_keys ks (l : list R) :
  StronglySorted (fun x y => compare_rows ks x y <> Gt)
                 (sort_by (compare_rows ks) l).
Proof.
  apply sort_by_sorted.
  - apply compare_rows_antisym.
  - apply compare_rows_le_trans.
Qed.

End RowOrder.

(** ** What the builder calls leave alone *)

Lemma same_shape_refl q : same_shape q q.
Proof. repeat split. Qed.

Lemma same_shape_add_filter f q : same_shape q (add_filter f q).
Proof. repeat split. Qed.

Lemma same_shape_when_str o k q :
  (forall s q', same_shape q' (k s q')) -> same_shape q (when_str o k q).
Proof.
  intros Hk. unfold when_str. destruct o as [s|]; [|apply same_shape_refl].
  destruct (Js.truthy_str (Some s)); [apply Hk | apply same_shape_refl].
Qed.

Lemma q_filters_when_num o k q :
  (forall n q', q_filters (k n q') = q_filters q') ->
  q_filters (when_num o k q) = q_filters q.
Proof.
  intros Hk. unfold when_num. destruct o as [n|]; [|reflexivity].
  destruct (Js.truthy_num (Some n)); [apply Hk | reflexivity].
Qed.

(** ** What the filters of a query select *)

Section Selection.
Context {R : Type}.
Variable column : string -> option (R -> Value).

Lemma eval_filters_snoc fs f keep test :
  eval_filters column fs = Some keep ->
  eval_filter column f = Some test ->
  exists keep', eval_filters column (fs ++ [f]) = Some keep'
                /\ forall r, keep' r = keep r && test r.
Proof.
  revert keep. induction fs as [|g fs IH]; intros keep Hfs Hf; simpl in *.
  - injection Hfs as <-. rewrite Hf. eexists; split; [reflexivity|].
    intros r. simpl. now rewrite andb_true_r.
  - destruct (eval_filter column g) as [pg|]; [|discriminate].
    destruct (eval_filters column fs) as [ps|] eqn:Hps; [|discriminate].
    injection Hfs as <-.
    destruct (IH ps eq_refl Hf) as (keep' & -> & Hk).
    eexists; split; [reflexivity|].
    intros r. simpl. now rewrite Hk, andb_assoc.
Qed.

Lemma selects_select c : selects column (select c) (fun _ => true).
Proof. exists (fun _ => true). split; reflexivity. Qed.

Lemma selects_add_filter f q p test :
  selects column q p -> eval_filter column f = Some test ->
  selects column (add_filter f q) (fun r => p r && test r).
Proof.
  intros (keep & Hq & Hk) Hf.
  destruct (eval_filters_snoc _ _ _ _ Hq Hf) as (keep' & He & Hk').
  exists keep'. split; [exact He|].
  intros r. now rewrite Hk', Hk.
Qed.

Lemma selects_ext q p p' :
  selects column q p -> (forall r, p r = p' r) -> selects column q p'.
Proof.
  intros (keep & Hq & Hk) Hp. exists keep. split; [exact Hq|].
  intros r. now rewrite Hk.
Qed.

Lemma selects_same_filters q q' p :
  q_filters q' = q_filters q -> selects column q p -> selects column q' p.
Proof. unfold selects. now intros ->. Qed.

(** A conditional filter call adds its test when its argument is a
    non-empty string. *)
Lemma selects_when_str o k q p test :
  selects column q p ->
  (forall s q' p', s <> EmptyString -> selects column q' p' ->
                   selects column (k s q') (fun r => p' r && test s r)) ->
  selects column (when_str o k q)
          (fun r => p r && match o with
                           | Some s => if String.eqb s EmptyString then true else test s r
                           | None => true
                           end).
Proof.
  intros Hq Hk. unfold when_str, Js.truthy_str.
  destruct o as [s|].
  - destruct (String.eqb_spec s EmptyString) as [->|Hs]; simpl.
    + eapply selects_ext; [exact Hq|]. intros r. now rewrite andb_true_r.
    + now apply Hk.
  - eapply selects_ext; [exact Hq|]. intros r. now rewrite andb_true_r.
Qed.

(** The answer to a read whose filters and sort keys the table knows. *)
Lemma exec_select_known rows q p ks :
  selects column q p -> eval_orders column (q_orders q) = Some ks ->
  exec_select column rows q =
  ok_response (window (q_offset q) (q_limit q)
                      (sort_by (compare_rows ks) (filter p rows)))
              (if q_count q then Some (List.length (filter p rows)) else None).
Proof.
  intros (keep & Hq & Hk) Ho. unfold exec_select. rewrite Hq, Ho.
  now rewrite (filter_ext keep p Hk).
Qed.

Lemma exec_select_unknown_order rows q :
  eval_orders column (q_orders q) = None ->
  exec_select column rows q = error_response undefined_column.
Proof.
  intros Ho. unfold exec_select. rewrite Ho.
  now destruct (eval_filters column (q_filters q)).
Qed.

End Selection.

(** ** The query of the history fetch *)

Lemma is_Eq_compare (a b : string) : is_Eq (String.compare a b) = String.eqb a b.
Proof.
  destruct (String.eqb_spec a b) as [->|Hab].
  - now rewrite string_compare_refl.
  - destruct (String.compare a b) eqn:Hc; try reflexivity.
    now apply String.compare_eq_iff in Hc.
Qed.

Lemma holds_eq_text (cell : option string) (s : string) :
  holds is_Eq (vtext cell) (VText s)
  = match cell with Some c => String.eqb c s | None => false end.
Proof. destruct cell as [c|]; simpl; [apply is_Eq_compare | reflexivity]. Qed.

Lemma holds_gte_text (a d : string) :
  holds not_Lt (VText a) (VText d) = String.leb d a.
Proof.
  simpl. unfold not_Lt, is_Lt, String.leb. rewrite (String.compare_antisym a d).
  now destruct (String.compare d a).
Qed.

Lemma holds_lte_text (a d : string) :
  holds not_Gt (VText a) (VText d) = String.leb a d.
Proof. simpl. unfold not_Gt, String.leb. now destruct (String.compare a d). Qed.

Lemma holds_lt_text (a d : string) :
  holds is_Lt (VText a) (VText d) = String.ltb a d.
Proof. simpl. unfold is_Lt, String.ltb. now destruct (String.compare a d). Qed.

Lemma existsb_ext {A} (f g : A -> bool) (l : list A) :
  (forall x, f x = g x) -> existsb f l = existsb g l.
Proof. intros H. induction l as [|x l IH]; simpl; [reflexivity|]. now rewrite H, IH. Qed.

(** The filters the history fetch sends select the rows the filters of the
    call describe. *)
Lemma history_selects (filters : option HistoryFilters) :
  selects stock_column (history_query filters) (matches filters).
Proof.
  unfold history_query. cbv zeta.
  eapply selects_same_filters;
    [apply q_filters_when_num; intros; reflexivity|].
  eapply selects_same_filters;
    [apply q_filters_when_num; intros; reflexivity|].
  eapply selects_ext.
  - eapply selects_when_str
      with (test := fun s r => holds is_Eq (vtext (r_status r)) (VText s)).
    + eapply selects_when_str
        with (test := fun d r => holds not_Gt (VText (r_from_date r)) (VText d)).
      * eapply selects_when_str
          with (test := fun d r => holds not_Lt (VText (r_from_date r)) (VText d)).
        -- eapply selects_when_str
             with (test := fun s r => holds is_Eq (vtext (r_sector r)) (VText s)).
           ++ eapply selects_when_str
                with (test := fun s r =>
                        match tickers s with
                        | [] => true
                        | ts => existsb (fun t => holds is_Eq (VText (r_emiten r))
                                                        (VText t)) ts
                        end)
                     (p := fun _ => true).
              ** destruct (String.eqb _ "combined");
                   [|destruct (String.eqb _ "emiten")];
                   exists (fun _ => true); split; reflexivity.
              ** intros s q' p' _ Hq'. fold (tickers s).
                 destruct (tickers s) as [|t ts] eqn:Ht; simpl.
                 --- eapply selects_ext; [exact Hq'|].
                     intros r. now rewrite andb_true_r.
                 --- apply (selects_add_filter stock_column
                              (FIn "emiten" (t :: ts))); [exact Hq' | reflexivity].
           ++ intros s q' p' _ Hq'.
              apply (selects_add_filter stock_column (FEq "sector" (VText s)));
                [exact Hq' | reflexivity].
        -- intros s q' p' _ Hq'.
           apply (selects_add_filter stock_column (FGte "from_date" (VText s)));
             [exact Hq' | reflexivity].
      * intros s q' p' _ Hq'.
        apply (selects_add_filter stock_column (FLte "from_date" (VText s)));
          [exact Hq' | reflexivity].
    + intros s q' p' _ Hq'.
      apply (selects_add_filter stock_column (FEq "status" (VText s)));
        [exact Hq' | reflexivity].
  - intros r. cbv beta. unfold matches, text_filter. rewrite andb_true_l.
    repeat (apply f_equal2).
    + destruct (opt filters f_emiten) as [s|]; [|reflexivity].
      destruct (String.eqb_spec s EmptyString) as [->|_]; [reflexivity|].
      destruct (tickers s); [reflexivity|].
      apply existsb_ext. intros t. simpl.
      rewrite is_Eq_compare. reflexivity.
    + destruct (opt filters f_sector) as [s|]; [|reflexivity].
      now rewrite holds_eq_text.
    + destruct (opt filters f_fromDate) as [s|]; [|reflexivity].
      now rewrite holds_gte_text.
    + destruct (opt filters f_toDate) as [s|]; [|reflexivity].
      now rewrite holds_lte_text.
    + destruct (opt filters f_status) as [s|]; [|reflexivity].
      now rewrite holds_eq_text.
Qed.

Lemma q_orders_when_num o k q :
  (forall n q', q_orders (k n q') = q_orders q') ->
  q_orders (when_num o k q) = q_orders q.
Proof.
  intros Hk. unfold when_num. destruct o as [n|]; [|reflexivity].
  destruct (Js.truthy_num (Some n)); [apply Hk | reflexivity].
Qed.

Lemma q_count_when_num o k q :
  (forall n q', q_count (k n q') = q_count q') ->
  q_count (when_num o k q) = q_count q.
Proof.
  intros Hk. unfold when_num. destruct o as [n|]; [|reflexivity].
  destruct (Js.truthy_num (Some n)); [apply Hk | reflexivity].
Qed.

Lemma q_orders_when_str o k q :
  (forall s q', same_shape q' (k s q')) -> q_orders (when_str o k q) = q_orders q.
Proof. intros Hk. apply (same_shape_when_str o k q Hk). Qed.

Lemma q_count_when_str o k q :
  (forall s q', same_shape q' (k s q')) -> q_count (when_str o k q) = q_count q.
Proof. intros Hk. apply (same_shape_when_str o k q Hk). Qed.

Lemma q_limit_when_str o k q :
  (forall s q', same_shape q' (k s q')) -> q_limit (when_str o k q) = q_limit q.
Proof. intros Hk. apply (same_shape_when_str o k q Hk). Qed.

Lemma q_offset_when_str o k q :
  (forall s q', same_shape q' (k s q')) -> q_offset (when_str o k q) = q_offset q.
Proof. intros Hk. apply (same_shape_when_str o k q Hk). Qed.

(** Every conditional filter call of the history fetch leaves the shape of
    the query alone. *)
Ltac filter_call_shape :=
  intros ? ?; cbv zeta; try destruct (Nat.ltb _ _); repeat split.

(** The sort keys the history fetch sends. *)
Lemma history_orders (filters : option HistoryFilters) :
  q_orders (history_query filters) =
  let sortBy := Js.or_str (opt filters f_sortBy) "from_date" in
  let a := is_asc (match opt filters f_sortOrder with Some o => o | None => desc end) in
  if String.eqb sortBy "combined" then [("from_date", a); ("emiten", a)]
  else if String.eqb sortBy "emiten" then [("emiten", a); ("from_date", true)]
  else [(sortBy, a)].
Proof.
  unfold history_query. cbv zeta.
  rewrite !q_orders_when_num by (intros; reflexivity).
  rewrite !q_orders_when_str by filter_call_shape.
  destruct (String.eqb _ "combined"); [reflexivity|].
  destruct (String.eqb _ "emiten"); reflexivity.
Qed.

Lemma history_count (filters : option HistoryFilters) :
  q_count (history_query filters) = true.
Proof.
  unfold history_query. cbv zeta.
  rewrite !q_count_when_num by (intros; reflexivity).
  rewrite !q_count_when_str by filter_call_shape.
  destruct (String.eqb _ "combined"); [reflexivity|].
  destruct (String.eqb _ "emiten"); reflexivity.
Qed.

(** The window the history fetch sends: none without a non-zero [limit] or
    [offset]; with a non-zero [offset], [limit || 50] rows from [offset]
    on. *)
Lemma history_page (filters : option HistoryFilters) :
  q_offset (history_query filters)
  = (if Js.truthy_num (opt filters f_offset) then opt filters f_offset else None)
  /\ q_limit (history_query filters)
     = (if Js.truthy_num (opt filters f_offset)
        then Some (Js.or_num (opt filters f_limit) 50)
        else if Js.truthy_num (opt filters f_limit) then opt filters f_limit
             else None).
Proof.
  unfold history_query. cbv zeta.
  match goal with
  | |- context [when_num _ limit ?q] => set (Q := q)
  end.
  assert (Hq : q_limit Q = None /\ q_offset Q = None).
  { subst Q.
    rewrite !q_limit_when_str, !q_offset_when_str by filter_call_shape.
    destruct (String.eqb _ "combined"); [split; reflexivity|].
    destruct (String.eqb _ "emiten"); split; reflexivity. }
  destruct Hq as [Hl Ho]. clearbody Q.
  unfold when_num.
  destruct (opt filters f_offset) as [k|], (opt filters f_limit) as [n|]; simpl;
    try destruct (Nat.eqb_spec k 0); try destruct (Nat.eqb_spec n 0);
    simpl; rewrite ?Hl, ?Ho; split; try reflexivity; f_equal; lia.
Qed.

(** ** Running the history fetch *)

(** The whole behaviour of the history fetch: it throws what the store
    reports, or the store's complaint about a sort column it does not have,
    and logs it; otherwise it returns the window of the sorted selection and
    the size of the selection. *)
Lemma history_run (filters : option HistoryFilters) (w : World) :
  getWatchlistAnalysisHistory filters w =
  let q := history_query filters in
  let selection := filter (matches filters) (stock_queries (db w)) in
  let failed e rest :=
    (Thrown e,
     {| db := db w; outages := rest;
        console := (console w ++ [("Error fetching watchlist analysis:", e)])%list;
        now := now w |}) in
  match outages w with
  | Some e :: rest => failed e rest
  | served =>
      match eval_orders stock_column (q_orders q) with
      | Some ks =>
          (Returned
             {| h_data := Some (window (q_offset q) (q_limit q)
                                       (sort_by (compare_rows ks) selection));
                h_count := Some (List.length selection) |},
           {| db := db w; outages := tl served; console := console w; now := now w |})
      | None => failed undefined_column (tl served)
      end
  end.
Proof.
  cbv zeta. unfold getWatchlistAnalysisHistory, bind, request, read_stock.
  destruct (eval_orders stock_column (q_orders (history_query filters)))
    as [ks|] eqn:Ho.
  - pose proof (exec_select_known stock_column (stock_queries (db w)) _ _ _
                  (history_selects filters) Ho) as He.
    rewrite history_count in He.
    destruct (outages w) as [|[e|] rest]; try reflexivity; now rewrite He.
  - pose proof (exec_select_unknown_order stock_column (stock_queries (db w)) _ Ho)
      as He.
    destruct (outages w) as [|[e|] rest]; try reflexivity; now rewrite He.
Qed.

(** ** Listings by ticker and combined listings *)

Lemma emiten_keys_order (a : bool) (x y : Row) :
  compare_rows [((fun r => VText (r_emiten r)), a);
                ((fun r => VText (r_from_date r)), true)] x y <> Gt ->
  by_emiten a x y.
Proof.
  unfold by_emiten, String.leb. simpl.
  rewrite (String.compare_antisym (r_emiten x) (r_emiten y)).
  destruct a; simpl;
    destruct (String.compare (r_emiten y) (r_emiten x)); simpl;
    destruct (String.compare (r_from_date x) (r_from_date y)); congruence.
Qed.

Lemma combined_keys_order (a : bool) (x y : Row) :
  compare_rows [((fun r => VText (r_from_date r)), a);
                ((fun r => VText (r_emiten r)), a)] x y <> Gt ->
  by_combined a x y.
Proof.
  unfold by_combined, String.leb. simpl.
  rewrite (String.compare_antisym (r_from_date x) (r_from_date y)).
  destruct a; simpl;
    destruct (String.compare (r_from_date y) (r_from_date x)); simpl;
    try congruence.
  - rewrite (String.compare_antisym (r_emiten x) (r_emiten y)).
    destruct (String.compare (r_emiten y) (r_emiten x)); simpl; congruence.
  - destruct (String.compare (r_emiten y) (r_emiten x)); simpl; congruence.
Qed.

Lemma by_combined_pair_le (x y : Row) :
  by_combined true x y -> pair_le (stock_key x) (stock_key y).
Proof.
  unfold by_combined, pair_le, stock_key, String.ltb. simpl.
  destruct (String.compare (r_from_date x) (r_from_date y)) eqn:Hc.
  - apply String.compare_eq_iff in Hc. auto.
  - auto.
  - discriminate.
Qed.

(** C1. A history fetch with [sortBy = "emiten"] returns its rows ordered by
    ticker in the direction asked for and, among rows of one ticker, by
    [from_date] ascending whatever the direction; it throws only what the
    store reports. *)
Theorem history_by_emiten_sorted (f : HistoryFilters) (w : World) :
  f_sortBy f = Some "emiten" ->
  match getWatchlistAnalysisHistory (Some f) w with
  | (Returned h, _) =>
      exists rows, h_data h = Some rows
                   /\ StronglySorted (by_emiten (requested_asc f)) rows
  | (Thrown e, _) => hd None (outages w) = Some e
  end.
Proof.
  intros Hby. rewrite history_run. cbv zeta. rewrite history_orders.
  simpl opt. rewrite Hby. simpl.
  assert (Hdir : is_asc match f_sortOrder f with Some o => o | None => desc end
                 = requested_asc f).
  { unfold requested_asc. now destruct (f_sortOrder f). }
  rewrite Hdir.
  assert (Hsorted : forall l o n,
             StronglySorted (by_emiten (requested_asc f))
               (window o n
                  (sort_by (compare_rows
                              [((fun r => VText (r_emiten r)), requested_asc f);
                               ((fun r => VText (r_from_date r)), true)]) l))).
  { intros l o n. apply StronglySorted_window.
    eapply StronglySorted_weaken; [apply emiten_keys_order|].
    apply sorted_by_keys. }
  destruct (outages w) as [|[e|] rest]; simpl; eauto.
Qed.

Lemma history_by_emiten_sorted_witness :
  match getWatchlistAnalysisHistory (Some (sorted_request "emiten" desc)) sample_world with
  | (Returned h, _) =>
      exists rows, h_data h = Some rows
                   /\ StronglySorted (by_emiten false) rows
  | (Thrown e, _) => hd None (outages sample_world) = Some e
  end.
Proof.
  exact (history_by_emiten_sorted (sorted_request "emiten" desc) sample_world eq_refl).
Defined.

(** C4. A history fetch with [sortBy = "combined"] returns its rows ordered
    by [from_date] and then by ticker, both in the direction asked for; when
    that direction is ascending the rows are in the one lexicographic order
    of the pairs (date, ticker).  It throws only what the store reports. *)
Theorem history_combined_sorted (f : HistoryFilters) (w : World) :
  f_sortBy f = Some "combined" ->
  match getWatchlistAnalysisHistory (Some f) w with
  | (Returned h, _) =>
      exists rows,
        h_data h = Some rows
        /\ StronglySorted (by_combined (requested_asc f)) rows
        /\ (f_sortOrder f = Some asc ->
            StronglySorted (fun x y => pair_le (stock_key x) (stock_key y)) rows)
  | (Thrown e, _) => hd None (outages w) = Some e
  end.
Proof.
  intros Hby. rewrite history_run. cbv zeta. rewrite history_orders.
  simpl opt. rewrite Hby. simpl.
  assert (Hdir : is_asc match f_sortOrder f with Some o => o | None => desc end
                 = requested_asc f).
  { unfold requested_asc. now destruct (f_sortOrder f). }
  rewrite Hdir.
  assert (Hsorted : forall l o n,
             StronglySorted (by_combined (requested_asc f))
               (window o n
                  (sort_by (compare_rows
                              [((fun r => VText (r_from_date r)), requested_asc f);
                               ((fun r => VText (r_emiten r)), requested_asc f)]) l))).
  { intros l o n. apply StronglySorted_window.
    eapply StronglySorted_weaken; [apply combined_keys_order|].
    apply sorted_by_keys. }
  assert (Hasc : forall l, f_sortOrder f = Some asc ->
             StronglySorted (by_combined (requested_asc f)) l ->
             StronglySorted (fun x y => pair_le (stock_key x) (stock_key y)) l).
  { intros l Ho. unfold requested_asc. rewrite Ho. simpl.
    apply StronglySorted_weaken, by_combined_pair_le. }
  destruct (outages w) as [|[e|] rest]; simpl; eauto 6.
Qed.

Lemma history_combined_sorted_witness :
  match getWatchlistAnalysisHistory (Some (sorted_request "combined" asc)) sample_world with
  | (Returned h, _) =>
      exists rows,
        h_data h = Some rows
        /\ StronglySorted (by_combined true) rows
        /\ (Some asc = Some asc ->
            StronglySorted (fun x y => pair_le (stock_key x) (stock_key y)) rows)
  | (Thrown e, _) => hd None (outages sample_world) = Some e
  end.
Proof.
  exact (history_combined_sorted (sorted_request "combined" asc) sample_world eq_refl).
Defined.

(** ** Pages and counts *)

(** The listing a call returns, and its count, in terms of the selection. *)
Lemma history_rows (filters : option HistoryFilters) (w : World) :
  let q := history_query filters in
  let selection := filter (matches filters) (stock_queries (db w)) in
  let answer :=
    match eval_orders stock_column (q_orders q) with
    | Some ks =>
        Some (window (q_offset q) (q_limit q) (sort_by (compare_rows ks) selection),
              List.length selection)
    | None => None
    end in
  let answer := match outages w with Some e :: _ => None | _ => answer end in
  rows_of (getWatchlistAnalysisHistory filters w) = option_map fst answer
  /\ count_of (getWatchlistAnalysisHistory filters w) = option_map snd answer.
Proof.
  cbv zeta. unfold rows_of, count_of. rewrite history_run. cbv zeta.
  destruct (outages w) as [|[e|] rest];
    destruct (eval_orders stock_column (q_orders (history_query filters)));
    simpl; split; reflexivity.
Qed.

Lemma history_orders_unpaged (f : HistoryFilters) :
  q_orders (history_query (Some (unpaged f))) = q_orders (history_query (Some f)).
Proof. now rewrite !history_orders. Qed.

Lemma matches_unpaged (f : HistoryFilters) (r : Row) :
  matches (Some (unpaged f)) r = matches (Some f) r.
Proof. reflexivity. Qed.

(** Without its page a call returns the whole sorted selection. *)
Lemma history_rows_unpaged (f : HistoryFilters) (w : World) :
  rows_of (getWatchlistAnalysisHistory (Some (unpaged f)) w) =
  match outages w with
  | Some e :: _ => None
  | _ =>
      option_map
        (fun ks => sort_by (compare_rows ks)
                           (filter (matches (Some f)) (stock_queries (db w))))
        (eval_orders stock_column (q_orders (history_query (Some f))))
  end.
Proof.
  destruct (history_rows (Some (unpaged f)) w) as [-> _]. cbv zeta.
  rewrite history_orders_unpaged.
  destruct (history_page (Some (unpaged f))) as [-> ->]. simpl.
  destruct (outages w) as [|[e|] rest];
    destruct (eval_orders stock_column (q_orders (history_query (Some f))));
    reflexivity.
Qed.

(** C2, as the code has it. A history fetch with a non-zero [offset] returns
    the rows at the positions [offset] to [offset + (limit or 50) - 1] of
    the listing the same call returns without [limit] and [offset]; it
    throws exactly when that call throws. *)
Theorem history_page_window (f : HistoryFilters) (w : World) (k : nat) :
  f_offset f = Some k -> k <> 0 ->
  rows_of (getWatchlistAnalysisHistory (Some f) w)
  = option_map (page_of f k)
               (rows_of (getWatchlistAnalysisHistory (Some (unpaged f)) w)).
Proof.
  intros Hoff Hk. rewrite history_rows_unpaged.
  destruct (history_rows (Some f) w) as [-> _]. cbv zeta.
  destruct (history_page (Some f)) as [-> ->]. simpl opt. rewrite Hoff.
  assert (Ht : Js.truthy_num (Some k) = true).
  { simpl. now destruct (Nat.eqb_spec k 0). }
  rewrite Ht.
  destruct (outages w) as [|[e|] rest];
    destruct (eval_orders stock_column (q_orders (history_query (Some f))));
    reflexivity.
Qed.

Lemma history_page_window_witness :
  rows_of (getWatchlistAnalysisHistory (Some (page_request (Some 10) (Some 20)))
             (world_of (one_day_db 80) []))
  = option_map (page_of (page_request (Some 10) (Some 20)) 20)
      (rows_of (getWatchlistAnalysisHistory
                  (Some (unpaged (page_request (Some 10) (Some 20))))
                  (world_of (one_day_db 80) []))).
Proof.
  apply (history_page_window (page_request (Some 10) (Some 20))
           (world_of (one_day_db 80) []) 20); [reflexivity | discriminate].
Defined.

(** With [limit = 10] and [offset = 20] the rows 21 to 30 of the listing
    come back, and with [offset = 20] alone fifty rows from the 21st on. *)
Example history_page_rows_21_to_30 :
  option_map (map r_id)
    (rows_of (getWatchlistAnalysisHistory (Some (page_request (Some 10) (Some 20)))
                (world_of (one_day_db 80) [])))
  = Some (seq 20 10)
  /\ option_map (@List.length Row)
       (rows_of (getWatchlistAnalysisHistory (Some (page_request None (Some 20)))
                   (world_of (one_day_db 80) [])))
     = Some 50.
Proof. split; vm_compute; reflexivity. Qed.

(** C2, as stated, fails for the offset zero: without a [limit] the call
    returns every selected row, here 51, not the first fifty. *)
Lemma history_offset_zero_not_a_page :
  rows_of (getWatchlistAnalysisHistory (Some (page_request None (Some 0)))
             (world_of (one_day_db 51) []))
  <> option_map (page_of (page_request None (Some 0)) 0)
       (rows_of (getWatchlistAnalysisHistory
                   (Some (unpaged (page_request None (Some 0))))
                   (world_of (one_day_db 51) []))).
Proof.
  intros H. apply (f_equal (option_map (@List.length Row))) in H.
  vm_compute in H. discriminate H.
Qed.

(** C10. The count a history fetch returns is the number of rows of the
    table its filters select, which is also the number of rows the same call
    returns without [limit] and [offset]: the page plays no part in it. *)
Theorem history_count_total (filters : option HistoryFilters) (w w' : World)
  (h : History) :
  getWatchlistAnalysisHistory filters w = (Returned h, w') ->
  h_count h
  = Some (List.length (filter (matches filters) (stock_queries (db w))))
  /\ h_count h
     = option_map (@List.length Row)
         (rows_of (getWatchlistAnalysisHistory (option_map unpaged filters) w)).
Proof.
  intros Hrun.
  assert (Hc : count_of (getWatchlistAnalysisHistory filters w) = h_count h).
  { unfold count_of. now rewrite Hrun. }
  destruct (history_rows filters w) as [_ Hcount]. cbv zeta in Hcount.
  rewrite Hc in Hcount.
  assert (Hthrown : forall e, fst (getWatchlistAnalysisHistory filters w) <> Thrown e).
  { intros e. rewrite Hrun. discriminate. }
  rewrite history_run in Hthrown. cbv zeta in Hthrown.
  assert (Hfull :
            rows_of (getWatchlistAnalysisHistory (option_map unpaged filters) w)
            = match outages w with
              | Some e :: _ => None
              | _ =>
                  option_map
                    (fun ks => sort_by (compare_rows ks)
                                 (filter (matches filters) (stock_queries (db w))))
                    (eval_orders stock_column (q_orders (history_query filters)))
              end).
  { destruct filters as [f|]; [apply history_rows_unpaged|].
    simpl option_map.
    destruct (history_rows None w) as [-> _]. cbv zeta.
    destruct (history_page None) as [-> ->]. simpl.
    destruct (outages w) as [|[e|] rest];
      destruct (eval_orders stock_column (q_orders (history_query None)));
      reflexivity. }
  rewrite Hfull, Hcount.
  destruct (outages w) as [|[e|] rest];
    try (exfalso; apply (Hthrown e); reflexivity);
    (destruct (eval_orders stock_column (q_orders (history_query filters)));
     [ simpl; now rewrite sort_by_length
     | exfalso; apply (Hthrown undefined_column); reflexivity ]).
Qed.

Lemma history_count_total_witness :
  Some 5 = Some (List.length (filter (matches (Some (page_request (Some 2) (Some 1))))
                                     (stock_queries (db sample_world))))
  /\ Some 5
     = option_map (@List.length Row)
         (rows_of (getWatchlistAnalysisHistory
                     (option_map unpaged (Some (page_request (Some 2) (Some 1))))
                     sample_world)).
Proof.
  exact (history_count_total (Some (page_request (Some 2) (Some 1))) sample_world
           _ _ eq_refl).
Defined.

(** ** The ticker filter *)

Lemma split_all_space (s : string) (sep : bool) :
  Js.all_space s = true ->
  Forall (fun piece => piece = EmptyString) (Js.split_from sep EmptyString s).
Proof.
  revert sep. induction s as [|c s IH]; intros sep Hs; simpl in *.
  - repeat constructor.
  - apply andb_true_iff in Hs. destruct Hs as [Hc Hs]. rewrite Hc.
    destruct sep; [|constructor; [reflexivity|]]; now apply IH.
Qed.

(** A string of white space names no ticker. *)
Lemma tickers_all_space (s : string) : Js.all_space s = true -> tickers s = [].
Proof.
  intros Hs. unfold tickers, Js.filter_Boolean, Js.split_ws.
  pose proof (split_all_space s false Hs) as Hall.
  induction Hall as [|piece l Hp _ IH]; simpl; [reflexivity|].
  subst piece. exact IH.
Qed.

Lemma history_query_no_tickers (f : HistoryFilters) (e : string) :
  tickers e = [] ->
  history_query (Some (with_emiten (Some e) f))
  = history_query (Some (with_emiten None f)).
Proof.
  intros He. unfold history_query. cbv zeta.
  cbn [opt with_emiten f_emiten f_sector f_fromDate f_toDate f_status f_limit
         f_offset f_sortBy f_sortOrder].
  assert (Hskip : forall k q,
             (forall q', k e q' = q') -> when_str (Some e) k q = q).
  { intros k q Hk. unfold when_str. now destruct (Js.truthy_str (Some e)). }
  rewrite Hskip; [reflexivity|].
  intros q'. fold (tickers e). now rewrite He.
Qed.

(** C3. A history fetch whose [emiten] filter is white space only, or names
    no ticker at all, does in every world exactly what the same call does
    without the [emiten] filter: same result or same exception, same world
    afterwards. *)
Theorem history_blank_emiten (f : HistoryFilters) (e : string) (w : World) :
  Js.all_space e = true \/ tickers e = [] ->
  getWatchlistAnalysisHistory (Some (with_emiten (Some e) f)) w
  = getWatchlistAnalysisHistory (Some (with_emiten None f)) w.
Proof.
  intros He.
  assert (Hno : tickers e = []).
  { destruct He as [Hs|Hn]; [now apply tickers_all_space | exact Hn]. }
  unfold getWatchlistAnalysisHistory.
  now rewrite (history_query_no_tickers f e Hno).
Qed.

Lemma history_blank_emiten_witness :
  getWatchlistAnalysisHistory (Some (with_emiten (Some "  ") no_filters)) sample_world
  = getWatchlistAnalysisHistory (Some (with_emiten None no_filters)) sample_world.
Proof.
  apply (history_blank_emiten no_filters "  " sample_world).
  left. reflexivity.
Defined.

(** ** Filters combine by conjunction *)

Lemma matches_sector_status (f : HistoryFilters) (s t : string) (r : Row) :
  matches (Some (with_sector_status (Some s) (Some t) f)) r
  = matches (Some (with_sector_status (Some s) None f)) r
    && matches (Some (with_sector_status None (Some t) f)) r.
Proof.
  unfold matches.
  cbn [opt with_sector_status f_emiten f_sector f_fromDate f_toDate f_status].
  change (text_filter None (r_sector r)) with true.
  change (text_filter None (r_status r)) with true.
  btauto.
Qed.

Lemma history_orders_sector_status (f : HistoryFilters) (s t : option string) :
  q_orders (history_query (Some (with_sector_status s t f)))
  = q_orders (history_query (Some f)).
Proof. now rewrite !history_orders. Qed.

(** The listing of a call without page, filtered by sector and status. *)
Lemma history_rows_sector_status (f : HistoryFilters) (s t : option string)
  (w : World) :
  f_limit f = None -> f_offset f = None ->
  rows_of (getWatchlistAnalysisHistory (Some (with_sector_status s t f)) w) =
  match outages w with
  | Some e :: _ => None
  | _ =>
      option_map
        (fun ks => sort_by (compare_rows ks)
                     (filter (matches (Some (with_sector_status s t f)))
                             (stock_queries (db w))))
        (eval_orders stock_column (q_orders (history_query (Some f))))
  end.
Proof.
  intros Hl Ho.
  destruct (history_rows (Some (with_sector_status s t f)) w) as [-> _]. cbv zeta.
  rewrite history_orders_sector_status.
  destruct (history_page (Some (with_sector_status s t f))) as [-> ->].
  cbn [opt with_sector_status f_limit f_offset]. rewrite Hl, Ho. simpl.
  destruct (outages w) as [|[e|] rest];
    destruct (eval_orders stock_column (q_orders (history_query (Some f))));
    reflexivity.
Qed.

(** C5. Without [limit] and [offset], the rows a history fetch returns for a
    sector filter and a status filter together are exactly the rows it
    returns for the sector filter alone that it also returns for the status
    filter alone, all other arguments and the store being the same; the three
    calls return together or throw together. *)
Theorem history_filters_conjunctive (f : HistoryFilters) (s t : string) (w : World) :
  f_limit f = None -> f_offset f = None ->
  (exists both sector_only status_only,
      rows_of (getWatchlistAnalysisHistory
                 (Some (with_sector_status (Some s) (Some t) f)) w) = Some both
      /\ rows_of (getWatchlistAnalysisHistory
                    (Some (with_sector_status (Some s) None f)) w) = Some sector_only
      /\ rows_of (getWatchlistAnalysisHistory
                    (Some (with_sector_status None (Some t) f)) w) = Some status_only
      /\ forall r, In r both <-> In r sector_only /\ In r status_only)
  \/ (rows_of (getWatchlistAnalysisHistory
                 (Some (with_sector_status (Some s) (Some t) f)) w) = None
      /\ rows_of (getWatchlistAnalysisHistory
                    (Some (with_sector_status (Some s) None f)) w) = None
      /\ rows_of (getWatchlistAnalysisHistory
                    (Some (with_sector_status None (Some t) f)) w) = None).
Proof.
  intros Hl Ho.
  rewrite !(history_rows_sector_status f _ _ w Hl Ho).
  assert (Hin : forall ks r,
             In r (sort_by (compare_rows ks)
                     (filter (matches (Some (with_sector_status (Some s) (Some t) f)))
                             (stock_queries (db w))))
             <-> In r (sort_by (compare_rows ks)
                         (filter (matches (Some (with_sector_status (Some s) None f)))
                                 (stock_queries (db w))))
                 /\ In r (sort_by (compare_rows ks)
                            (filter (matches (Some (with_sector_status None (Some t) f)))
                                    (stock_queries (db w))))).
  { intros ks r. rewrite !sort_by_In, !filter_In, matches_sector_status.
    rewrite andb_true_iff. tauto. }
  destruct (outages w) as [|[e|] rest];
    destruct (eval_orders stock_column (q_orders (history_query (Some f))))
      as [ks|]; simpl; try (right; repeat split; reflexivity);
    left; do 3 eexists;
    (split; [reflexivity|split; [reflexivity|split; [reflexivity|apply Hin]]]).
Qed.

Lemma history_filters_conjunctive_witness :
  (exists both sector_only status_only,
      rows_of (getWatchlistAnalysisHistory
                 (Some (with_sector_status (Some "mining") (Some "success") no_filters))
                 sample_world) = Some both
      /\ rows_of (getWatchlistAnalysisHistory
                    (Some (with_sector_status (Some "mining") None no_filters))
                    sample_world) = Some sector_only
      /\ rows_of (getWatchlistAnalysisHistory
                    (Some (with_sector_status None (Some "success") no_filters))
                    sample_world) = Some status_only
      /\ forall r, In r both <-> In r sector_only /\ In r status_only)
  \/ (rows_of (getWatchlistAnalysisHistory
                 (Some (with_sector_status (Some "mining") (Some "success") no_filters))
                 sample_world) = None
      /\ rows_of (getWatchlistAnalysisHistory
                    (Some (with_sector_status (Some "mining") None no_filters))
                    sample_world) = None
      /\ rows_of (getWatchlistAnalysisHistory
                    (Some (with_sector_status None (Some "success") no_filters))
                    sample_world) = None).
Proof.
  apply (history_filters_conjunctive no_filters "mining" "success" sample_world);
    reflexivity.
Defined.

(** ** The newest row *)

Section SortHead.
Context {A : Type}.
Variable cmp : A -> A -> comparison.
Hypothesis cmp_antisym : forall x y, cmp x y = CompOpp (cmp y x).
Hypothesis cmp_le_trans :
  forall x y z, cmp x y <> Gt -> cmp y z <> Gt -> cmp x z <> Gt.

Lemma cmp_refl_le (x : A) : cmp x x <> Gt.
Proof.
  pose proof (cmp_antisym x x) as H. destruct (cmp x x); simpl in H; congruence.
Qed.

Lemma sort_by_nil (l : list A) : sort_by cmp l = [] -> l = [].
Proof.
  intros H. apply length_zero_iff_nil.
  now rewrite <- (sort_by_length cmp l), H.
Qed.

(** The head of the sorted list is an element no other element comes
    before. *)
Lemma sort_by_head (l : list A) (m : A) :
  hd_error (sort_by cmp l) = Some m ->
  In m l /\ forall y, In y l -> cmp m y <> Gt.
Proof.
  intros Hm.
  pose proof (sort_by_sorted cmp cmp_antisym cmp_le_trans l) as Hs.
  destruct (sort_by cmp l) as [|x rest] eqn:Hl; [discriminate|].
  injection Hm as ->.
  assert (Hin : forall y, In y l <-> In y (m :: rest)).
  { intros y. rewrite <- Hl. symmetry. apply sort_by_In. }
  split; [apply Hin; now left|].
  intros y Hy. apply Hin in Hy. destruct Hy as [<-|Hy]; [apply cmp_refl_le|].
  apply StronglySorted_inv in Hs. destruct Hs as [_ Hall].
  rewrite Forall_forall in Hall. now apply Hall.
Qed.

End SortHead.

Lemma newest_none (l : list Row) : newest l = None -> l = [].
Proof.
  unfold newest. intros H. apply (sort_by_nil (compare_rows newest_first)).
  now destruct (sort_by (compare_rows newest_first) l).
Qed.

(** The newest row of a list is one of its rows, and no row of the list has
    a later date. *)
Lemma newest_some (l : list Row) (m : Row) :
  newest l = Some m ->
  In m l /\ forall y, In y l -> String.leb (r_from_date y) (r_from_date m) = true.
Proof.
  intros H.
  apply (sort_by_head (compare_rows newest_first)
           (compare_rows_antisym _) (compare_rows_le_trans _)) in H.
  destruct H as [Hin Hle]. split; [exact Hin|].
  intros y Hy. specialize (Hle y Hy). simpl in Hle. unfold String.leb.
  destruct (String.compare (r_from_date y) (r_from_date m)); congruence.
Qed.

Lemma single_first {R} (l : list R) (c : option nat) :
  single (ok_response (window None (Some 1) l) c)
  = match hd_error l with
    | Some x => ok_response x c
    | None => error_response no_single_row
    end.
Proof. destruct l as [|x [|y l]]; reflexivity. Qed.

(** The filters of the latest-record look-up select the successful analyses
    of the ticker. *)
Lemma latest_selects (emiten : string) :
  selects stock_column
    (select false |> eq_ "emiten" (VText emiten) |> eq_ "status" (VText "success")
       |> order "from_date" false |> limit 1)
    (successful emiten).
Proof.
  eapply selects_same_filters with
    (q := select false |> eq_ "emiten" (VText emiten)
            |> eq_ "status" (VText "success")); [reflexivity|].
  eapply selects_ext.
  - apply (selects_add_filter stock_column (FEq "status" (VText "success")));
      [|reflexivity].
    apply (selects_add_filter stock_column (FEq "emiten" (VText emiten)));
      [apply selects_select | reflexivity].
  - intros r. cbv beta. unfold successful. rewrite andb_true_l.
    rewrite (holds_eq_text (r_status r)). simpl. now rewrite is_Eq_compare.
Qed.

(** The filters of the prior-day look-up select the successful analyses of
    the ticker dated before the current date. *)
Lemma prior_selects (emiten currentDate : string) :
  selects stock_column
    (select false |> eq_ "emiten" (VText emiten) |> eq_ "status" (VText "success")
       |> lt "from_date" (VText currentDate)
       |> order "from_date" false |> limit 1)
    (prior emiten currentDate).
Proof.
  eapply selects_same_filters with
    (q := select false |> eq_ "emiten" (VText emiten)
            |> eq_ "status" (VText "success")
            |> lt "from_date" (VText currentDate)); [reflexivity|].
  eapply selects_ext.
  - apply (selects_add_filter stock_column (FLt "from_date" (VText currentDate)));
      [|reflexivity].
    apply (selects_add_filter stock_column (FEq "status" (VText "success")));
      [|reflexivity].
    apply (selects_add_filter stock_column (FEq "emiten" (VText emiten)));
      [apply selects_select | reflexivity].
  - intros r. cbv beta. unfold prior, successful. rewrite andb_true_l.
    rewrite (holds_eq_text (r_status r)), holds_lt_text. simpl.
    now rewrite is_Eq_compare.
Qed.

(** The latest-record look-up never throws and writes nothing; it returns
    the newest successful analysis of the ticker unless the store reports an
    error or there is none. *)
Lemma latest_run (emiten : string) (w : World) :
  getLatestStockQuery emiten w =
  (Returned match outages w with
            | Some _ :: _ => None
            | _ => newest (filter (successful emiten) (stock_queries (db w)))
            end,
   after_request w).
Proof.
  unfold getLatestStockQuery, bind, request, answer_with, read_stock.
  rewrite (exec_select_known stock_column _ _ _ newest_first
             (latest_selects emiten) eq_refl).
  cbn [q_offset q_limit q_count limit order eq_ add_filter select].
  rewrite single_first. fold (newest (filter (successful emiten) (stock_queries (db w)))).
  unfold after_request.
  destruct (outages w) as [|[e|] rest]; try reflexivity;
    match goal with
    | |- context [newest ?l] => destruct (newest l); reflexivity
    end.
Qed.

Lemma successful_iff (emiten : string) (r : Row) :
  successful emiten r = true
  <-> r_emiten r = emiten /\ r_status r = Some "success".
Proof.
  unfold successful. rewrite andb_true_iff, String.eqb_eq.
  destruct (r_status r) as [s|].
  - rewrite String.eqb_eq. split; intros [H1 H2]; split; congruence.
  - split; intros [_ H]; discriminate.
Qed.

(** C7. The latest-record look-up always returns, and changes neither the
    tables nor the console.  When the store serves it, it returns a
    successful analysis of the ticker than which no successful analysis of
    the ticker is dated later, or the null value when the ticker has no
    successful analysis; when the store reports an error it returns the null
    value as well, so that the caller sees the same outcome in the two
    cases. *)
Theorem latest_lookup (emiten : string) (w : World) :
  (exists answer,
      getLatestStockQuery emiten w = (Returned answer, after_request w)
      /\ match hd None (outages w), answer with
         | Some _, found => found = None
         | None, Some r =>
             In r (stock_queries (db w))
             /\ r_emiten r = emiten /\ r_status r = Some "success"
             /\ forall r', In r' (stock_queries (db w)) ->
                           r_emiten r' = emiten -> r_status r' = Some "success" ->
                           String.leb (r_from_date r') (r_from_date r) = true
         | None, None =>
             forall r', In r' (stock_queries (db w)) ->
                        ~ (r_emiten r' = emiten /\ r_status r' = Some "success")
         end)
  /\ (forall (w_err : World) (err : PgError),
         hd None (outages w_err) = Some err ->
         hd None (outages w) = None ->
         (forall r', In r' (stock_queries (db w)) ->
                     ~ (r_emiten r' = emiten /\ r_status r' = Some "success")) ->
         fst (getLatestStockQuery emiten w_err) = fst (getLatestStockQuery emiten w)
         /\ console (snd (getLatestStockQuery emiten w_err)) = console w_err
         /\ console (snd (getLatestStockQuery emiten w)) = console w).
Proof.
  split.
  - rewrite latest_run. eexists; split; [reflexivity|].
    destruct (outages w) as [|[e|] rest]; simpl; try reflexivity;
      (destruct (newest (filter (successful emiten) (stock_queries (db w))))
         as [r|] eqn:Hn;
       [ apply newest_some in Hn; destruct Hn as [Hin Hle];
         apply filter_In in Hin; destruct Hin as [Hin Hok];
         apply successful_iff in Hok; destruct Hok as [He Hs];
         repeat split; try assumption;
         intros r' Hr' He' Hs'; apply Hle, filter_In; split; [assumption|];
         now apply successful_iff
       | apply newest_none in Hn; intros r' Hr' Hok;
         apply successful_iff in Hok;
         assert (Hf : In r' (filter (successful emiten) (stock_queries (db w))))
           by (apply filter_In; now split);
         now rewrite Hn in Hf ]).
  - intros w_err err Herr Hserved Hnone. rewrite !latest_run. simpl.
    repeat split.
    destruct (outages w_err) as [|[e|] rest]; try discriminate.
    assert (Hempty : filter (successful emiten) (stock_queries (db w)) = []).
    { destruct (filter (successful emiten) (stock_queries (db w))) as [|x l] eqn:Hf;
        [reflexivity|].
      assert (Hx : In x (filter (successful emiten) (stock_queries (db w))))
        by (rewrite Hf; now left).
      apply filter_In in Hx. destruct Hx as [Hx Hok].
      apply successful_iff in Hok. now destruct (Hnone x Hx). }
    rewrite Hempty.
    destruct (outages w) as [|[e'|] rest']; try discriminate; reflexivity.
Qed.

Lemma latest_lookup_witness :
  fst (getLatestStockQuery "TLKM" (world_of sample_db [Some unreachable]))
  = fst (getLatestStockQuery "TLKM" sample_world)
  /\ console (snd (getLatestStockQuery "TLKM" (world_of sample_db [Some unreachable])))
     = []
  /\ console (snd (getLatestStockQuery "TLKM" sample_world)) = [].
Proof.
  apply (proj2 (latest_lookup "TLKM" sample_world)
           (world_of sample_db [Some unreachable]) unreachable);
    [reflexivity | reflexivity |].
  intros r' Hr' [He _]. simpl in Hr'.
  repeat (destruct Hr' as [<-|Hr']; [discriminate He|]). exact Hr'.
Defined.

(** On the sample table the newest successful analysis of BBCA is the one
    of 2024-01-02, and ANTM's failed analysis of 2024-01-03 is passed
    over. *)
Example sample_latest_records :
  fst (getLatestStockQuery "BBCA" sample_world)
  = Returned (Some (sample_row 1 "2024-01-02" "BBCA" (Some "bank") (Some "success")))
  /\ fst (getLatestStockQuery "ANTM" sample_world)
     = Returned (Some (sample_row 4 "2024-01-02" "ANTM" (Some "mining") (Some "success")))
  /\ fst (getLatestStockQuery "ANTM" (world_of sample_db [Some unreachable]))
     = Returned None.
Proof. repeat split. Qed.

(** ** Running the prior-day price update *)

Lemma project_single_first {A B} (f : A -> B) (l : list A) (c : option nat) :
  single (project f (ok_response (window None (Some 1) l) c))
  = match hd_error l with
    | Some x => ok_response (f x) c
    | None => error_response no_single_row
    end.
Proof. destruct l as [|x [|y l]]; reflexivity. Qed.

(** The store's answer to the update of one id. *)
Lemma exec_update_by_id (price : number) (t : Row) (d : Db) :
  exec_update_stock (patch_real_harga price)
    [FEq "id" (VNum (Z.of_nat (r_id t)))] d
  = (ok_response
       (map (apply_patch (patch_real_harga price))
            (filter (fun x => Nat.eqb (r_id x) (r_id t)) (stock_queries d)))
       None,
     with_stock_queries (priced price t (stock_queries d)) d).
Proof.
  unfold exec_update_stock. simpl eval_filters.
  assert (Hkeep : forall x : Row,
             holds is_Eq (VNum (Z.of_nat (r_id x))) (VNum (Z.of_nat (r_id t))) && true
             = Nat.eqb (r_id x) (r_id t)).
  { intros x. rewrite andb_true_r. simpl.
    destruct (Nat.eqb_spec (r_id x) (r_id t)) as [->|Hne].
    - now rewrite Z.compare_refl.
    - destruct (Z.compare_spec (Z.of_nat (r_id x)) (Z.of_nat (r_id t)));
        try reflexivity. lia. }
  unfold with_stock_queries, priced. f_equal.
  - f_equal. f_equal. apply filter_ext, Hkeep.
  - f_equal. apply map_ext. intros x. rewrite <- Hkeep. reflexivity.
Qed.

(** The whole behaviour of the prior-day price update. *)
Lemma update_run (emiten currentDate : string) (price : number) (w : World) :
  updatePreviousDayRealPrice emiten currentDate price w =
  match outages w with
  | Some err :: rest =>
      (Returned None,
       {| db := db w; outages := rest;
          console := if String.eqb (code err) "PGRST116" then console w
                     else (console w ++ [(finding_message emiten currentDate, err)])%list;
          now := now w |})
  | served =>
      match newest (filter (prior emiten currentDate) (stock_queries (db w))) with
      | None => (Returned None, after_request w)
      | Some t =>
          match tl served with
          | Some err :: rest =>
              (Returned None,
               {| db := db w; outages := rest;
                  console := (console w
                              ++ [(updating_message emiten (r_from_date t), err)])%list;
                  now := now w |})
          | served' =>
              (Returned
                 (Some (map (apply_patch (patch_real_harga price))
                            (filter (fun x => Nat.eqb (r_id x) (r_id t))
                                    (stock_queries (db w))))),
               {| db := with_stock_queries (priced price t (stock_queries (db w)))
                                           (db w);
                  outages := tl served'; console := console w; now := now w |})
          end
      end
  end.
Proof.
  unfold updatePreviousDayRealPrice, bind, request, answer_with, read_stock.
  rewrite (exec_select_known stock_column _ _ _ newest_first
             (prior_selects emiten currentDate) eq_refl).
  cbn [q_offset q_limit q_count limit order eq_ lt add_filter select].
  rewrite project_single_first.
  fold (newest (filter (prior emiten currentDate) (stock_queries (db w)))).
  unfold after_request, finding_message, updating_message.
  destruct (outages w) as [|[e|] rest].
  - destruct (newest _) as [t|]; [|reflexivity].
    cbn -[exec_update_stock]. rewrite exec_update_by_id. reflexivity.
  - cbn. destruct (String.eqb (code e) "PGRST116"); reflexivity.
  - destruct (newest _) as [t|]; [|reflexivity].
    cbn -[exec_update_stock].
    destruct rest as [|[e|] rest']; cbn -[exec_update_stock]; try reflexivity;
      rewrite exec_update_by_id; reflexivity.
Qed.

(** ** The prior-day price update writes one field of one row *)

Lemma NoDup_map_middle {A B} (f : A -> B) (pre post : list A) (t x : A) :
  NoDup (map f (pre ++ t :: post)) -> In x (pre ++ post) -> f x <> f t.
Proof.
  rewrite map_app. simpl. intros Hnd Hx Heq.
  apply NoDup_remove_2 in Hnd. apply Hnd.
  rewrite <- map_app, <- Heq. now apply in_map.
Qed.

Lemma priced_split (price : number) (pre post : list Row) (t : Row) :
  NoDup (map r_id (pre ++ t :: post)) ->
  priced price t (pre ++ t :: post)
  = (pre ++ apply_patch (patch_real_harga price) t :: post)%list.
Proof.
  intros Hnd. unfold priced.
  assert (Hother : forall l, (forall x, In x l -> In x (pre ++ post)) ->
            map (fun x => if Nat.eqb (r_id x) (r_id t)
                          then apply_patch (patch_real_harga price) x else x) l = l).
  { intros l Hl. rewrite <- (map_id l) at 2. apply map_ext_in. intros x Hx.
    destruct (Nat.eqb_spec (r_id x) (r_id t)) as [Heq|_]; [|reflexivity].
    now destruct (NoDup_map_middle r_id pre post t x Hnd (Hl x Hx)). }
  rewrite map_app. simpl. rewrite Nat.eqb_refl.
  rewrite !Hother; [reflexivity | |];
    intros x Hx; apply in_or_app; [now right | now left].
Qed.

Lemma filter_id_split (pre post : list Row) (t : Row) :
  NoDup (map r_id (pre ++ t :: post)) ->
  filter (fun x => Nat.eqb (r_id x) (r_id t)) (pre ++ t :: post) = [t].
Proof.
  intros Hnd.
  assert (Hother : forall l, (forall x, In x l -> In x (pre ++ post)) ->
            filter (fun x => Nat.eqb (r_id x) (r_id t)) l = []).
  { induction l as [|x l IH]; intros Hl; simpl; [reflexivity|].
    destruct (Nat.eqb_spec (r_id x) (r_id t)) as [Heq|_].
    - destruct (NoDup_map_middle r_id pre post t x Hnd (Hl x (or_introl eq_refl)) Heq).
    - apply IH. intros y Hy. apply Hl. now right. }
  rewrite filter_app. simpl. rewrite Nat.eqb_refl.
  rewrite !Hother; [reflexivity | |];
    intros x Hx; apply in_or_app; [now right | now left].
Qed.

(** Setting [real_harga] changes no other column. *)
Lemma patch_real_harga_frame (price : number) (t : Row) (name : string)
  (get : Row -> Value) :
  In (name, get) stock_columns -> name <> "real_harga" ->
  get (apply_patch (patch_real_harga price) t) = get t.
Proof.
  intros Hin Hname. unfold stock_columns in Hin. simpl in Hin.
  repeat (destruct Hin as [Hin|Hin];
          [injection Hin as <- <-; try reflexivity; now destruct Hname|]).
  destruct Hin.
Qed.

Lemma leb_neq_ltb (a b : string) :
  String.leb a b = true -> a <> b -> String.ltb a b = true.
Proof.
  unfold String.leb, String.ltb. intros Hle Hne.
  destruct (String.compare a b) eqn:Hc; try congruence.
  now apply String.compare_eq_iff in Hc.
Qed.

Lemma prior_emiten (emiten currentDate : string) (r : Row) :
  prior emiten currentDate r = true -> r_emiten r = emiten.
Proof.
  unfold prior. rewrite andb_true_iff. intros [Hs _].
  now apply successful_iff in Hs.
Qed.

(** C8. The prior-day price update, when the ticker has no successful
    analysis dated before the current date, returns the null value and leaves
    the store as it was, whatever the store answers.  When there is one, it
    is the row [t] with the latest date among them that is concerned: if the
    store serves the two requests, [real_harga] of [t] is set to the price
    and no other column of [t] and no other row changes; if the store reports
    an error instead, the null value is returned and the store is left as it
    was. *)
Theorem patch_prior_day_price (emiten currentDate : string) (price : number)
  (w : World) :
  ((forall r, In r (stock_queries (db w)) -> prior emiten currentDate r = false) ->
   exists w',
     updatePreviousDayRealPrice emiten currentDate price w = (Returned None, w')
     /\ db w' = db w)
  /\ (unique_ids (db w) -> unique_keys (db w) ->
      (exists r, In r (stock_queries (db w)) /\ prior emiten currentDate r = true) ->
      exists pre t post t',
        stock_queries (db w) = (pre ++ t :: post)%list
        /\ prior emiten currentDate t = true
        /\ (forall r, In r (pre ++ post) -> prior emiten currentDate r = true ->
                      String.ltb (r_from_date r) (r_from_date t) = true)
        /\ r_real_harga t' = Some price
        /\ (forall name get, In (name, get) stock_columns ->
                             name <> "real_harga" -> get t' = get t)
        /\ (serves 2 w ->
            exists w',
              updatePreviousDayRealPrice emiten currentDate price w
              = (Returned (Some [t']), w')
              /\ db w' = with_stock_queries (pre ++ t' :: post) (db w)
              /\ console w' = console w)
        /\ (~ serves 2 w ->
            exists w',
              updatePreviousDayRealPrice emiten currentDate price w
              = (Returned None, w')
              /\ db w' = db w)).
Proof.
  split.
  - intros Hnone. rewrite update_run.
    assert (Hn : newest (filter (prior emiten currentDate) (stock_queries (db w)))
                 = None).
    { destruct (newest _) as [t|] eqn:Hn; [|reflexivity].
      apply newest_some in Hn. destruct Hn as [Hin _].
      apply filter_In in Hin. destruct Hin as [Hin Hp].
      rewrite (Hnone t Hin) in Hp. discriminate. }
    rewrite Hn.
    destruct (outages w) as [|[e|] rest]; eexists; split; reflexivity.
  - intros Hids [Hkeys _] [r [Hr Hpr]]. rewrite update_run.
    destruct (newest (filter (prior emiten currentDate) (stock_queries (db w))))
      as [t|] eqn:Hn.
    2:{ apply newest_none in Hn.
        assert (Hf : In r (filter (prior emiten currentDate) (stock_queries (db w))))
          by (apply filter_In; now split).
        now rewrite Hn in Hf. }
    apply newest_some in Hn. destruct Hn as [Hin Hlatest].
    apply filter_In in Hin. destruct Hin as [Hin Hpt].
    destruct (in_split _ _ Hin) as (pre & post & Hrows).
    unfold unique_ids in Hids. rewrite Hrows in Hids, Hkeys.
    exists pre, t, post, (apply_patch (patch_real_harga price) t).
    assert (Hstrict : forall r0, In r0 (pre ++ post) ->
               prior emiten currentDate r0 = true ->
               String.ltb (r_from_date r0) (r_from_date t) = true).
    { intros r0 Hr0 Hp0. apply leb_neq_ltb.
      - apply Hlatest, filter_In. split; [|exact Hp0].
        rewrite Hrows. apply in_app_or in Hr0. apply in_or_app.
        destruct Hr0; [now left | right; now right].
      - intros Hd.
        apply (NoDup_map_middle stock_key pre post t r0 Hkeys Hr0).
        unfold stock_key. rewrite Hd.
        now rewrite (prior_emiten _ _ _ Hp0), (prior_emiten _ _ _ Hpt). }
    split; [exact Hrows|]. split; [exact Hpt|]. split; [exact Hstrict|].
    split; [reflexivity|]. split; [apply patch_real_harga_frame|].
    rewrite Hrows, (priced_split price pre post t Hids),
      (filter_id_split pre post t Hids).
    unfold serves. split.
    + intros Hserved.
      assert (H0 := Hserved 0 ltac:(lia)). assert (H1 := Hserved 1 ltac:(lia)).
      destruct (outages w) as [|[e|] rest]; simpl in H0, H1; try discriminate.
      * eexists. repeat split.
      * destruct rest as [|[e|] rest']; simpl in H1; try discriminate;
          eexists; repeat split.
    + intros Hfails.
      destruct (outages w) as [|[e|] rest].
      * destruct Hfails. intros i _. now destruct i as [|[|i]].
      * eexists. split; reflexivity.
      * destruct rest as [|[e|] rest'].
        -- destruct Hfails. intros i _. now destruct i as [|[|i]].
        -- eexists. split; reflexivity.
        -- destruct Hfails. intros i Hi.
           destruct i as [|[|i]]; [reflexivity | reflexivity | lia].
Qed.

Lemma patch_prior_day_price_witness :
  (exists w',
      updatePreviousDayRealPrice "BBCA" "2024-01-01" 9000%Z sample_world
      = (Returned None, w')
      /\ db w' = db sample_world)
  /\ (exists pre t post t',
         stock_queries (db sample_world) = (pre ++ t :: post)%list
         /\ prior "BBCA" "2024-01-02" t = true
         /\ (forall r, In r (pre ++ post) -> prior "BBCA" "2024-01-02" r = true ->
                       String.ltb (r_from_date r) (r_from_date t) = true)
         /\ r_real_harga t' = Some 9000%Z
         /\ (forall name get, In (name, get) stock_columns ->
                              name <> "real_harga" -> get t' = get t)
         /\ (serves 2 sample_world ->
             exists w',
               updatePreviousDayRealPrice "BBCA" "2024-01-02" 9000%Z sample_world
               = (Returned (Some [t']), w')
               /\ db w' = with_stock_queries (pre ++ t' :: post) (db sample_world)
               /\ console w' = console sample_world)
         /\ (~ serves 2 sample_world ->
             exists w',
               updatePreviousDayRealPrice "BBCA" "2024-01-02" 9000%Z sample_world
               = (Returned None, w')
               /\ db w' = db sample_world)).
Proof.
  split.
  - apply (proj1 (patch_prior_day_price "BBCA" "2024-01-01" 9000%Z sample_world)).
    intros r Hr. simpl in Hr.
    repeat (destruct Hr as [<-|Hr]; [reflexivity|]). destruct Hr.
  - apply (proj2 (patch_prior_day_price "BBCA" "2024-01-02" 9000%Z sample_world)).
    + unfold unique_ids. simpl. repeat constructor; simpl; lia.
    + split; simpl; repeat constructor; simpl; intuition discriminate.
    + exists (sample_row 2 "2024-01-01" "BBCA" (Some "bank") (Some "success")).
      split; [right; left; reflexivity | reflexivity].
Defined.

(** On the sample table the update for BBCA on 2024-01-02 prices the
    analysis of 2024-01-01 and nothing else. *)
Example sample_prior_day_update :
  map (fun r => (r_id r, r_real_harga r))
      (stock_queries
         (db (snd (updatePreviousDayRealPrice "BBCA" "2024-01-02" 9000%Z sample_world))))
  = [(1, None); (2, Some 9000%Z); (3, None); (4, None); (5, None)].
Proof. reflexivity. Qed.

(** ** The uniqueness constraints are kept *)

Lemma map_replace_same {A B} (key : A -> B) (c : A -> bool) (g : A -> A)
  (l : list A) :
  (forall x, c x = true -> key (g x) = key x) ->
  map key (map (fun x => if c x then g x else x) l) = map key l.
Proof.
  intros Hg. rewrite map_map. apply map_ext. intros x.
  destruct (c x) eqn:Hc; [now apply Hg | reflexivity].
Qed.

Lemma NoDup_snoc {A} (l : list A) (x : A) :
  NoDup l -> ~ In x l -> NoDup (l ++ [x]).
Proof.
  intros Hl Hx. apply NoDup_app; [exact Hl | repeat constructor; intros [] |].
  intros y Hy [<-|[]]. now apply Hx.
Qed.

Lemma same_key_iff (d e : string) (r : Row) :
  same_key d e r = true <-> stock_key r = (d, e).
Proof.
  unfold same_key, stock_key. rewrite andb_true_iff, !String.eqb_eq.
  split; [intros [-> ->]; reflexivity | intros H; injection H; auto].
Qed.

Lemma upsert_stock_row_keys (p : StockPatch) (t t' : Db) (r : Row) :
  upsert_stock_row p t = Some (r, t') -> unique_keys t -> unique_keys t'.
Proof.
  unfold upsert_stock_row, unique_keys.
  destruct (p_from_date p) as [d|] eqn:Hd; [|discriminate].
  destruct (p_emiten p) as [e|] eqn:He; [|discriminate].
  destruct (find (same_key d e) (stock_queries t)) as [old|] eqn:Hfind;
    intros H [Hs Hk]; injection H as _ <-; simpl; split; try exact Hk.
  - rewrite map_replace_same; [exact Hs|].
    intros x Hx. apply same_key_iff in Hx.
    unfold stock_key in *. simpl. now rewrite Hd, He.
  - rewrite map_app. simpl. apply NoDup_snoc; [exact Hs|].
    intros Hin. apply in_map_iff in Hin. destruct Hin as (x & Hkey & Hx).
    apply (find_none _ _ Hfind) in Hx.
    change (stock_key (new_row (next_id t) d e p)) with (d, e) in Hkey.
    apply same_key_iff in Hkey. congruence.
Qed.

Lemma upsert_stock_rows_keys (ps : list StockPatch) (t t' : Db) (rs : list Row) :
  upsert_stock_rows ps t = Some (rs, t') -> unique_keys t -> unique_keys t'.
Proof.
  revert t rs. induction ps as [|p ps IH]; intros t rs; simpl.
  - intros H. now injection H as _ <-.
  - destruct (upsert_stock_row p t) as [[r t1]|] eqn:H1; [|discriminate].
    destruct (upsert_stock_rows ps t1) as [[rs' t2]|] eqn:H2; [|discriminate].
    intros H Hu. injection H as _ <-.
    eapply IH; [exact H2|]. eapply upsert_stock_row_keys; eauto.
Qed.

Lemma exec_upsert_stock_keys (ps : list StockPatch) (c : string) (t : Db) :
  unique_keys t -> unique_keys (snd (exec_upsert_stock ps c t)).
Proof.
  intros Hu. unfold exec_upsert_stock.
  destruct (String.eqb c "from_date,emiten"); [|exact Hu].
  destruct (upsert_stock_rows ps t) as [[rs t']|] eqn:H; [|exact Hu].
  simpl. eapply upsert_stock_rows_keys; eauto.
Qed.

Lemma exec_upsert_session_keys (row : SessionRow) (c : string) (t : Db) :
  unique_keys t -> unique_keys (snd (exec_upsert_session row c t)).
Proof.
  intros [Hs Hk]. unfold exec_upsert_session.
  destruct (String.eqb c "key"); [|now split].
  simpl. split; [exact Hs|]. simpl.
  destruct (existsb (fun x => String.eqb (s_key x) (s_key row)) (session t)) eqn:Hex.
  - rewrite map_replace_same; [exact Hk|].
    intros x Hx. now apply String.eqb_eq in Hx.
  - rewrite map_app. simpl. apply NoDup_snoc; [exact Hk|].
    intros Hin. apply in_map_iff in Hin. destruct Hin as (x & Hkey & Hx).
    assert (Hone : existsb (fun x => String.eqb (s_key x) (s_key row)) (session t)
                   = true).
    { apply existsb_exists. exists x. split; [exact Hx|]. now apply String.eqb_eq. }
    congruence.
Qed.

Lemma priced_keys (price : number) (t : Row) (rows : list Row) :
  map stock_key (priced price t rows) = map stock_key rows.
Proof. unfold priced. apply map_replace_same. reflexivity. Qed.

Lemma db_after_request {A} (run : Db -> Response A * Db) (w : World) :
  db (snd (request run w)) = db w \/ db (snd (request run w)) = snd (run (db w)).
Proof.
  unfold request.
  destruct (outages w) as [|[e|] rest]; simpl;
    try (now left); destruct (run (db w)); now right.
Qed.

Lemma db_after_bind_request {A B} (run : Db -> Response A * Db)
  (k : Response A -> M B) (w : World) :
  (forall resp w1, db (snd (k resp w1)) = db w1) ->
  db (snd (bind (request run) k w)) = db (snd (request run w)).
Proof.
  intros Hk. unfold bind. destruct (request run w) as [[resp|e] w1]; simpl;
    [apply Hk | reflexivity].
Qed.

Lemma request_keeps_keys {A} (run : Db -> Response A * Db) (w : World) :
  (forall t, unique_keys t -> unique_keys (snd (run t))) ->
  unique_keys (db w) -> unique_keys (db (snd (request run w))).
Proof.
  intros Hrun Hu. destruct (db_after_request run w) as [-> | ->]; auto.
Qed.

Lemma read_session_db {B} (q : Query) (post : Response (list SessionRow) -> B)
  (t : Db) :
  snd (answer_with (read_session q) post t) = t.
Proof. reflexivity. Qed.

(** C9. Every exported function keeps the uniqueness constraints of the
    store: after any call, returned or thrown, whatever the store answered,
    no two analyses share (from_date, emiten) and no two session entries
    share a key, provided this held before the call. *)
Theorem calls_keep_unique_keys (c : Call) (w : World) :
  unique_keys (db w) -> unique_keys (db (after c w)).
Proof.
  intros Hu. destruct c as [d | key | key value | d | filters | emiten
                            | emiten currentDate price]; unfold after.
  - unfold saveStockQuery. rewrite db_after_bind_request.
    + apply request_keeps_keys; [|exact Hu].
      intros t. apply exec_upsert_stock_keys.
    + intros resp w1. now destruct (error resp).
  - unfold getSessionValue. rewrite db_after_bind_request.
    + apply request_keeps_keys; [|exact Hu]. intros t Ht.
      now rewrite read_session_db.
    + intros resp w1. now destruct (error resp), (data resp).
  - unfold upsertSession, toISOString_now.
    change (unique_keys
              (db (snd (bind (request
                                (exec_upsert_session
                                   {| s_key := key; s_value := value;
                                      s_updated_at := now w |} "key"))
                             (fun resp => match error resp with
                                          | Some err => throw err
                                          | None => ret (data resp)
                                          end) w)))).
    rewrite db_after_bind_request.
    + apply request_keeps_keys; [|exact Hu].
      intros t. apply exec_upsert_session_keys.
    + intros resp w1. now destruct (error resp).
  - unfold saveWatchlistAnalysis. rewrite db_after_bind_request.
    + apply request_keeps_keys; [|exact Hu].
      intros t. apply exec_upsert_stock_keys.
    + intros resp w1. now destruct (error resp).
  - rewrite history_run. cbv zeta.
    destruct (outages w) as [|[e|] rest];
      destruct (eval_orders stock_column (q_orders (history_query filters)));
      exact Hu.
  - rewrite latest_run. exact Hu.
  - rewrite update_run.
    assert (Hp : forall t,
               unique_keys (with_stock_queries
                              (priced price t (stock_queries (db w))) (db w))).
    { intros t. destruct Hu as [Hs Hk]. split; [|exact Hk].
      simpl. now rewrite priced_keys. }
    destruct (outages w) as [|[e|] rest]; simpl; try exact Hu;
      destruct (newest _) as [t|]; simpl; try exact Hu;
      try apply Hp;
      destruct rest as [|[e'|] rest']; simpl; try exact Hu; apply Hp.
Qed.

Lemma calls_keep_unique_keys_witness :
  unique_keys
    (db (after (CallUpsertSession "token" "xyz")
           (after (CallUpdatePreviousDayRealPrice "BBCA" "2024-01-02" 9000%Z)
              sample_world))).
Proof.
  apply calls_keep_unique_keys. apply calls_keep_unique_keys.
  split; simpl; repeat constructor; simpl; intuition discriminate.
Defined.

(** Saving an analysis for a (from_date, emiten) pair the table already has
    overwrites the row and adds none; saving one for a new pair adds a row. *)
Example upsert_overwrites_sample :
  map (fun r => (r_id r, r_from_date r, r_emiten r, r_status r))
      (stock_queries
         (db (after (CallSaveWatchlistAnalysis
                       {| wa_from_date := "2024-01-03"; wa_to_date := "2024-01-03";
                          wa_emiten := "ANTM"; wa_sector := None; wa_bandar := None;
                          wa_barang_bandar := None; wa_rata_rata_bandar := None;
                          wa_harga := Some 1500%Z; wa_ara := None; wa_arb := None;
                          wa_fraksi := None; wa_total_bid := None;
                          wa_total_offer := None; wa_total_papan := None;
                          wa_rata_rata_bid_ofer := None; wa_a := None; wa_p := None;
                          wa_target_realistis := None; wa_target_max := None;
                          wa_status := Some "success"; wa_error_message := None |})
                    sample_world)))
  = [ (1, "2024-01-02", "BBCA", Some "success");
      (2, "2024-01-01", "BBCA", Some "success");
      (3, "2024-01-01", "ANTM", Some "error");
      (4, "2024-01-02", "ANTM", Some "success");
      (5, "2024-01-03", "ANTM", Some "success") ].
Proof. reflexivity. Qed.

(** ** Errors of the write path *)

(** C6, as the code has it. When the store answers the request of a record
    upsert ([saveStockQuery], [saveWatchlistAnalysis]) with an error, the
    function logs the error and throws it.  When it answers the request of
    the session upsert with an error, [upsertSession] throws the error and
    logs nothing.  When it answers the update request of the prior-day price
    update with an error, [updatePreviousDayRealPrice] logs the error and
    returns the null value without throwing.  In all four cases the store is
    left as it was. *)
Theorem write_errors (w : World) (err : PgError) (rest : list (option PgError)) :
  (outages w = Some err :: rest ->
   (forall d,
       saveStockQuery d w
       = (Thrown err,
          {| db := db w; outages := rest;
             console := (console w ++ [("Error saving to Supabase:", err)])%list;
             now := now w |}))
   /\ (forall d,
          saveWatchlistAnalysis d w
          = (Thrown err,
             {| db := db w; outages := rest;
                console := (console w
                            ++ [("Error saving watchlist analysis:", err)])%list;
                now := now w |}))
   /\ (forall key value,
          upsertSession key value w
          = (Thrown err,
             {| db := db w; outages := rest; console := console w;
                now := now w |})))
  /\ (outages w = None :: Some err :: rest ->
      forall emiten currentDate price,
        (exists r, In r (stock_queries (db w))
                   /\ prior emiten currentDate r = true) ->
        exists t,
          In t (stock_queries (db w)) /\ prior emiten currentDate t = true
          /\ updatePreviousDayRealPrice emiten currentDate price w
             = (Returned None,
                {| db := db w; outages := rest;
                   console := (console w
                               ++ [(updating_message emiten (r_from_date t), err)])%list;
                   now := now w |})).
Proof.
  split.
  - intros Ho. repeat split; intros;
      unfold saveStockQuery, saveWatchlistAnalysis, upsertSession,
        toISOString_now, bind, request, console_error, throw;
      rewrite Ho; reflexivity.
  - intros Ho emiten currentDate price [r [Hr Hp]].
    rewrite update_run, Ho.
    destruct (newest (filter (prior emiten currentDate) (stock_queries (db w))))
      as [t|] eqn:Hn.
    + apply newest_some in Hn. destruct Hn as [Hin _].
      apply filter_In in Hin. destruct Hin as [Hin Hpt].
      exists t. repeat split; assumption.
    + apply newest_none in Hn.
      assert (Hf : In r (filter (prior emiten currentDate) (stock_queries (db w))))
        by (apply filter_In; now split).
      now rewrite Hn in Hf.
Qed.

Lemma write_errors_witness :
  ((forall d,
       saveStockQuery d (world_of sample_db [Some unreachable])
       = (Thrown unreachable,
          {| db := sample_db; outages := [];
             console := [("Error saving to Supabase:", unreachable)];
             now := "2024-01-04T00:00:00.000Z" |}))
   /\ (forall d,
          saveWatchlistAnalysis d (world_of sample_db [Some unreachable])
          = (Thrown unreachable,
             {| db := sample_db; outages := [];
                console := [("Error saving watchlist analysis:", unreachable)];
                now := "2024-01-04T00:00:00.000Z" |}))
   /\ (forall key value,
          upsertSession key value (world_of sample_db [Some unreachable])
          = (Thrown unreachable,
             {| db := sample_db; outages := []; console := [];
                now := "2024-01-04T00:00:00.000Z" |})))
  /\ (exists t,
         In t (stock_queries sample_db) /\ prior "BBCA" "2024-01-02" t = true
         /\ updatePreviousDayRealPrice "BBCA" "2024-01-02" 9000%Z
              (world_of sample_db [None; Some unreachable])
            = (Returned None,
               {| db := sample_db; outages := [];
                  console := [(updating_message "BBCA" (r_from_date t), unreachable)];
                  now := "2024-01-04T00:00:00.000Z" |})).
Proof.
  split.
  - apply (proj1 (write_errors (world_of sample_db [Some unreachable])
                    unreachable [])).
    reflexivity.
  - apply (proj2 (write_errors (world_of sample_db [None; Some unreachable])
                    unreachable []) eq_refl "BBCA" "2024-01-02" 9000%Z).
    exists (sample_row 2 "2024-01-01" "BBCA" (Some "bank") (Some "success")).
    split; [right; left; reflexivity | reflexivity].
Defined.

(** C6, as stated, fails: against a store that reports an error, the
    session upsert throws it but logs nothing, and the prior-day price update
    logs the error of its update request but returns instead of throwing. *)
Lemma not_every_write_logs_and_reraises :
  ~ logs_and_reraises (upsertSession "token" "xyz")
      (world_of sample_db [Some unreachable]) unreachable
  /\ ~ logs_and_reraises (updatePreviousDayRealPrice "BBCA" "2024-01-02" 9000%Z)
         (world_of sample_db [None; Some unreachable]) unreachable.
Proof.
  split; intros (msg & w' & Hrun & Hlog).
  - vm_compute in Hrun. injection Hrun as <-.
    unfold logged in Hlog. simpl in Hlog. discriminate Hlog.
  - vm_compute in Hrun. discriminate Hrun.
Qed.

(** The record upserts do log and re-raise. *)
Example record_upserts_log_and_reraise (d : StockQueryData) (a : WatchlistData) :
  logs_and_reraises (saveStockQuery d) (world_of sample_db [Some unreachable])
    unreachable
  /\ logs_and_reraises (saveWatchlistAnalysis a)
       (world_of sample_db [Some unreachable]) unreachable.
Proof. split; do 2 eexists; split; reflexivity. Qed.

(** * Further properties of the exported functions *)

(** ** The session table *)

Lemma sort_by_no_keys {R} (l : list R) : sort_by (compare_rows []) l = l.
Proof.
  induction l as [|x l IH]; [reflexivity|].
  change (sort_by (compare_rows []) (x :: l))
    with (insert_sorted (compare_rows []) x (sort_by (compare_rows []) l)).
  rewrite IH. now destruct l.
Qed.

(** The answer of the store to the read of one session key. *)
Lemma session_read (key : string) (l : list SessionRow) :
  exec_select session_column l (select false |> eq_ "key" (VText key))
  = ok_response (filter (has_key key) l) None.
Proof.
  unfold exec_select. simpl. rewrite sort_by_no_keys. unfold window.
  f_equal. apply filter_ext. intros r. rewrite andb_true_r.
  unfold has_key. apply is_Eq_compare.
Qed.

(** The whole behaviour of the session look-up. *)
Lemma session_run (key : string) (w : World) :
  getSessionValue key w =
  (Returned match outages w with
            | Some _ :: _ => None
            | _ => match filter (has_key key) (session (db w)) with
                   | [r] => Some (s_value r)
                   | _ => None
                   end
            end,
   after_request w).
Proof.
  unfold getSessionValue, bind, request, answer_with, read_session, after_request.
  rewrite session_read.
  destruct (outages w) as [|[e|] rest]; try reflexivity;
    destruct (filter (has_key key) (session (db w))) as [|r [|r' l]]; reflexivity.
Qed.

Lemma filter_unique_key (key : string) (l : list SessionRow) :
  NoDup (map s_key l) ->
  filter (has_key key) l = []
  \/ exists r, filter (has_key key) l = [r].
Proof.
  induction l as [|x l IH]; intros Hnd; simpl; [now left|].
  inversion Hnd as [|k ks Hx Hl]; subst.
  destruct (has_key key x) eqn:Hk.
  - apply String.eqb_eq in Hk. right. exists x. f_equal.
    destruct (filter (has_key key) l) as [|y l'] eqn:Hf; [reflexivity|].
    assert (Hy : In y (filter (has_key key) l)) by (rewrite Hf; now left).
    apply filter_In in Hy. destruct Hy as [Hy Hyk].
    apply String.eqb_eq in Hyk. destruct Hx.
    rewrite Hk, <- Hyk. now apply in_map.
  - now apply IH.
Qed.

(** X1. The session look-up never throws, writes nothing and logs nothing.
    It returns the null value when the store reports an error; when the store
    serves it and the keys of the session table are unique, it returns the
    value stored under the key, and the null value exactly when the key is
    missing. *)
Theorem session_lookup (key : string) (w : World) :
  exists answer,
    getSessionValue key w = (Returned answer, after_request w)
    /\ (forall err, hd None (outages w) = Some err -> answer = None)
    /\ (hd None (outages w) = None -> NoDup (map s_key (session (db w))) ->
        (forall v, answer = Some v
                   <-> exists r, In r (session (db w))
                                 /\ s_key r = key /\ s_value r = v)
        /\ (answer = None <-> ~ In key (map s_key (session (db w))))).
Proof.
  rewrite session_run. eexists. split; [reflexivity|]. split.
  - intros err Herr. destruct (outages w) as [|[e|] rest]; try discriminate.
    reflexivity.
  - intros Hserved Hnd.
    assert (Hin : forall r, In r (filter (has_key key) (session (db w)))
                            <-> In r (session (db w)) /\ s_key r = key).
    { intros r. rewrite filter_In. unfold has_key. now rewrite String.eqb_eq. }
    assert (Hans :
              match outages w with
              | Some _ :: _ => None
              | _ => match filter (has_key key) (session (db w)) with
                     | [r] => Some (s_value r)
                     | _ => None
                     end
              end
              = match filter (has_key key) (session (db w)) with
                | [r] => Some (s_value r)
                | _ => None
                end).
    { destruct (outages w) as [|[e|] rest]; try discriminate; reflexivity. }
    rewrite Hans. clear Hans.
    destruct (filter_unique_key key _ Hnd) as [Hf|[r Hf]]; rewrite Hf in *.
    + split.
      * intros v. split; [discriminate|].
        intros (r & Hr & Hk & _). destruct (proj2 (Hin r) (conj Hr Hk)).
      * split; [|reflexivity]. intros _ Hk.
        apply in_map_iff in Hk. destruct Hk as (r & Hk & Hr).
        destruct (proj2 (Hin r) (conj Hr Hk)).
    + assert (Hr : In r (session (db w)) /\ s_key r = key)
        by (apply Hin; now left).
      split.
      * intros v. split.
        -- intros Hv. injection Hv as <-. exists r. tauto.
        -- intros (r' & Hr' & Hk' & Hv').
           assert (Hr'' : In r' [r]) by (apply Hin; now split).
           destruct Hr'' as [->|[]]. now rewrite Hv'.
      * split; [discriminate|]. intros Hk. destruct Hk.
        destruct Hr as [Hr <-]. now apply in_map.
Qed.

Lemma session_lookup_witness :
  exists answer,
    getSessionValue "token" sample_world = (Returned answer, after_request sample_world)
    /\ (forall err, hd None (outages sample_world) = Some err -> answer = None)
    /\ (hd None (outages sample_world) = None ->
        NoDup (map s_key (session (db sample_world))) ->
        (forall v, answer = Some v
                   <-> exists r, In r (session (db sample_world))
                                 /\ s_key r = "token" /\ s_value r = v)
        /\ (answer = None <-> ~ In "token" (map s_key (session (db sample_world))))).
Proof. exact (session_lookup "token" sample_world). Defined.

Lemma serves_two (w : World) :
  serves 2 w ->
  (outages w = [] \/ exists rest, outages w = None :: rest)
  /\ (tl (outages w) = [] \/ exists rest, tl (outages w) = None :: rest).
Proof.
  intros H. pose proof (H 0 ltac:(lia)) as H0. pose proof (H 1 ltac:(lia)) as H1.
  destruct (outages w) as [|[e|] rest]; simpl in *; try discriminate.
  - split; now left.
  - split; [right; eauto|].
    destruct rest as [|[e|] rest']; simpl in *; try discriminate;
      [now left | right; eauto].
Qed.

Lemma filter_no_key (key : string) (l : list SessionRow) :
  ~ In key (map s_key l) -> filter (has_key key) l = [].
Proof.
  induction l as [|x l IH]; intros Hk; simpl; [reflexivity|].
  unfold has_key at 1. destruct (String.eqb_spec (s_key x) key) as [He|_].
  - destruct Hk. left. exact He.
  - apply IH. intros Hin. apply Hk. now right.
Qed.

Lemma replace_no_key (row : SessionRow) (l : list SessionRow) :
  ~ In (s_key row) (map s_key l) ->
  map (fun x => if String.eqb (s_key x) (s_key row) then row else x) l = l.
Proof.
  induction l as [|x l IH]; intros Hk; simpl; [reflexivity|].
  destruct (String.eqb_spec (s_key x) (s_key row)) as [He|_].
  - destruct Hk. left. exact He.
  - f_equal. apply IH. intros Hin. apply Hk. now right.
Qed.

(** The entries of [key] in the session table after the upsert of [row]. *)
Lemma upserted_lookup (row : SessionRow) (l : list SessionRow) (key : string) :
  NoDup (map s_key l) ->
  filter (has_key key)
    (if existsb (fun x => String.eqb (s_key x) (s_key row)) l
     then map (fun x => if String.eqb (s_key x) (s_key row) then row else x) l
     else (l ++ [row])%list)
  = if String.eqb (s_key row) key then [row] else filter (has_key key) l.
Proof.
  intros Hnd.
  destruct (existsb (fun x => String.eqb (s_key x) (s_key row)) l) eqn:Hex.
  - induction l as [|x l IH]; [discriminate|].
    inversion Hnd as [|k ks Hx Hl]; subst. simpl in Hex |- *.
    destruct (String.eqb_spec (s_key x) (s_key row)) as [He|Hne].
    + rewrite He in Hx. rewrite (replace_no_key row l Hx).
      assert (Hsame : has_key key x = has_key key row)
        by (unfold has_key; now rewrite He).
      rewrite Hsame.
      change (has_key key row) with (String.eqb (s_key row) key).
      destruct (String.eqb_spec (s_key row) key) as [Hk|Hk]; [|reflexivity].
      f_equal. apply filter_no_key. now rewrite <- Hk.
    + simpl in Hex. rewrite (IH Hl Hex).
      destruct (String.eqb_spec (s_key row) key) as [Hk|Hk]; [|reflexivity].
      change (has_key key x) with (String.eqb (s_key x) key).
      destruct (String.eqb_spec (s_key x) key) as [Hxk|_]; [|reflexivity].
      destruct Hne. congruence.
  - rewrite filter_app. simpl.
    change (has_key key row) with (String.eqb (s_key row) key).
    destruct (String.eqb_spec (s_key row) key) as [Hk|Hk].
    + rewrite filter_no_key; [reflexivity|].
      intros Hin. apply in_map_iff in Hin. destruct Hin as (x & Hxk & Hx).
      assert (Hone : existsb (fun x => String.eqb (s_key x) (s_key row)) l = true).
      { apply existsb_exists. exists x. split; [exact Hx|].
        apply String.eqb_eq. congruence. }
      congruence.
    + apply app_nil_r.
Qed.

(** X2. Upsert then look-up on the session table.  When the keys of the
    table are unique and the store serves the two requests, [upsertSession]
    returns, and a [getSessionValue] of the same key right after it returns
    the value just written, while a look-up of any other key returns what it
    returned before the upsert. *)
Theorem session_round_trip (key value : string) (w : World) :
  NoDup (map s_key (session (db w))) -> serves 2 w ->
  exists written w1,
    upsertSession key value w = (Returned (Some written), w1)
    /\ fst (getSessionValue key w1) = Returned (Some value)
    /\ (forall other, other <> key ->
                      fst (getSessionValue other w1) = fst (getSessionValue other w)).
Proof.
  intros Hnd Hserved. destruct (serves_two w Hserved) as [H0 H1].
  pose (row := {| s_key := key; s_value := value; s_updated_at := now w |}).
  assert (Hup : exists written w1,
             upsertSession key value w = (Returned (Some written), w1)
             /\ db w1 = snd (exec_upsert_session row "key" (db w))
             /\ outages w1 = tl (outages w)).
  { unfold upsertSession, toISOString_now, bind, request. fold row.
    destruct H0 as [-> | [rest ->]]; simpl; do 2 eexists;
      split; try reflexivity; split; reflexivity. }
  destruct Hup as (written & w1 & Hrun & Hdb & Hout).
  exists written, w1. split; [exact Hrun|].
  assert (Hlook : forall k,
             filter (has_key k) (session (db w1))
             = if String.eqb key k then [row] else filter (has_key k) (session (db w))).
  { intros k. rewrite Hdb. simpl. apply (upserted_lookup row _ k Hnd). }
  split.
  - rewrite session_run, Hout. simpl. rewrite Hlook, String.eqb_refl.
    destruct H1 as [-> | [rest ->]]; reflexivity.
  - intros other Hother. rewrite !session_run, Hout. simpl. rewrite Hlook.
    destruct (String.eqb_spec key other) as [He|_]; [now destruct Hother|].
    destruct H0 as [-> | [rest H0]]; [reflexivity|]. rewrite H0. simpl.
    destruct rest as [|[e|] rest']; try reflexivity.
    destruct H1 as [H1 | [rest'' H1]]; rewrite H0 in H1; discriminate.
Qed.

Lemma session_round_trip_witness :
  exists written w1,
    upsertSession "token" "xyz" sample_world = (Returned (Some written), w1)
    /\ fst (getSessionValue "token" w1) = Returned (Some "xyz")
    /\ (forall other, other <> "token" ->
                      fst (getSessionValue other w1)
                      = fst (getSessionValue other sample_world)).
Proof.
  apply (session_round_trip "token" "xyz" sample_world).
  - simpl. repeat constructor. intros [].
  - intros i _. destruct i as [|[|i]]; reflexivity.
Defined.

(** ** What the reads and the price update never do *)

(** X3. The three reads ([getSessionValue], [getWatchlistAnalysisHistory],
    [getLatestStockQuery]) leave the two tables exactly as they were, in
    every world and whether they return or throw. *)
Theorem reads_write_nothing (w : World) :
  (forall key, db (snd (getSessionValue key w)) = db w)
  /\ (forall filters, db (snd (getWatchlistAnalysisHistory filters w)) = db w)
  /\ (forall emiten, db (snd (getLatestStockQuery emiten w)) = db w).
Proof.
  split; [|split].
  - intros key. now rewrite session_run.
  - intros filters. rewrite history_run. cbv zeta.
    destruct (outages w) as [|[e|] rest];
      destruct (eval_orders stock_column (q_orders (history_query filters)));
      reflexivity.
  - intros emiten. now rewrite latest_run.
Qed.

(** X4. The prior-day price update never throws.  When the store reports an
    error on the look-up, it returns the null value and leaves the tables as
    they were; the error is logged, with the ticker and the date in the
    message, unless its code is PGRST116 (no rows), which is passed over in
    silence. *)
Theorem prior_day_update_never_throws (emiten currentDate : string)
  (price : number) (w : World) :
  (exists answer w',
      updatePreviousDayRealPrice emiten currentDate price w = (Returned answer, w'))
  /\ (forall err rest,
         outages w = Some err :: rest ->
         exists w',
           updatePreviousDayRealPrice emiten currentDate price w = (Returned None, w')
           /\ db w' = db w
           /\ (code err = "PGRST116" -> console w' = console w)
           /\ (code err <> "PGRST116" ->
               logged w w' (finding_message emiten currentDate, err))).
Proof.
  split.
  - rewrite update_run.
    destruct (outages w) as [|[e|] rest]; simpl; eauto;
      destruct (newest _) as [t|]; eauto;
      destruct rest as [|[e'|] rest']; simpl; eauto.
  - intros err rest Ho. rewrite update_run, Ho. eexists.
    split; [reflexivity|]. split; [reflexivity|]. unfold logged. simpl.
    destruct (String.eqb_spec (code err) "PGRST116") as [Hc|Hc];
      split; intros H; try reflexivity; now destruct H.
Qed.

Lemma prior_day_update_never_throws_witness :
  exists w',
    updatePreviousDayRealPrice "BBCA" "2024-01-02" 9000%Z
      (world_of sample_db [Some unreachable]) = (Returned None, w')
    /\ db w' = sample_db
    /\ (code unreachable = "PGRST116" -> console w' = [])
    /\ (code unreachable <> "PGRST116" ->
        logged (world_of sample_db [Some unreachable]) w'
          (finding_message "BBCA" "2024-01-02", unreachable)).
Proof.
  exact (proj2 (prior_day_update_never_throws "BBCA" "2024-01-02" 9000%Z
                  (world_of sample_db [Some unreachable]))
           unreachable [] eq_refl).
Defined.

(** ** Running the price update twice *)

Lemma insert_sorted_map {A} (cmp : A -> A -> comparison) (g : A -> A) (x : A)
  (l : list A) :
  (forall a b, cmp (g a) (g b) = cmp a b) ->
  insert_sorted cmp (g x) (map g l) = map g (insert_sorted cmp x l).
Proof.
  intros Hg. induction l as [|y l IH]; simpl; [reflexivity|].
  unfold cmp_leb. rewrite Hg.
  destruct (cmp x y); simpl; try reflexivity. now rewrite IH.
Qed.

Lemma sort_by_map {A} (cmp : A -> A -> comparison) (g : A -> A) (l : list A) :
  (forall a b, cmp (g a) (g b) = cmp a b) ->
  sort_by cmp (map g l) = map g (sort_by cmp l).
Proof.
  intros Hg. induction l as [|x l IH]; [reflexivity|].
  change (sort_by cmp (map g (x :: l)))
    with (insert_sorted cmp (g x) (sort_by cmp (map g l))).
  rewrite IH. now apply insert_sorted_map.
Qed.

Lemma filter_map_same {A} (p : A -> bool) (g : A -> A) (l : list A) :
  (forall a, p (g a) = p a) -> filter p (map g l) = map g (filter p l).
Proof.
  intros Hg. induction l as [|x l IH]; simpl; [reflexivity|].
  rewrite Hg, IH. now destruct (p x).
Qed.

Lemma apply_price_twice (price : number) (x : Row) :
  apply_patch (patch_real_harga price) (apply_patch (patch_real_harga price) x)
  = apply_patch (patch_real_harga price) x.
Proof. reflexivity. Qed.

(** Pricing keeps the id, the date, the ticker and the status of every
    row, hence the choice of the row to price. *)
Lemma newest_prior_priced (emiten currentDate : string) (price : number)
  (t : Row) (rows : list Row) :
  newest (filter (prior emiten currentDate) (priced price t rows))
  = option_map (fun x => if Nat.eqb (r_id x) (r_id t)
                         then apply_patch (patch_real_harga price) x else x)
               (newest (filter (prior emiten currentDate) rows)).
Proof.
  unfold priced, newest.
  rewrite filter_map_same.
  - rewrite sort_by_map.
    + now destruct (sort_by (compare_rows newest_first)
                      (filter (prior emiten currentDate) rows)).
    + intros a b. simpl.
      now destruct (Nat.eqb (r_id a) (r_id t)), (Nat.eqb (r_id b) (r_id t)).
  - intros a. now destruct (Nat.eqb (r_id a) (r_id t)).
Qed.

Lemma priced_twice (price : number) (t : Row) (rows : list Row) :
  priced price
    (if Nat.eqb (r_id t) (r_id t) then apply_patch (patch_real_harga price) t else t)
    (priced price t rows)
  = priced price t rows.
Proof.
  unfold priced. rewrite Nat.eqb_refl, map_map. apply map_ext. intros x.
  simpl r_id. destruct (Nat.eqb (r_id x) (r_id t)) eqn:Hx; simpl r_id; rewrite Hx;
    reflexivity.
Qed.

(** X5. The prior-day price update is idempotent on the store: when the
    store served the two requests of a first call, a second call with the
    same ticker, date and price leaves the tables as the first call left
    them, whatever the store answers the second time. *)
Theorem prior_day_update_idempotent (emiten currentDate : string) (price : number)
  (w : World) :
  serves 2 w ->
  db (after (CallUpdatePreviousDayRealPrice emiten currentDate price)
        (after (CallUpdatePreviousDayRealPrice emiten currentDate price) w))
  = db (after (CallUpdatePreviousDayRealPrice emiten currentDate price) w).
Proof.
  intros Hserved. unfold after.
  set (w1 := snd (updatePreviousDayRealPrice emiten currentDate price w)).
  assert (Hw1 :
            match newest (filter (prior emiten currentDate) (stock_queries (db w))) with
            | Some t =>
                db w1 = with_stock_queries (priced price t (stock_queries (db w))) (db w)
            | None => db w1 = db w
            end).
  { subst w1. rewrite update_run.
    destruct (serves_two w Hserved) as [H0 H1].
    destruct (newest _) as [t|];
      destruct H0 as [H0 | [rest H0]]; rewrite H0 in *; simpl; try reflexivity;
      simpl in H1; destruct H1 as [-> | [rest' ->]]; reflexivity. }
  assert (Hnext :
            newest (filter (prior emiten currentDate) (stock_queries (db w1)))
            = option_map
                (fun x =>
                   match newest (filter (prior emiten currentDate)
                                        (stock_queries (db w))) with
                   | Some t => if Nat.eqb (r_id x) (r_id t)
                               then apply_patch (patch_real_harga price) x else x
                   | None => x
                   end)
                (newest (filter (prior emiten currentDate) (stock_queries (db w))))).
  { destruct (newest (filter (prior emiten currentDate) (stock_queries (db w))))
      as [t|] eqn:Hn; rewrite Hw1; simpl.
    - now rewrite newest_prior_priced, Hn.
    - now rewrite Hn. }
  rewrite update_run, Hnext.
  destruct (newest (filter (prior emiten currentDate) (stock_queries (db w))))
    as [t|]; simpl option_map.
  - assert (Hsame : with_stock_queries
                      (priced price
                         (if Nat.eqb (r_id t) (r_id t)
                          then apply_patch (patch_real_harga price) t else t)
                         (stock_queries (db w1))) (db w1) = db w1).
    { rewrite Hw1. simpl. now rewrite priced_twice. }
    destruct (outages w1) as [|[e|] rest]; simpl; try reflexivity; try exact Hsame;
      destruct rest as [|[e'|] rest']; simpl; try reflexivity; exact Hsame.
  - destruct (outages w1) as [|[e|] rest]; reflexivity.
Qed.

Lemma prior_day_update_idempotent_witness :
  db (after (CallUpdatePreviousDayRealPrice "BBCA" "2024-01-02" 9000%Z)
        (after (CallUpdatePreviousDayRealPrice "BBCA" "2024-01-02" 9000%Z)
           sample_world))
  = db (after (CallUpdatePreviousDayRealPrice "BBCA" "2024-01-02" 9000%Z)
          sample_world).
Proof.
  apply (prior_day_update_idempotent "BBCA" "2024-01-02" 9000%Z sample_world).
  intros i _. destruct i as [|[|i]]; reflexivity.
Defined.

(** ** What a history fetch returns *)

Lemma text_filter_iff (o cell : option string) :
  text_filter o cell = true
  <-> forall s, o = Some s -> s <> EmptyString -> cell = Some s.
Proof.
  unfold text_filter. destruct o as [s|]; [|split; [discriminate|reflexivity]].
  destruct (String.eqb_spec s EmptyString) as [->|Hs].
  - split; [|reflexivity]. intros _ s Hs Hne. injection Hs as <-. now destruct Hne.
  - destruct cell as [c|].
    + rewrite String.eqb_eq. split.
      * intros -> s' Hs' _. now injection Hs' as <-.
      * intros H. specialize (H s eq_refl Hs). now injection H.
    + split; [discriminate|]. intros H. now specialize (H s eq_refl Hs).
Qed.

Lemma date_filter_iff (o : option string) (test : string -> bool) :
  match o with
  | Some d => if String.eqb d EmptyString then true else test d
  | None => true
  end = true
  <-> forall d, o = Some d -> d <> EmptyString -> test d = true.
Proof.
  destruct o as [d|]; [|split; [discriminate|reflexivity]].
  destruct (String.eqb_spec d EmptyString) as [->|Hd].
  - split; [|reflexivity]. intros _ d Hd Hne. injection Hd as <-. now destruct Hne.
  - split.
    + intros H d' Hd' _. now injection Hd' as <-.
    + intros H. now apply H.
Qed.

Lemma ticker_filter_iff (o : option string) (r : Row) :
  match o with
  | Some s => match tickers s with
              | [] => true
              | ts => existsb (String.eqb (r_emiten r)) ts
              end
  | None => true
  end = true
  <-> forall e, o = Some e -> tickers e <> [] -> In (r_emiten r) (tickers e).
Proof.
  destruct o as [s|]; [|split; [discriminate|reflexivity]].
  assert (Hex : existsb (String.eqb (r_emiten r)) (tickers s) = true
                <-> In (r_emiten r) (tickers s)).
  { rewrite existsb_exists. split.
    - intros (x & Hx & He). apply String.eqb_eq in He. now subst.
    - intros H. exists (r_emiten r). split; [exact H | apply String.eqb_refl]. }
  destruct (tickers s) as [|t ts] eqn:Ht.
  - split; [|reflexivity]. intros _ e He Hne. injection He as <-. now destruct Hne.
  - rewrite Hex. split.
    + intros H e He _. injection He as <-. now rewrite Ht.
    + intros H. rewrite <- Ht. apply H; [reflexivity|]. now rewrite Ht.
Qed.

(** The test the filters of a call make is the conjunction of its
    filters. *)
Lemma matches_passes (f : HistoryFilters) (r : Row) :
  matches (Some f) r = true <-> passes f r.
Proof.
  unfold matches, passes. cbn [opt]. rewrite !andb_true_iff.
  rewrite ticker_filter_iff, !text_filter_iff.
  rewrite (date_filter_iff (f_fromDate f) (fun d => String.leb d (r_from_date r))).
  rewrite (date_filter_iff (f_toDate f) (fun d => String.leb (r_from_date r) d)).
  tauto.
Qed.

(** The rows of a call, for a call that returns. *)
Lemma history_rows_returned (f : HistoryFilters) (w : World) (rows : list Row) :
  rows_of (getWatchlistAnalysisHistory (Some f) w) = Some rows ->
  exists ks,
    eval_orders stock_column (q_orders (history_query (Some f))) = Some ks
    /\ rows = window (q_offset (history_query (Some f)))
                     (q_limit (history_query (Some f)))
                     (sort_by (compare_rows ks)
                        (filter (matches (Some f)) (stock_queries (db w))))
    /\ count_of (getWatchlistAnalysisHistory (Some f) w)
       = Some (List.length (filter (matches (Some f)) (stock_queries (db w)))).
Proof.
  destruct (history_rows (Some f) w) as [Hr Hc]. cbv zeta in Hr, Hc.
  rewrite Hr, Hc. clear Hr Hc.
  destruct (outages w) as [|[e|] rest];
    destruct (eval_orders stock_column (q_orders (history_query (Some f))))
      as [ks|]; simpl; try discriminate;
    intros H; injection H as <-; exists ks; repeat split.
Qed.

Lemma in_window {A} (o l : option nat) (rows : list A) (x : A) :
  In x (window o l rows) -> In x rows.
Proof.
  unfold window. intros H.
  assert (Hs : In x (match o with Some k => skipn k rows | None => rows end)).
  { destruct l; [now apply in_firstn in H | exact H]. }
  destruct o as [k|]; [|exact Hs].
  rewrite <- (firstn_skipn k rows). apply in_or_app. now right.
Qed.

(** X6. Every row a history fetch returns is a row of the table that passes
    every filter of the call: one of the tickers named, the exact sector, a
    [from_date] within [fromDate] and [toDate] inclusive, the exact status.
    When the call carries no non-zero [limit] or [offset], every such row of
    the table is returned. *)
Theorem history_rows_pass (f : HistoryFilters) (w : World) (rows : list Row) :
  rows_of (getWatchlistAnalysisHistory (Some f) w) = Some rows ->
  (forall r, In r rows -> In r (stock_queries (db w)) /\ passes f r)
  /\ (Js.truthy_num (f_limit f) = false -> Js.truthy_num (f_offset f) = false ->
      forall r, In r (stock_queries (db w)) -> passes f r -> In r rows).
Proof.
  intros Hrows. destruct (history_rows_returned f w rows Hrows) as (ks & _ & -> & _).
  split.
  - intros r Hr. apply in_window, sort_by_In, filter_In in Hr.
    destruct Hr as [Hr Hm]. split; [exact Hr | now apply matches_passes].
  - intros Hl Ho r Hr Hp.
    destruct (history_page (Some f)) as [-> ->]. cbn [opt]. rewrite Hl, Ho.
    unfold window. apply sort_by_In, filter_In.
    split; [exact Hr | now apply matches_passes].
Qed.

Lemma history_rows_pass_witness :
  (forall r, In r (filter (fun x => Nat.eqb (r_id x) 4) (stock_queries sample_db)) ->
             In r (stock_queries (db sample_world))
             /\ passes (with_sector_status (Some "mining") (Some "success") no_filters) r)
  /\ (Js.truthy_num None = false -> Js.truthy_num None = false ->
      forall r, In r (stock_queries (db sample_world)) ->
                passes (with_sector_status (Some "mining") (Some "success") no_filters) r ->
                In r (filter (fun x => Nat.eqb (r_id x) 4) (stock_queries sample_db))).
Proof.
  exact (history_rows_pass
           (with_sector_status (Some "mining") (Some "success") no_filters)
           sample_world _ eq_refl).
Defined.

(** ** Pages without an offset *)

(** X7. A history fetch whose [offset] is absent or zero returns the first
    [limit] rows of the listing the same call returns without [limit] and
    [offset] when [limit] is non-zero, and that whole listing when [limit]
    is absent or zero. *)
Theorem history_limit_only (f : HistoryFilters) (w : World) :
  Js.truthy_num (f_offset f) = false ->
  (forall n, f_limit f = Some n -> n <> 0 ->
             rows_of (getWatchlistAnalysisHistory (Some f) w)
             = option_map (firstn n)
                 (rows_of (getWatchlistAnalysisHistory (Some (unpaged f)) w)))
  /\ (Js.truthy_num (f_limit f) = false ->
      rows_of (getWatchlistAnalysisHistory (Some f) w)
      = rows_of (getWatchlistAnalysisHistory (Some (unpaged f)) w)).
Proof.
  intros Hoff. rewrite history_rows_unpaged.
  destruct (history_rows (Some f) w) as [-> _]. cbv zeta.
  destruct (history_page (Some f)) as [-> ->]. cbn [opt]. rewrite Hoff.
  split.
  - intros n Hn Hne. rewrite Hn.
    assert (Ht : Js.truthy_num (Some n) = true).
    { simpl. now destruct (Nat.eqb_spec n 0). }
    rewrite Ht.
    destruct (outages w) as [|[e|] rest];
      destruct (eval_orders stock_column (q_orders (history_query (Some f))));
      reflexivity.
  - intros Hl. rewrite Hl.
    destruct (outages w) as [|[e|] rest];
      destruct (eval_orders stock_column (q_orders (history_query (Some f))));
      reflexivity.
Qed.

Lemma history_limit_only_witness :
  (forall n, Some 2 = Some n -> n <> 0 ->
             rows_of (getWatchlistAnalysisHistory (Some (page_request (Some 2) None))
                        sample_world)
             = option_map (firstn n)
                 (rows_of (getWatchlistAnalysisHistory
                             (Some (unpaged (page_request (Some 2) None)))
                             sample_world)))
  /\ (Js.truthy_num (Some 2) = false ->
      rows_of (getWatchlistAnalysisHistory (Some (page_request (Some 2) None))
                 sample_world)
      = rows_of (getWatchlistAnalysisHistory
                   (Some (unpaged (page_request (Some 2) None))) sample_world)).
Proof.
  exact (history_limit_only (page_request (Some 2) None) sample_world eq_refl).
Defined.

(** X8. A history fetch that returns hands back a list of rows and a count,
    and never more rows than the count; with a non-zero [limit] and no
    non-zero [offset] it returns at most [limit] rows, and with a non-zero
    [offset] at most [limit], or fifty when [limit] is absent or zero. *)
Theorem history_rows_bounded (filters : option HistoryFilters) (w w' : World)
  (h : History) :
  getWatchlistAnalysisHistory filters w = (Returned h, w') ->
  exists rows total,
    h_data h = Some rows /\ h_count h = Some total
    /\ List.length rows <= total
    /\ (forall n, opt filters f_limit = Some n -> n <> 0 ->
                  Js.truthy_num (opt filters f_offset) = false ->
                  List.length rows <= n)
    /\ (Js.truthy_num (opt filters f_offset) = true ->
        List.length rows <= Js.or_num (opt filters f_limit) 50).
Proof.
  rewrite history_run. cbv zeta.
  destruct (history_page filters) as [Hoff Hlim].
  assert (Hwin : forall (o l : option nat) (rows : list Row),
             List.length (window o l rows) <= List.length rows
             /\ (forall n, l = Some n -> List.length (window o l rows) <= n)).
  { intros o l rows. unfold window. split.
    - destruct o as [k|], l as [n|];
        rewrite ?length_firstn, ?length_skipn; lia.
    - intros n ->. rewrite length_firstn. lia. }
  intros Hrun.
  destruct (eval_orders stock_column (q_orders (history_query filters))) as [ks|];
    [|destruct (outages w) as [|[e|] rest]; discriminate].
  assert (Hh : h = {| h_data :=
                        Some (window (q_offset (history_query filters))
                                (q_limit (history_query filters))
                                (sort_by (compare_rows ks)
                                   (filter (matches filters) (stock_queries (db w)))));
                      h_count :=
                        Some (List.length
                                (filter (matches filters) (stock_queries (db w)))) |}).
  { destruct (outages w) as [|[e|] rest]; try discriminate;
      now injection Hrun as <- _. }
  subst h. do 2 eexists. split; [reflexivity|]. split; [reflexivity|].
  destruct (Hwin (q_offset (history_query filters)) (q_limit (history_query filters))
              (sort_by (compare_rows ks)
                 (filter (matches filters) (stock_queries (db w)))))
    as [Hle Hn].
  rewrite sort_by_length in Hle. split; [exact Hle|]. split.
  - intros n Hl Hne Ho. apply Hn. rewrite Hlim, Ho, Hl.
    simpl. now destruct (Nat.eqb_spec n 0).
  - intros Ho. apply Hn. now rewrite Hlim, Ho.
Qed.

Lemma history_rows_bounded_witness :
  exists rows total,
    rows_of (getWatchlistAnalysisHistory (Some (page_request (Some 2) (Some 1)))
               sample_world) = Some rows
    /\ count_of (getWatchlistAnalysisHistory (Some (page_request (Some 2) (Some 1)))
                   sample_world) = Some total
    /\ List.length rows <= total
    /\ (forall n, Some 2 = Some n -> n <> 0 ->
                  Js.truthy_num (Some 1) = false -> List.length rows <= n)
    /\ (Js.truthy_num (Some 1) = true ->
        List.length rows <= Js.or_num (Some 2) 50).
Proof.
  exact (history_rows_bounded (Some (page_request (Some 2) (Some 1))) sample_world
           _ _ eq_refl).
Defined.

(** ** Listings by one column *)

Lemma single_key_order {R} (k : (R -> Value) * bool) (x y : R) :
  compare_rows [k] x y <> Gt -> cmp_le (key_compare k) x y.
Proof.
  rewrite compare_rows_cons. unfold cmp_le. simpl.
  now destruct (key_compare k x y).
Qed.

(** A call whose [sortBy] resolves to the column [c] sends the one key
    [c]. *)
Lemma history_orders_single (filters : option HistoryFilters) (c : string) :
  Js.or_str (opt filters f_sortBy) "from_date" = c ->
  c <> "combined" -> c <> "emiten" ->
  q_orders (history_query filters) = [(c, asked_asc filters)].
Proof.
  intros Hc H1 H2. rewrite history_orders. cbv zeta. rewrite Hc.
  destruct (String.eqb_spec c "combined") as [|_]; [contradiction|].
  destruct (String.eqb_spec c "emiten") as [|_]; [contradiction|].
  unfold asked_asc. now destruct (opt filters f_sortOrder).
Qed.

(** The listing of a call sorted by one column the table has. *)
Lemma history_run_single (filters : option HistoryFilters) (c : string)
  (get : Row -> Value) (w : World) :
  Js.or_str (opt filters f_sortBy) "from_date" = c ->
  c <> "combined" -> c <> "emiten" -> stock_column c = Some get ->
  match getWatchlistAnalysisHistory filters w with
  | (Returned h, _) =>
      exists rows,
        h_data h = Some rows
        /\ StronglySorted (cmp_le (key_compare (get, asked_asc filters))) rows
  | (Thrown e, _) => hd None (outages w) = Some e
  end.
Proof.
  intros Hc H1 H2 Hcol. rewrite history_run. cbv zeta.
  rewrite (history_orders_single filters c Hc H1 H2). simpl eval_orders.
  rewrite Hcol.
  assert (Hsorted : forall l o n,
             StronglySorted (cmp_le (key_compare (get, asked_asc filters)))
               (window o n (sort_by (compare_rows [(get, asked_asc filters)]) l))).
  { intros l o n. apply StronglySorted_window.
    eapply StronglySorted_weaken; [apply single_key_order|].
    apply sorted_by_keys. }
  destruct (outages w) as [|[e|] rest]; simpl; eauto.
Qed.

(** X9. A history fetch that names no [sortBy] (or an empty one) returns its
    rows ordered by [from_date] in the direction asked for, newest first when
    no direction is asked for; it throws only what the store reports.  This
    holds also for the call without argument. *)
Theorem history_default_sorted (filters : option HistoryFilters) (w : World) :
  Js.truthy_str (opt filters f_sortBy) = false ->
  match getWatchlistAnalysisHistory filters w with
  | (Returned h, _) =>
      exists rows, h_data h = Some rows
                   /\ StronglySorted (by_date (asked_asc filters)) rows
  | (Thrown e, _) => hd None (outages w) = Some e
  end.
Proof.
  intros Hby.
  assert (Hc : Js.or_str (opt filters f_sortBy) "from_date" = "from_date").
  { unfold Js.or_str, Js.truthy_str in *.
    destruct (opt filters f_sortBy) as [s|]; [|reflexivity].
    now destruct (String.eqb s EmptyString). }
  pose proof (history_run_single filters "from_date"
                (fun r => VText (r_from_date r)) w Hc
                ltac:(discriminate) ltac:(discriminate) eq_refl) as Hrun.
  destruct (getWatchlistAnalysisHistory filters w) as [[h|e] w']; [|exact Hrun].
  destruct Hrun as (rows & Hrows & Hs). exists rows. split; [exact Hrows|].
  eapply StronglySorted_weaken; [|exact Hs].
  intros x y. unfold cmp_le, key_compare, by_date, String.leb. simpl.
  destruct (asked_asc filters); simpl; intros H;
    match goal with
    | |- context [String.compare ?a ?b] => destruct (String.compare a b)
    end; congruence.
Qed.

Lemma history_default_sorted_witness :
  match getWatchlistAnalysisHistory None sample_world with
  | (Returned h, _) =>
      exists rows, h_data h = Some rows /\ StronglySorted (by_date false) rows
  | (Thrown e, _) => hd None (outages sample_world) = Some e
  end.
Proof. exact (history_default_sorted None sample_world eq_refl). Defined.

(** X10. A history fetch whose [sortBy] names a column of the table other
    than the two special values returns its rows ordered by that one column
    in the direction asked for (descending when none is), null values last in
    an ascending listing and first in a descending one; it throws only what
    the store reports. *)
Theorem history_column_sorted (f : HistoryFilters) (c : string)
  (get : Row -> Value) (w : World) :
  f_sortBy f = Some c -> c <> EmptyString -> c <> "combined" -> c <> "emiten" ->
  stock_column c = Some get ->
  match getWatchlistAnalysisHistory (Some f) w with
  | (Returned h, _) =>
      exists rows,
        h_data h = Some rows
        /\ StronglySorted
             (fun x y =>
                if requested_asc f then value_compare (get x) (get y) <> Gt
                else value_compare (get y) (get x) <> Gt) rows
  | (Thrown e, _) => hd None (outages w) = Some e
  end.
Proof.
  intros Hby Hne H1 H2 Hcol.
  assert (Hc : Js.or_str (opt (Some f) f_sortBy) "from_date" = c).
  { cbn [opt]. rewrite Hby. unfold Js.or_str.
    now destruct (String.eqb_spec c EmptyString). }
  pose proof (history_run_single (Some f) c get w Hc H1 H2 Hcol) as Hrun.
  destruct (getWatchlistAnalysisHistory (Some f) w) as [[h|e] w']; [|exact Hrun].
  destruct Hrun as (rows & Hrows & Hs). exists rows. split; [exact Hrows|].
  eapply StronglySorted_weaken; [|exact Hs].
  intros x y. unfold cmp_le, key_compare, asked_asc, requested_asc. cbn [opt fst snd].
  now destruct (f_sortOrder f) as [[|]|].
Qed.

Lemma history_column_sorted_witness :
  match getWatchlistAnalysisHistory (Some (sorted_request "sector" asc)) sample_world with
  | (Returned h, _) =>
      exists rows,
        h_data h = Some rows
        /\ StronglySorted
             (fun x y => value_compare (vtext (r_sector x)) (vtext (r_sector y)) <> Gt)
             rows
  | (Thrown e, _) => hd None (outages sample_world) = Some e
  end.
Proof.
  apply (history_column_sorted (sorted_request "sector" asc) "sector"
           (fun r => vtext (r_sector r)) sample_world);
    try reflexivity; discriminate.
Defined.

(** ** The tickers of an emiten filter *)

Lemma no_space_app (a b : string) :
  no_space a = true -> no_space b = true -> no_space (a ++ b) = true.
Proof.
  induction a as [|c a IH]; simpl; [auto|].
  rewrite !andb_true_iff. intros [Hc Ha] Hb. split; auto.
Qed.

Lemma append_nil_r (s : string) : (s ++ EmptyString)%string = s.
Proof. induction s as [|c s IH]; simpl; [reflexivity | now rewrite IH]. Qed.

Lemma append_assoc (a b c : string) : ((a ++ b) ++ c)%string = (a ++ (b ++ c))%string.
Proof. induction a as [|x a IH]; simpl; [reflexivity | now rewrite IH]. Qed.

Lemma join_filter_Boolean_cons (cur : string) (l : list string) :
  join (Js.filter_Boolean (cur :: l)) = (cur ++ join (Js.filter_Boolean l))%string.
Proof.
  unfold Js.filter_Boolean. simpl.
  now destruct (String.eqb_spec cur EmptyString) as [->|_].
Qed.

(** The pieces of a split carry no white space, and no other character is
    lost. *)
Lemma split_from_pieces (s : string) (sep : bool) (cur : string) :
  no_space cur = true ->
  Forall (fun piece => no_space piece = true) (Js.split_from sep cur s)
  /\ join (Js.filter_Boolean (Js.split_from sep cur s))
     = (cur ++ without_spaces s)%string.
Proof.
  revert sep cur. induction s as [|c s IH]; intros sep cur Hcur;
    cbn [Js.split_from without_spaces].
  - split; [now repeat constructor|].
    rewrite join_filter_Boolean_cons. reflexivity.
  - destruct (Js.is_space c) eqn:Hc.
    + destruct sep.
      * now apply IH.
      * destruct (IH true EmptyString eq_refl) as [Hall Hjoin].
        split; [now constructor|].
        rewrite join_filter_Boolean_cons, Hjoin. reflexivity.
    + assert (Hcur' : no_space (cur ++ String c EmptyString) = true).
      { apply no_space_app; [exact Hcur|]. simpl. now rewrite Hc. }
      destruct (IH false _ Hcur') as [Hall Hjoin].
      split; [exact Hall|]. rewrite Hjoin. now rewrite append_assoc.
Qed.

(** X11. The tickers an [emiten] filter names are the runs of characters
    between white space: none is empty, none contains white space, and joined
    in order they give back the filter string with its white space taken
    out. *)
Theorem tickers_are_the_words (s : string) :
  Forall (fun t => t <> EmptyString /\ no_space t = true) (tickers s)
  /\ join (tickers s) = without_spaces s.
Proof.
  unfold tickers, Js.split_ws.
  destruct (split_from_pieces s false EmptyString eq_refl) as [Hall Hjoin].
  split; [|exact Hjoin].
  unfold Js.filter_Boolean. rewrite Forall_forall in *.
  intros t Ht. apply filter_In in Ht. destruct Ht as [Ht Hne]. split.
  - intros ->. discriminate Hne.
  - now apply Hall.
Qed.

(** On two tickers with white space around and between them. *)
Example tickers_sample :
  tickers (String (ascii_of_nat 9) " BBCA   ANTM ") = ["BBCA"; "ANTM"].
Proof. reflexivity. Qed.

Lemma matches_same_tickers (f : HistoryFilters) (e1 e2 : string) (r : Row) :
  (forall t, In t (tickers e1) <-> In t (tickers e2)) ->
  matches (Some (with_emiten (Some e1) f)) r
  = matches (Some (with_emiten (Some e2) f)) r.
Proof.
  intros Hsame. unfold matches.
  cbn [opt with_emiten f_emiten f_sector f_fromDate f_toDate f_status].
  do 4 f_equal.
  destruct (tickers e1) as [|t1 ts1], (tickers e2) as [|t2 ts2]; try reflexivity.
  - destruct (proj2 (Hsame t2) (or_introl eq_refl)).
  - destruct (proj1 (Hsame t1) (or_introl eq_refl)).
  - apply Bool.eq_iff_eq_true. rewrite !existsb_exists.
    split; intros (x & Hx & He); exists x; (split; [now apply Hsame | exact He]).
Qed.

(** X12. Two history fetches that differ only in their [emiten] filter
    return the same rows and the same count when the two filter strings name
    the same tickers, in whatever order, with whatever white space and
    however often repeated. *)
Theorem history_same_tickers (f : HistoryFilters) (e1 e2 : string) (w : World) :
  (forall t, In t (tickers e1) <-> In t (tickers e2)) ->
  rows_of (getWatchlistAnalysisHistory (Some (with_emiten (Some e1) f)) w)
  = rows_of (getWatchlistAnalysisHistory (Some (with_emiten (Some e2) f)) w)
  /\ count_of (getWatchlistAnalysisHistory (Some (with_emiten (Some e1) f)) w)
     = count_of (getWatchlistAnalysisHistory (Some (with_emiten (Some e2) f)) w).
Proof.
  intros Hsame.
  destruct (history_rows (Some (with_emiten (Some e1) f)) w) as [-> ->].
  destruct (history_rows (Some (with_emiten (Some e2) f)) w) as [-> ->].
  cbv zeta.
  assert (Ho : q_orders (history_query (Some (with_emiten (Some e1) f)))
               = q_orders (history_query (Some (with_emiten (Some e2) f))))
    by now rewrite !history_orders.
  destruct (history_page (Some (with_emiten (Some e1) f))) as [Hoff1 Hlim1].
  destruct (history_page (Some (with_emiten (Some e2) f))) as [Hoff2 Hlim2].
  cbn [opt with_emiten f_limit f_offset] in *.
  rewrite Ho, Hoff1, Hlim1, Hoff2, Hlim2.
  rewrite (filter_ext _ _ (fun r => matches_same_tickers f e1 e2 r Hsame)).
  split; reflexivity.
Qed.

Lemma history_same_tickers_witness :
  rows_of (getWatchlistAnalysisHistory (Some (emiten_request " ANTM  BBCA ANTM"))
             sample_world)
  = rows_of (getWatchlistAnalysisHistory (Some (emiten_request "BBCA ANTM"))
               sample_world)
  /\ count_of (getWatchlistAnalysisHistory (Some (emiten_request " ANTM  BBCA ANTM"))
                 sample_world)
     = count_of (getWatchlistAnalysisHistory (Some (emiten_request "BBCA ANTM"))
                   sample_world).
Proof.
  apply (history_same_tickers no_filters " ANTM  BBCA ANTM" "BBCA ANTM" sample_world).
  intros t. simpl. tauto.
Defined.

(** ** Saving an analysis *)

Lemma filter_unique {A K} (key : A -> K) (p : A -> bool) (l : list A) (x : A) :
  NoDup (map key l) ->
  (forall a b, p a = true -> p b = true -> key a = key b) ->
  In x l -> p x = true -> filter p l = [x].
Proof.
  intros Hnd Hp. induction l as [|y l IH]; intros Hin Hx; [destruct Hin|].
  inversion Hnd as [|k ks Hy Hl]; subst. simpl.
  assert (Hnone : forall z, In z l -> p z = true -> p y = true -> False).
  { intros z Hz Hpz Hpy. apply Hy. rewrite (Hp y z Hpy Hpz). now apply in_map. }
  destruct Hin as [->|Hin].
  - rewrite Hx. f_equal.
    destruct (filter p l) as [|z l'] eqn:Hf; [reflexivity|].
    assert (Hz : In z (filter p l)) by (rewrite Hf; now left).
    apply filter_In in Hz. destruct Hz as [Hz Hpz].
    destruct (Hnone z Hz Hpz Hx).
  - destruct (p y) eqn:Hpy; [destruct (Hnone x Hin Hx eq_refl)|].
    now apply IH.
Qed.

Lemma filter_replace_kept {A} (p : A -> bool) (g : A -> A) (l : list A) :
  (forall a, p a = true -> p (g a) = true) ->
  filter p (map (fun a => if p a then g a else a) l) = map g (filter p l).
Proof.
  intros Hg. induction l as [|x l IH]; simpl; [reflexivity|].
  destruct (p x) eqn:Hx.
  - rewrite (Hg x Hx). simpl. now rewrite IH.
  - rewrite Hx. exact IH.
Qed.

Lemma filter_replace_others {A} (p : A -> bool) (g : A -> A) (l : list A) :
  (forall a, p a = true -> p (g a) = true) ->
  filter (fun a => negb (p a)) (map (fun a => if p a then g a else a) l)
  = filter (fun a => negb (p a)) l.
Proof.
  intros Hg. induction l as [|x l IH]; simpl; [reflexivity|].
  destruct (p x) eqn:Hx.
  - rewrite (Hg x Hx). simpl. exact IH.
  - rewrite Hx. simpl. now rewrite IH.
Qed.

Lemma carries_apply_patch (p : StockPatch) (r : Row) : carries p (apply_patch p r).
Proof.
  unfold carries, apply_patch, over. simpl.
  repeat split; intros v Hv; rewrite Hv; reflexivity.
Qed.

Lemma carries_new_row (p : StockPatch) (i : nat) (d e : string) :
  p_from_date p = Some d -> p_emiten p = Some e -> carries p (new_row i d e p).
Proof.
  intros Hd He. unfold carries, new_row. simpl.
  repeat split; intros v Hv; congruence.
Qed.

(** What the upsert of one row with its two key columns does to the
    store. *)
Lemma upsert_row_effect (p : StockPatch) (t : Db) (d e : string) :
  p_from_date p = Some d -> p_emiten p = Some e ->
  exists r t',
    upsert_stock_row p t = Some (r, t')
    /\ In r (stock_queries t')
    /\ carries p r
    /\ session t' = session t
    /\ filter (other_key d e) (stock_queries t')
       = filter (other_key d e) (stock_queries t)
    /\ (NoDup (map stock_key (stock_queries t)) ->
        filter (same_key d e) (stock_queries t') = [r]).
Proof.
  intros Hd He. unfold upsert_stock_row. rewrite Hd, He.
  assert (Hkept : forall a, same_key d e a = true ->
                            same_key d e (apply_patch p a) = true).
  { intros a _. apply same_key_iff. unfold stock_key, apply_patch. simpl.
    now rewrite Hd, He. }
  destruct (find (same_key d e) (stock_queries t)) as [old|] eqn:Hfind.
  - apply find_some in Hfind. destruct Hfind as [Hin Hold].
    do 2 eexists. split; [reflexivity|]. simpl.
    split; [|split; [apply carries_apply_patch|split; [reflexivity|split]]].
    + apply in_map_iff. exists old. rewrite Hold. now split.
    + apply (filter_replace_others (same_key d e) (apply_patch p) _ Hkept).
    + intros Hnd. rewrite (filter_replace_kept _ _ _ Hkept).
      rewrite (filter_unique stock_key (same_key d e) _ old Hnd); auto.
      intros a b Ha Hb. apply same_key_iff in Ha, Hb. congruence.
  - do 2 eexists. split; [reflexivity|]. simpl.
    assert (Hnone : filter (same_key d e) (stock_queries t) = []).
    { destruct (filter (same_key d e) (stock_queries t)) as [|x l] eqn:Hf;
        [reflexivity|].
      assert (Hx : In x (filter (same_key d e) (stock_queries t)))
        by (rewrite Hf; now left).
      apply filter_In in Hx. destruct Hx as [Hx Hk].
      rewrite (find_none _ _ Hfind x Hx) in Hk. discriminate. }
    assert (Hnew : same_key d e (new_row (next_id t) d e p) = true).
    { apply same_key_iff. reflexivity. }
    split; [apply in_or_app; right; now left|].
    split; [now apply carries_new_row|]. split; [reflexivity|]. split.
    + rewrite filter_app. simpl. unfold other_key at 2. rewrite Hnew. simpl.
      apply app_nil_r.
    + intros _. rewrite filter_app, Hnone. simpl. now rewrite Hnew.
Qed.

(** The run of a record upsert the store serves, for a body with its two key
    columns. *)
Lemma save_run (p : StockPatch) (d e msg : string) (w : World) :
  p_from_date p = Some d -> p_emiten p = Some e ->
  hd None (outages w) = None ->
  exists r t',
    upsert_stock_row p (db w) = Some (r, t')
    /\ (resp <- request (exec_upsert_stock [p] "from_date,emiten") ;;
        match error resp with
        | Some err => console_error msg err ;;; throw err
        | None => ret (data resp)
        end) w
       = (Returned (Some [r]),
          {| db := t'; outages := tl (outages w); console := console w;
             now := now w |}).
Proof.
  intros Hd He Hserved.
  destruct (upsert_row_effect p (db w) d e Hd He) as (r & t' & Hup & _).
  exists r, t'. split; [exact Hup|].
  unfold bind, request, exec_upsert_stock. simpl. rewrite Hup.
  destruct (outages w) as [|[err|] rest]; try discriminate; reflexivity.
Qed.

(** X13. Saving a watchlist analysis on a store that serves the request and
    whose (from_date, emiten) pairs are unique returns the one row written.
    After it the table holds exactly one row for the pair of the argument,
    that row holds every column the argument carries, the rows of every other
    pair are as they were, and the session table is untouched. *)
Theorem save_watchlist_upserts (d : WatchlistData) (w : World) :
  hd None (outages w) = None -> unique_keys (db w) ->
  exists r w',
    saveWatchlistAnalysis d w = (Returned (Some [r]), w')
    /\ filter (same_key (wa_from_date d) (wa_emiten d)) (stock_queries (db w')) = [r]
    /\ carries (body_of_watchlist d) r
    /\ filter (other_key (wa_from_date d) (wa_emiten d)) (stock_queries (db w'))
       = filter (other_key (wa_from_date d) (wa_emiten d)) (stock_queries (db w))
    /\ session (db w') = session (db w)
    /\ console w' = console w.
Proof.
  intros Hserved [Hkeys _].
  destruct (upsert_row_effect (body_of_watchlist d) (db w)
              (wa_from_date d) (wa_emiten d) eq_refl eq_refl)
    as (r & t' & Hup & _ & Hc & Hs & Hothers & Hone).
  destruct (save_run (body_of_watchlist d) (wa_from_date d) (wa_emiten d)
              "Error saving watchlist analysis:" w eq_refl eq_refl Hserved)
    as (r0 & t0 & Hup0 & Hrun).
  rewrite Hup in Hup0. injection Hup0 as <- <-.
  do 2 eexists. split; [exact Hrun|]. simpl. auto.
Qed.

Lemma save_watchlist_upserts_witness :
  exists r w',
    saveWatchlistAnalysis
      (sample_analysis "2024-01-03" "ANTM" (Some "success") (Some 1500%Z))
      sample_world = (Returned (Some [r]), w')
    /\ filter (same_key "2024-01-03" "ANTM") (stock_queries (db w')) = [r]
    /\ carries (body_of_watchlist
                  (sample_analysis "2024-01-03" "ANTM" (Some "success") (Some 1500%Z)))
               r
    /\ filter (other_key "2024-01-03" "ANTM") (stock_queries (db w'))
       = filter (other_key "2024-01-03" "ANTM") (stock_queries (db sample_world))
    /\ session (db w') = session (db sample_world)
    /\ console w' = console sample_world.
Proof.
  apply (save_watchlist_upserts
           (sample_analysis "2024-01-03" "ANTM" (Some "success") (Some 1500%Z))
           sample_world); [reflexivity|].
  split; simpl; repeat constructor; simpl; intuition discriminate.
Defined.

(** X14. Saving a stock query that carries a [from_date], on a store that
    serves the request and whose (from_date, emiten) pairs are unique,
    returns the one row written.  After it the table holds exactly one row
    for the pair of the argument, that row holds every column the argument
    carries, the rows of every other pair are as they were, and the session
    table is untouched. *)
Theorem save_stock_query_upserts (d : StockQueryData) (date : string) (w : World) :
  d_from_date d = Some date ->
  hd None (outages w) = None -> unique_keys (db w) ->
  exists r w',
    saveStockQuery d w = (Returned (Some [r]), w')
    /\ filter (same_key date (d_emiten d)) (stock_queries (db w')) = [r]
    /\ carries (body_of_query d) r
    /\ filter (other_key date (d_emiten d)) (stock_queries (db w'))
       = filter (other_key date (d_emiten d)) (stock_queries (db w))
    /\ session (db w') = session (db w)
    /\ console w' = console w.
Proof.
  intros Hdate Hserved [Hkeys _].
  destruct (upsert_row_effect (body_of_query d) (db w) date (d_emiten d)
              Hdate eq_refl)
    as (r & t' & Hup & _ & Hc & Hs & Hothers & Hone).
  destruct (save_run (body_of_query d) date (d_emiten d)
              "Error saving to Supabase:" w Hdate eq_refl Hserved)
    as (r0 & t0 & Hup0 & Hrun).
  rewrite Hup in Hup0. injection Hup0 as <- <-.
  do 2 eexists. split; [exact Hrun|]. simpl. auto.
Qed.

Lemma save_stock_query_upserts_witness :
  exists r w',
    saveStockQuery (sample_query (Some "2024-01-02") "BBCA" (Some 9100%Z))
      sample_world = (Returned (Some [r]), w')
    /\ filter (same_key "2024-01-02" "BBCA") (stock_queries (db w')) = [r]
    /\ carries (body_of_query (sample_query (Some "2024-01-02") "BBCA" (Some 9100%Z)))
               r
    /\ filter (other_key "2024-01-02" "BBCA") (stock_queries (db w'))
       = filter (other_key "2024-01-02" "BBCA") (stock_queries (db sample_world))
    /\ session (db w') = session (db sample_world)
    /\ console w' = console sample_world.
Proof.
  apply (save_stock_query_upserts
           (sample_query (Some "2024-01-02") "BBCA" (Some 9100%Z))
           "2024-01-02" sample_world); [reflexivity | reflexivity |].
  split; simpl; repeat constructor; simpl; intuition discriminate.
Defined.

(** X15. Save, then look up.  After a watchlist analysis with status
    "success" is saved on a store that serves the two requests,
    [getLatestStockQuery] of its ticker returns a successful analysis of that
    ticker dated on or after the date of the one saved. *)
Theorem save_then_latest (d : WatchlistData) (w : World) :
  wa_status d = Some "success" -> serves 2 w ->
  exists written w1 r,
    saveWatchlistAnalysis d w = (Returned written, w1)
    /\ fst (getLatestStockQuery (wa_emiten d) w1) = Returned (Some r)
    /\ r_emiten r = wa_emiten d
    /\ r_status r = Some "success"
    /\ String.leb (wa_from_date d) (r_from_date r) = true.
Proof.
  intros Hst Hserved. destruct (serves_two w Hserved) as [H0 H1].
  assert (Hhd : hd None (outages w) = None).
  { destruct H0 as [-> | [rest ->]]; reflexivity. }
  destruct (upsert_row_effect (body_of_watchlist d) (db w)
              (wa_from_date d) (wa_emiten d) eq_refl eq_refl)
    as (r0 & t' & Hup & Hin & Hc & _).
  destruct (save_run (body_of_watchlist d) (wa_from_date d) (wa_emiten d)
              "Error saving watchlist analysis:" w eq_refl eq_refl Hhd)
    as (r1 & t1 & Hup1 & Hrun).
  rewrite Hup in Hup1. injection Hup1 as <- <-.
  assert (Hr0 : r_from_date r0 = wa_from_date d /\ r_emiten r0 = wa_emiten d
                /\ r_status r0 = Some "success").
  { destruct Hc as (Hd & He & _ & _ & _ & _ & _ & _ & _ & _ & _ & _ & _ & _ & _
                    & _ & _ & _ & _ & Hs & _).
    repeat split; [now apply Hd | now apply He | now apply Hs]. }
  destruct Hr0 as (Hd0 & He0 & Hs0).
  assert (Hok : In r0 (filter (successful (wa_emiten d)) (stock_queries t'))).
  { apply filter_In. split; [exact Hin|]. now apply successful_iff. }
  destruct (newest (filter (successful (wa_emiten d)) (stock_queries t')))
    as [r|] eqn:Hn.
  2:{ apply newest_none in Hn. now rewrite Hn in Hok. }
  pose proof Hn as Hnewest. apply newest_some in Hn. destruct Hn as [Hr Hle].
  apply filter_In in Hr. destruct Hr as [_ Hr]. apply successful_iff in Hr.
  do 3 eexists. split; [exact Hrun|].
  rewrite latest_run. simpl. rewrite Hnewest.
  split; [|split; [apply Hr|split; [apply Hr|]]].
  - destruct H1 as [-> | [rest ->]]; reflexivity.
  - rewrite <- Hd0. now apply Hle.
Qed.

Lemma save_then_latest_witness :
  exists written w1 r,
    saveWatchlistAnalysis
      (sample_analysis "2024-01-03" "BBCA" (Some "success") (Some 9200%Z))
      sample_world = (Returned written, w1)
    /\ fst (getLatestStockQuery "BBCA" w1) = Returned (Some r)
    /\ r_emiten r = "BBCA"
    /\ r_status r = Some "success"
    /\ String.leb "2024-01-03" (r_from_date r) = true.
Proof.
  apply (save_then_latest
           (sample_analysis "2024-01-03" "BBCA" (Some "success") (Some 9200%Z))
           sample_world); [reflexivity|].
  intros i _. destruct i as [|[|i]]; reflexivity.
Defined.

(** ** When the history fetch throws *)



(** With a sort column the table does not have. *)
Example history_unknown_column :
  fst (getWatchlistAnalysisHistory (Some (sorted_request "volume" asc)) sample_world)
  = Thrown undefined_column.
Proof. reflexivity. Qed.

(** ** Listings of a table with unique keys *)

Lemma NoDup_map_filter {A K} (key : A -> K) (p : A -> bool) (l : list A) :
  NoDup (map key l) -> NoDup (map key (filter p l)).
Proof.
  induction l as [|x l IH]; intros Hnd; simpl; [constructor|].
  inversion Hnd as [|k ks Hx Hl]; subst.
  destruct (p x); [|now apply IH]. simpl. constructor; [|now apply IH].
  intros Hin. apply Hx. apply in_map_iff in Hin. destruct Hin as (y & Hy & Hin).
  apply filter_In in Hin. rewrite <- Hy. apply in_map. tauto.
Qed.

Lemma NoDup_map_window {A K} (key : A -> K) (o l : option nat) (rows : list A) :
  NoDup (map key rows) -> NoDup (map key (window o l rows)).
Proof.
  intros Hnd. unfold window.
  assert (Hs : NoDup (map key (match o with Some k => skipn k rows | None => rows end))).
  { destruct o as [k|]; [|exact Hnd].
    rewrite <- (firstn_skipn k rows), map_app in Hnd.
    now apply NoDup_app_remove_l in Hnd. }
  destruct l as [n|]; [|exact Hs].
  set (rest := match o with Some k => skipn k rows | None => rows end) in *.
  rewrite <- (firstn_skipn n rest), map_app in Hs.
  now apply NoDup_app_remove_r in Hs.
Qed.

Lemma StronglySorted_distinct {A K} (P : A -> A -> Prop) (key : A -> K)
  (l : list A) :
  StronglySorted P l -> NoDup (map key l) ->
  StronglySorted (fun x y => P x y /\ key x <> key y) l.
Proof.
  induction 1 as [|x l Hs IH Hall]; intros Hnd; [constructor|].
  inversion Hnd as [|k ks Hx Hl]; subst. constructor; [now apply IH|].
  rewrite Forall_forall in *. intros y Hy. split; [now apply Hall|].
  intros Heq. apply Hx. rewrite Heq. now apply in_map.
Qed.

(** The rows a call returns from a table with unique keys have distinct
    keys. *)
Lemma history_rows_distinct (f : HistoryFilters) (w : World) (rows : list Row) :
  unique_keys (db w) ->
  rows_of (getWatchlistAnalysisHistory (Some f) w) = Some rows ->
  NoDup (map stock_key rows).
Proof.
  intros [Hkeys _] Hrows.
  destruct (history_rows_returned f w rows Hrows) as (ks & _ & -> & _).
  apply NoDup_map_window.
  eapply Permutation_NoDup;
    [apply Permutation_map, Permutation_sym, sort_by_perm|].
  now apply NoDup_map_filter.
Qed.

(** X17. On a table whose (from_date, emiten) pairs are unique, the rows a
    history fetch with [sortBy = "emiten"] returns go strictly by ticker in
    the direction asked for and, within one ticker, by strictly ascending
    [from_date]; those a fetch with [sortBy = "combined"] returns go strictly
    by (from_date, emiten) in the direction asked for: no two returned rows
    could change places. *)
Theorem history_strictly_sorted (f : HistoryFilters) (w : World) (rows : list Row) :
  unique_keys (db w) ->
  rows_of (getWatchlistAnalysisHistory (Some f) w) = Some rows ->
  (f_sortBy f = Some "emiten" ->
   StronglySorted (strictly_by_emiten (requested_asc f)) rows)
  /\ (f_sortBy f = Some "combined" ->
      StronglySorted (strictly_combined (requested_asc f)) rows).
Proof.
  intros Hu Hrows.
  pose proof (history_rows_distinct f w rows Hu Hrows) as Hnd.
  destruct (history_rows_returned f w rows Hrows) as (ks & Hks & Heq & _).
  rewrite history_orders in Hks. cbv zeta in Hks. cbn [opt] in Hks.
  assert (Hdir : is_asc match f_sortOrder f with Some o => o | None => desc end
                 = requested_asc f).
  { unfold requested_asc. now destruct (f_sortOrder f). }
  rewrite Hdir in Hks.
  assert (Hsorted : StronglySorted (cmp_le (compare_rows ks)) rows).
  { rewrite Heq. apply StronglySorted_window, sorted_by_keys. }
  split; intros Hby; rewrite Hby in Hks; simpl in Hks; injection Hks as <-.
  - apply (StronglySorted_weaken _ _ _ (emiten_keys_order _)) in Hsorted.
    apply (StronglySorted_distinct _ stock_key _) in Hsorted; [|exact Hnd].
    eapply StronglySorted_weaken; [|exact Hsorted].
    intros x y [Hle Hne]. unfold by_emiten, strictly_by_emiten, stock_key in *.
    destruct (String.compare (r_emiten x) (r_emiten y)) eqn:Hc; try exact Hle.
    apply String.compare_eq_iff in Hc. apply leb_neq_ltb; [exact Hle|].
    intros Hd. apply Hne. now rewrite Hc, Hd.
  - apply (StronglySorted_weaken _ _ _ (combined_keys_order _)) in Hsorted.
    apply (StronglySorted_distinct _ stock_key _) in Hsorted; [|exact Hnd].
    eapply StronglySorted_weaken; [|exact Hsorted].
    intros x y [Hle Hne]. unfold by_combined, strictly_combined, stock_key in *.
    destruct (String.compare (r_from_date x) (r_from_date y)) eqn:Hc; try exact Hle.
    apply String.compare_eq_iff in Hc.
    destruct (requested_asc f); (apply leb_neq_ltb; [exact Hle|]);
      intros He; apply Hne; now rewrite Hc, He.
Qed.

Lemma history_strictly_sorted_witness :
  (Some "emiten" = Some "emiten" ->
   StronglySorted (strictly_by_emiten false)
     (map (fun i => nth i (stock_queries sample_db)
                      (sample_row 0 EmptyString EmptyString None None))
          [1; 0; 2; 3; 4]))
  /\ (Some "emiten" = Some "combined" ->
      StronglySorted (strictly_combined false)
        (map (fun i => nth i (stock_queries sample_db)
                         (sample_row 0 EmptyString EmptyString None None))
             [1; 0; 2; 3; 4])).
Proof.
  apply (history_strictly_sorted (sorted_request "emiten" desc) sample_world).
  - split; simpl; repeat constructor; simpl; intuition discriminate.
  - reflexivity.
Defined.

(** ** The session upsert and the requests of a call *)

(** X18. On a store that serves the request and whose session keys are
    unique, [upsertSession] returns the entry written: the key, the value and
    the current time as [updated_at].  After it that entry is the only one of
    its key, the entries of every other key are as they were, and the
    analyses table is untouched. *)
Theorem upsert_session_effect (key value : string) (w : World) :
  hd None (outages w) = None -> NoDup (map s_key (session (db w))) ->
  exists w',
    upsertSession key value w
    = (Returned (Some [ {| s_key := key; s_value := value; s_updated_at := now w |} ]),
       w')
    /\ filter (has_key key) (session (db w'))
       = [ {| s_key := key; s_value := value; s_updated_at := now w |} ]
    /\ (forall other, other <> key ->
                      filter (has_key other) (session (db w'))
                      = filter (has_key other) (session (db w)))
    /\ stock_queries (db w') = stock_queries (db w)
    /\ console w' = console w.
Proof.
  intros Hserved Hnd.
  pose (row := {| s_key := key; s_value := value; s_updated_at := now w |}).
  assert (Hlook : forall k,
             filter (has_key k) (session (snd (exec_upsert_session row "key" (db w))))
             = if String.eqb key k then [row] else filter (has_key k) (session (db w))).
  { intros k. simpl. apply (upserted_lookup row _ k Hnd). }
  exists {| db := snd (exec_upsert_session row "key" (db w));
            outages := tl (outages w); console := console w; now := now w |}.
  split; [|split; [|split; [|split]]].
  - unfold upsertSession, toISOString_now, bind, request. fold row.
    destruct (outages w) as [|[e|] rest]; try discriminate; reflexivity.
  - cbn [db]. fold row. rewrite Hlook. now rewrite String.eqb_refl.
  - intros other Hother. cbn [db]. rewrite Hlook.
    destruct (String.eqb_spec key other) as [He|_]; [|reflexivity].
    now destruct Hother.
  - reflexivity.
  - reflexivity.
Qed.

Lemma upsert_session_effect_witness :
  exists w',
    upsertSession "token" "xyz" sample_world
    = (Returned (Some [ {| s_key := "token"; s_value := "xyz";
                           s_updated_at := now sample_world |} ]), w')
    /\ filter (has_key "token") (session (db w'))
       = [ {| s_key := "token"; s_value := "xyz"; s_updated_at := now sample_world |} ]
    /\ (forall other, other <> "token" ->
                      filter (has_key other) (session (db w'))
                      = filter (has_key other) (session (db sample_world)))
    /\ stock_queries (db w') = stock_queries (db sample_world)
    /\ console w' = console sample_world.
Proof.
  apply (upsert_session_effect "token" "xyz" sample_world); [reflexivity|].
  simpl. repeat constructor. intros [].
Defined.

